(** * Sentinel-2 agriculture index pipeline: a shallow embedding

    The three Python modules of the repository are embedded here:

    - [preprocess_file.py]  (class [ProcessMultiPoly]): flattening of
      MultiPolygon rows of a geodataframe;
    - [senti_download.py]   (class [DownloadImages]): archive query, download
      and the CSV ledger of downloaded products;
    - [img_processing.py]   (class [ImageProcessing]): selection of product
      folders, NDVI / NDRE generation and clipping to a polygon.

    Python exceptions are values of [exn]; a function that can raise returns
    a [result].  Functions that touch the file system or the archive thread a
    world through a small state-and-exception monad.  The geospatial
    libraries the code wraps (shapely, rasterio, sentinelsat, the date
    parsers) are interfaces: type classes whose operations the embedded code
    calls, instantiated on small concrete models where a statement is
    evaluated. *)

From Stdlib Require Import Ascii String ZArith QArith Qcanon Lia.
From stdpp Require Import base decidable option list numbers strings pretty gmap.

Local Open Scope string_scope.
#[local] Set Warnings "-clear-no-such-hyp".

(** ** Python values that are shared by the three modules *)

(** The exceptions the embedded code can raise. *)
Inductive exn : Type :=
| AttributeError
| TypeError
| ValueError
| ZeroDivisionError
| IndexError
| KeyError
| UnboundLocalError
| FileNotFoundError
| OSError
| RasterioIOError
| PlainException (msg : string).

Inductive result (A : Type) : Type :=
| Ok (a : A)
| Raise (e : exn).
Arguments Ok {A} a.
Arguments Raise {A} e.

Global Instance result_ret : MRet result := λ A a, Ok a.

Global Instance result_bind : MBind result := λ A B k r,
  match r with
  | Ok a => k a
  | Raise e => Raise e
  end.

(** [for x in xs: ys += f(x)] with an [f] that can raise. *)
Fixpoint rconcat_map {A B} (f : A → result (list B)) (xs : list A)
  : result (list B) :=
  match xs with
  | [] => Ok []
  | x :: xs' =>
      ys ← f x; zs ← rconcat_map f xs'; Ok (ys ++ zs)%list
  end.

Definition is_ok {A} (r : result A) : bool :=
  match r with Ok _ => true | Raise _ => false end.

(** ** preprocess_file.py : ProcessMultiPoly *)

(** Geometry kinds other than the two the module asks for. *)
Inductive other_kind : Type :=
| Point | LineString | LinearRing | MultiPoint | MultiLineString
| GeometryCollection.

(** A shapely geometry as far as this module looks at it: a polygon, a
    multi-polygon with its constituent polygons in order, or something else.
    [P] is the type of plain polygons. *)
Inductive geom (P : Type) : Type :=
| Polygon (p : P)
| MultiPolygon (ps : list P)
| OtherGeom (k : other_kind).
Arguments Polygon {P} p.
Arguments MultiPolygon {P} ps.
Arguments OtherGeom {P} k.

(** A row of a geodataframe: the [name] and [geometry] columns and the
    remaining columns. *)
Record gdf_row (P : Type) : Type := GdfRow {
  name : string;
  geometry : geom P;
  attrs : list (string * string)
}.
Arguments GdfRow {P} name geometry attrs.
Arguments name {P} _.
Arguments geometry {P} _.
Arguments attrs {P} _.

Section preprocess_file.
Context {P : Type}.

Definition other_kind_name (k : other_kind) : string :=
  match k with
  | Point => "Point"
  | LineString => "LineString"
  | LinearRing => "LinearRing"
  | MultiPoint => "MultiPoint"
  | MultiLineString => "MultiLineString"
  | GeometryCollection => "GeometryCollection"
  end.

(** [poly.geom_type] *)
Definition geom_type (g : geom P) : string :=
  match g with
  | Polygon _ => "Polygon"
  | MultiPolygon _ => "MultiPolygon"
  | OtherGeom k => other_kind_name k
  end.

(** [check_type], lines 16-34. *)
Definition check_type (poly : geom P) (poly_type : string) : bool :=
  if String.eqb (geom_type poly) poly_type then true else false.

(** [_row_by_type], lines 36-53: the rows of the wanted type, or [None]
    when there is none. *)
Definition _row_by_type (gdf : list (gdf_row P)) (poly_type : string)
  : option (list (gdf_row P)) :=
  let sel := filter (λ x, check_type (geometry x) poly_type = true) gdf in
  if bool_decide (sel = []) then None else Some sel.

(** [list(row.geometry)]: a multi-part geometry iterates over its parts, a
    plain polygon is not iterable. *)
Definition list_geometry (g : geom P) : result (list P) :=
  match g with
  | MultiPolygon ps => Ok ps
  | Polygon _ => Raise TypeError
  | OtherGeom _ => Raise TypeError
  end.

(** The body of the loop of lines 69-80, for one row. *)
Definition _transform_row (row : gdf_row P) : result (list (gdf_row P)) :=
  parts ← list_geometry (geometry row);
   if bool_decide (1 < length parts) then
     Ok (imap (λ k p, GdfRow (name row ++ "_" ++ pretty k) (Polygon p) [])
              parts)
   else
     match parts with
     | p :: _ => Ok [GdfRow (name row) (Polygon p) []]
     | [] => Raise IndexError
     end.

(** [_transform_multipoly], lines 55-84.  With more than one row every
    row is expanded; with a single row the geometry column is overwritten
    with the first part of that row's geometry. *)
Definition _transform_multipoly (multipoly : list (gdf_row P))
  : result (list (gdf_row P)) :=
  if bool_decide (1 < length multipoly) then
    rconcat_map _transform_row multipoly
  else
    match multipoly with
    | [] => Raise IndexError
    | first :: _ =>
        parts ← list_geometry (geometry first);
         match parts with
         | [] => Raise IndexError
         | p :: _ =>
             Ok (map (λ r, GdfRow (name r) (Polygon p) (attrs r)) multipoly)
         end
    end.

Definition none_polygon_msg : string :=
  "None Polygon was found. Data type not recognized.".

(** [pd.concat] of the processed frame and a frame that may be [None]. *)
Definition concat_frames (a : list (gdf_row P)) (b : option (list (gdf_row P)))
  : list (gdf_row P) :=
  (a ++ default [] b)%list.

(** [preprocess_multipoly], lines 86-108. *)
Definition preprocess_multipoly (gdf : list (gdf_row P))
  : result (list (gdf_row P)) :=
  let multipoly_df := _row_by_type gdf "MultiPolygon" in
  let poly_df := _row_by_type gdf "Polygon" in
  match multipoly_df, poly_df with
  | None, None => Raise (PlainException none_polygon_msg)
  | Some m, _ =>
      poly_df_processed ← _transform_multipoly m;
      Ok (concat_frames poly_df_processed poly_df)
  | None, Some p => Ok p
  end.

Definition is_polygon (g : geom P) : bool :=
  match g with Polygon _ => true | _ => false end.

Definition is_multipolygon (g : geom P) : bool :=
  match g with MultiPolygon _ => true | _ => false end.

(** The constituent polygons of a row (none for a row that is not a
    MultiPolygon). *)
Definition parts (row : gdf_row P) : list P :=
  match geometry row with
  | MultiPolygon ps => ps
  | _ => []
  end.
End preprocess_file.

(** ** The state-and-exception monad of the effectful code *)

(** A computation over a world [W]: it returns a value or raises, and in both
    cases leaves the world it reached (a write done before a later statement
    raises stays done). *)
Definition IO (W A : Type) : Type := W → result A * W.

Global Instance io_ret {W} : MRet (IO W) := λ A a w, (Ok a, w).

Global Instance io_bind {W} : MBind (IO W) := λ A B k m w,
  match m w with
  | (Ok a, w') => k a w'
  | (Raise e, w') => (Raise e, w')
  end.

(** A pure computation that can raise, run inside [IO]. *)
Definition lift {W A} (r : result A) : IO W A := λ w, (r, w).

(** [try: body  except: handler] with a bare [except]. *)
Definition try_except {W A} (body handler : IO W A) : IO W A := λ w,
  match body w with
  | (Ok a, w') => (Ok a, w')
  | (Raise _, w') => handler w'
  end.

(** [for x in xs: acc = body(x, acc)] *)
Fixpoint for_each {W A B} (body : A → B → IO W B) (xs : list A) (acc : B)
  : IO W B :=
  match xs with
  | [] => mret acc
  | x :: xs' => acc' ← body x acc; for_each body xs' acc'
  end.

(** ** The wrapped libraries *)

(** shapely: geometries with intersection and area ([Qc] stands for the
    floats the library returns). *)
Class Shapely : Type := {
  shape : Type;
  intersection : shape → shape → shape;
  area : shape → Qc;
  is_empty : shape → bool;
  within : shape → shape → bool
}.


(** [a / b] on Python floats. *)
Definition py_div (a b : Qc) : result Qc :=
  if bool_decide (b = 0%Qc) then Raise ZeroDivisionError else Ok (a / b)%Qc.

(** ** senti_download.py : DownloadImages *)

Module Product.
(** A row of the products geodataframe; [idx] is its index label (the
    product id of the archive). *)
Record t `{Shapely} : Type := mk {
  idx : string;
  title : string;
  filename : string;
  geometry : shape
}.
Arguments mk {_} idx title filename geometry.
End Product.

(** The values that reach the parameters of [download_folders]. *)
Inductive pyval `{Shapely} : Type :=
| PyBool (b : bool)
| PyFloat (q : Qc)
| PyStr (s : string)
| PyShape (g : shape)
| PyFrame (rows : list Product.t).
Arguments PyBool {_} b.
Arguments PyFloat {_} q.
Arguments PyStr {_} s.
Arguments PyShape {_} g.
Arguments PyFrame {_} rows.

(** The world of the download module: directory listings, the CSV files that
    can be read with their rows, the paths that cannot be opened for writing,
    and the downloads requested from the archive (by product id, oldest
    first). *)
Record world `{Shapely} : Type := World {
  dirs : gmap string (gset string);
  csvs : gmap string (list Product.t);
  unwritable : gset string;
  downloads : list string
}.
Arguments World {_} dirs csvs unwritable downloads.

(** sentinelsat and zipfile: the answer of the archive to a query, and the
    top-level member names of the archive [title.zip]. *)
Class Sentinel `{Shapely} : Type := {
  api_query : shape → string → string → Qc * Qc → result (list Product.t);
  zip_namelist : string → list string
}.

Section senti_download.
Context `{Sentinel}.

(** [products.iterrows()] *)
Definition iterrows (products : pyval) : result (list Product.t) :=
  match products with
  | PyFrame rows => Ok rows
  | _ => Raise AttributeError
  end.

(** [polygon.intersection(g)] *)
Definition py_intersection (polygon : pyval) (g : shape) : result shape :=
  match polygon with
  | PyShape p => Ok (intersection p g)
  | _ => Raise AttributeError
  end.

(** [polygon.area] *)
Definition py_area (polygon : pyval) : result Qc :=
  match polygon with
  | PyShape p => Ok (area p)
  | _ => Raise AttributeError
  end.

(** The truth value of [if v:]; a data frame has none. *)
Definition truth (v : pyval) : result bool :=
  match v with
  | PyBool b => Ok b
  | PyFloat q => Ok (negb (bool_decide (q = 0%Qc)))
  | PyStr s => Ok (negb (bool_decide (s = "")))
  | PyShape g => Ok (negb (is_empty g))
  | PyFrame _ => Raise ValueError
  end.

(** [if area >= threshold:] with a float on the left: a number compares, a
    string or a geometry does not, and the comparison with a data frame is a
    frame, which has no truth value. *)
Definition py_ge (a : Qc) (threshold : pyval) : result bool :=
  match threshold with
  | PyFloat t => Ok (bool_decide (t ≤ a)%Qc)
  | PyBool b => Ok (bool_decide ((if b then 1 else 0) ≤ a)%Qc)
  | PyStr _ | PyShape _ => Raise TypeError
  | PyFrame _ => Raise ValueError
  end.

(** [os.listdir(path)] *)
Definition os_listdir (path : pyval) : IO world (gset string) := λ w,
  match path with
  | PyStr p =>
      match dirs w !! p with
      | Some names => (Ok names, w)
      | None => (Raise FileNotFoundError, w)
      end
  | _ => (Raise TypeError, w)
  end.

Definition add_names (p : string) (names : gset string) (w : world) : world :=
  World (<[p := names ∪ default ∅ (dirs w !! p)]> (dirs w))
        (csvs w) (unwritable w) (downloads w).

(** [self.api.download(idx, directory_path=database_path)]: the archive
    [title.zip] arrives in the directory. *)
Definition api_download (row : Product.t) (database_path : string)
  : IO world unit := λ w,
  let w' := add_names database_path {[ Product.title row ++ ".zip" ]} w in
  (Ok (), World (dirs w') (csvs w') (unwritable w')
                (downloads w' ++ [Product.idx row])).

(** Lines 91-93: open [title.zip] in the database directory and extract it
    there. *)
Definition extractall (row : Product.t) (database_path : string)
  : IO world unit := λ w,
  match dirs w !! database_path with
  | Some names =>
      if bool_decide (Product.title row ++ ".zip" ∈ names) then
        (Ok (), add_names database_path
                  (list_to_set (zip_namelist (Product.title row))) w)
      else (Raise FileNotFoundError, w)
  | None => (Raise FileNotFoundError, w)
  end.

Definition str_of (v : pyval) : result string :=
  match v with
  | PyStr s => Ok s
  | _ => Raise TypeError
  end.

(** The body of the loop of lines 81-97 for one row; [delete] is the list
    of index labels collected so far. *)
Definition download_row (polygon regional_poly database_path threshold : pyval)
    (row : Product.t) (delete : list string) : IO world (list string) :=
  inter ← lift (py_intersection polygon (Product.geometry row));
  let intersect_area := area inter in
  rp ← lift (truth regional_poly);
  a ← lift (if rp : bool
            then py_div intersect_area (area (Product.geometry row))
            else (pa ← py_area polygon; py_div intersect_area pa));
  ge ← lift (py_ge a threshold);
  if ge : bool then
    names ← os_listdir database_path;
    if bool_decide (Product.filename row ∉ names) then
      db ← lift (str_of database_path);
      _ ← api_download row db;
      _ ← extractall row db;
      mret delete
    else mret (delete ++ [Product.idx row])%list
  else mret (delete ++ [Product.idx row])%list.

(** [products.drop(delete)] *)
Definition drop (products : list Product.t) (delete : list string)
  : list Product.t :=
  filter (λ r, Product.idx r ∉ delete) products.

(** [download_folders], lines 60-99. *)
Definition download_folders
    (polygon regional_poly products database_path threshold : pyval)
  : IO world (list Product.t) :=
  rows ← lift (iterrows products);
  delete ← for_each (download_row polygon regional_poly database_path threshold)
                    rows [];
  mret (drop rows delete).

(** [pd.read_csv(csv_path)] *)
Definition read_csv (csv_path : string) : IO world (list Product.t) := λ w,
  match csvs w !! csv_path with
  | Some df => (Ok df, w)
  | None => (Raise FileNotFoundError, w)
  end.

(** [df.to_csv(csv_path)]: the rows become the content of the file at
    [csv_path].  The listings of [dirs] are those of the database
    directories; that a new ledger shows in the listing of the directory it
    lies in is not recorded there. *)
Definition to_csv (df : list Product.t) (csv_path : string) : IO world unit :=
  λ w,
  if bool_decide (csv_path ∈ unwritable w) then (Raise OSError, w)
  else (Ok (), World (dirs w) (<[csv_path := df]> (csvs w))
                     (unwritable w) (downloads w)).

(** [df.append(other)]: a new frame; [df] itself is not changed. *)
Definition df_append (df other : list Product.t) : list Product.t :=
  (df ++ other)%list.

(** [update_downloaded], lines 101-119.  The frame built by [df.append] is
    not bound to a name; the frame written is [df]. *)
Definition update_downloaded (csv_path : string)
    (downloaded_products : list Product.t) : IO world unit :=
  try_except
    (df ← read_csv csv_path;
     let _ := df_append df downloaded_products in
     to_csv df csv_path)
    (to_csv downloaded_products csv_path).

(** [get_products], lines 32-58. *)
Definition get_products (polygon : shape) (initial_date final_date : string)
    (cloudcover : Qc * Qc) : IO world (list Product.t) :=
  lift (api_query polygon initial_date final_date cloudcover).

(** The default of the parameter [threshold] of [download_folders]. *)
Definition default_threshold : pyval := PyFloat (Q2Qc (9 # 10)).

(** [full_pipe], lines 121-148.  The call of line 146 passes four
    positional arguments to the five parameters [polygon], [regional_poly],
    [products], [database_path], [threshold]: they bind in that order and
    [threshold] takes its default. *)
Definition full_pipe (csv_path : string) (polygon : shape)
    (intial_date final_date database_path : string) (threshold : Qc)
    (cloudcover : Qc * Qc) : IO world unit :=
  products ← get_products polygon intial_date final_date cloudcover;
  products ← download_folders (PyShape polygon) (PyFrame products)
                              (PyStr database_path) (PyFloat threshold)
                              default_threshold;
  update_downloaded csv_path products.

(** The ratio of lines 82-86 for a polygon and a product row: the area of
    the intersection over the area of the product footprint when
    [regional_poly] holds, over the area of the polygon otherwise. *)
Definition divisor (polygon : shape) (regional_poly : bool) (row : Product.t)
  : Qc :=
  if regional_poly then area (Product.geometry row) else area polygon.

Definition area_ratio (polygon : shape) (regional_poly : bool)
    (row : Product.t) : Qc :=
  (area (intersection polygon (Product.geometry row))
   / divisor polygon regional_poly row)%Qc.

(** The world once the archive of [row] has arrived in [database_path] and
    has been extracted there. *)
Definition fetched (database_path : string) (row : Product.t) (w : world)
  : world :=
  let w1 := add_names database_path {[ Product.title row ++ ".zip" ]} w in
  add_names database_path (list_to_set (zip_namelist (Product.title row)))
    (World (dirs w1) (csvs w1) (unwritable w1)
           (downloads w1 ++ [Product.idx row])).

(** The products [download_folders] downloads from a frame, written
    directly: going down the rows, a product is taken when its ratio reaches
    the threshold and its file name is not among [names], the names in the
    database directory at that moment; a product taken adds its archive and
    the members of the archive to the directory. *)
Fixpoint download_plan (polygon : shape) (regional_poly : bool) (threshold : Qc)
    (names : gset string) (rows : list Product.t) : list Product.t :=
  match rows with
  | [] => []
  | row :: rows' =>
      if bool_decide (threshold ≤ area_ratio polygon regional_poly row)%Qc
         && bool_decide (Product.filename row ∉ names)
      then row :: download_plan polygon regional_poly threshold
                    (list_to_set (zip_namelist (Product.title row))
                     ∪ ({[ Product.title row ++ ".zip" ]} ∪ names))
                    rows'
      else download_plan polygon regional_poly threshold names rows'
  end.

(** The rows of a frame that [download_plan] does not take, in order. *)
Fixpoint download_skip (polygon : shape) (regional_poly : bool) (threshold : Qc)
    (names : gset string) (rows : list Product.t) : list Product.t :=
  match rows with
  | [] => []
  | row :: rows' =>
      if bool_decide (threshold ≤ area_ratio polygon regional_poly row)%Qc
         && bool_decide (Product.filename row ∉ names)
      then download_skip polygon regional_poly threshold
             (list_to_set (zip_namelist (Product.title row))
              ∪ ({[ Product.title row ++ ".zip" ]} ∪ names))
             rows'
      else row :: download_skip polygon regional_poly threshold names rows'
  end.

(** [os.listdir(database_path)] as a set; empty when there is no such
    directory. *)
Definition listed (database_path : string) (w : world) : gset string :=
  default ∅ (dirs w !! database_path).
End senti_download.

(** ** img_processing.py : ImageProcessing *)

(** *** Strings and paths *)

(** [s.split(c)] for a one-character separator. *)
Fixpoint split_on (c : ascii) (s : string) : list string :=
  match s with
  | EmptyString => [""]
  | String a s' =>
      if Ascii.eqb a c then "" :: split_on c s'
      else match split_on c s' with
           | w :: ws => String a w :: ws
           | [] => [String a ""]
           end
  end.

(** [sub in s] *)
Definition contains (sub s : string) : bool :=
  match String.index 0 sub s with
  | Some _ => true
  | None => false
  end.

Definition ends_with_slash (s : string) : bool :=
  match String.get (String.length s - 1) s with
  | Some c => Ascii.eqb c "/"%char
  | None => false
  end.

(** [os.path.join(a, b)] *)
Definition path_join (a b : string) : string :=
  if String.prefix "/" b then b
  else if bool_decide (a = "") then b
  else if ends_with_slash a then a ++ b
  else a ++ "/" ++ b.

(** [d[k]] on a dict with string keys. *)
Definition dict_get {V} (d : gmap string V) (k : string) : result V :=
  match d !! k with
  | Some v => Ok v
  | None => Raise KeyError
  end.

(** [l[i]] on a list. *)
Definition list_get {V} (l : list V) (i : nat) : result V :=
  match l !! i with
  | Some v => Ok v
  | None => Raise IndexError
  end.

(** *** Arrays *)

(** A float: a finite value (kept exact: the rounding of the stored binary
    float is not represented), an infinity or a NaN. *)
Inductive fval : Type :=
| Fin (q : Qc)
| PInf
| NInf
| NaN.

(** A numpy array: an unsigned integer array of [bits] bits per element, or
    a float array; [shape] as numpy reports it, elements in row-major
    order. *)
Inductive ndarray : Type :=
| UIntArr (bits : Z) (shape : list nat) (elems : list Z)
| FloatArr (shape : list nat) (elems : list fval).

Definition arr_shape (a : ndarray) : list nat :=
  match a with
  | UIntArr _ sh _ => sh
  | FloatArr sh _ => sh
  end.

Definition Z2Qc (z : Z) : Qc := Q2Qc (inject_Z z).

Definition fsub (x y : fval) : fval :=
  match x, y with
  | NaN, _ | _, NaN => NaN
  | Fin a, Fin b => Fin (a - b)%Qc
  | Fin _, PInf => NInf
  | Fin _, NInf => PInf
  | PInf, PInf => NaN
  | PInf, _ => PInf
  | NInf, NInf => NaN
  | NInf, _ => NInf
  end.

Definition fadd (x y : fval) : fval :=
  match x, y with
  | NaN, _ | _, NaN => NaN
  | Fin a, Fin b => Fin (a + b)%Qc
  | Fin _, PInf => PInf
  | Fin _, NInf => NInf
  | PInf, NInf => NaN
  | PInf, _ => PInf
  | NInf, PInf => NaN
  | NInf, _ => NInf
  end.

Definition fneg (x : fval) : fval :=
  match x with
  | Fin a => Fin (- a)%Qc
  | PInf => NInf
  | NInf => PInf
  | NaN => NaN
  end.

(** numpy float division: a zero divisor gives an infinity, or NaN for
    [0/0]; nothing is raised. *)
Definition fdiv (x y : fval) : fval :=
  match x, y with
  | NaN, _ | _, NaN => NaN
  | Fin a, Fin b =>
      if bool_decide (b = 0%Qc) then
        if bool_decide (a = 0%Qc) then NaN
        else if bool_decide (0 < a)%Qc then PInf else NInf
      else Fin (a / b)%Qc
  | Fin _, _ => Fin 0%Qc
  | _, Fin b => if bool_decide (b < 0)%Qc then fneg x else x
  | _, _ => NaN
  end.

(** [a.astype(float)] *)
Definition astype_float (a : ndarray) : ndarray :=
  match a with
  | UIntArr _ sh xs => FloatArr sh (map (λ z, Fin (Z2Qc z)) xs)
  | FloatArr sh xs => FloatArr sh xs
  end.

Definition float_elems (a : ndarray) : list fval :=
  match astype_float a with
  | FloatArr _ xs => xs
  | UIntArr _ _ _ => []
  end.

(** Element-wise operations are taken on arrays of one shape; arrays of
    different shapes are refused (numpy would first try to broadcast
    them). *)
Definition same_shape (a b : ndarray) : bool :=
  bool_decide (arr_shape a = arr_shape b).

(** [a - b] *)
Definition arr_sub (a b : ndarray) : result ndarray :=
  if same_shape a b then
    match a, b with
    | UIntArr wa sh xs, UIntArr wb _ ys =>
        Ok (UIntArr (wa `max` wb) sh
              (zip_with (λ x y, (x - y) `mod` 2 ^ (wa `max` wb))%Z xs ys))
    | _, _ => Ok (FloatArr (arr_shape a)
                    (zip_with fsub (float_elems a) (float_elems b)))
    end
  else Raise ValueError.

(** [a + b]: two unsigned integer arrays add in the wider of their types and
    wrap around; with a float array the sum is a float array. *)
Definition arr_add (a b : ndarray) : result ndarray :=
  if same_shape a b then
    match a, b with
    | UIntArr wa sh xs, UIntArr wb _ ys =>
        Ok (UIntArr (wa `max` wb) sh
              (zip_with (λ x y, (x + y) `mod` 2 ^ (wa `max` wb))%Z xs ys))
    | _, _ => Ok (FloatArr (arr_shape a)
                    (zip_with fadd (float_elems a) (float_elems b)))
    end
  else Raise ValueError.

(** [a / b]: true division, always a float array. *)
Definition arr_div (a b : ndarray) : result ndarray :=
  if same_shape a b then
    Ok (FloatArr (arr_shape a) (zip_with fdiv (float_elems a) (float_elems b)))
  else Raise ValueError.

(** [a.astype(rio.float32)] *)
Definition astype_float32 (a : ndarray) : ndarray := astype_float a.

(** One pixel of the expression of lines 155 and 221 on two unsigned
    integers of [bits] bits. *)
Definition nd_pixel (bits : Z) (nir x : Z) : fval :=
  fdiv (fsub (Fin (Z2Qc nir)) (Fin (Z2Qc x)))
       (Fin (Z2Qc ((nir + x) `mod` 2 ^ bits))).

(** Lines 155 and 221:
    [(nir.astype(float) - x.astype(float)) / (nir + x)]. *)
Definition normalized_difference (nir x : ndarray) : result ndarray :=
  num ← arr_sub (astype_float nir) (astype_float x);
  den ← arr_add nir x;
  arr_div num den.

(** *** Raster files, the ledger and the file system *)

Module Raster.
(** A raster data set: the part of its profile the code carries over
    ([crs], [transform]) and its band data; height, width and band count
    are those of the data. *)
Record t : Type := mk {
  crs : string;
  transform : list Qc;
  data : ndarray
}.
End Raster.

Module Ledger.
(** A row of the ledger as [pd.read_csv] returns it: text columns. *)
Record t : Type := mk {
  filename : string;
  ingestiondate : string;
  geometry : string
}.
End Ledger.

Module Poly.
(** A row of the geodataframe of the instance: a named polygon. *)
Record t `{Shapely} : Type := mk {
  name : string;
  geometry : shape
}.
Arguments mk {_} name geometry.
End Poly.

(** The file system the image module works on: directory listings in the
    order [os.listdir] gives them, raster files by path, ledgers by path. *)
Record fs : Type := Fs {
  listing : gmap string (list string);
  rasters : gmap string Raster.t;
  ledgers : gmap string (list Ledger.t)
}.

(** rasterio and geopandas: resampled read, clipping by shapes,
    reprojection of a geometry to a coordinate reference system. *)
Class Rasterio `{Shapely} : Type := {
  read_bilinear : Raster.t → list nat → result ndarray;
  rio_mask : Raster.t → list shape → result (ndarray * list Qc);
  to_crs : string → shape → shape
}.

(** Dates and text formats; a datetime is a number of seconds. *)
Class Parsers `{Shapely} : Type := {
  to_datetime : string → result Z;
  strptime_dmy : string → result Z;
  strftime_dmy : Z → string;
  wkt_loads : string → result shape
}.

(** [datetime.timedelta(days=1)] *)
Definition one_day : Z := 86400.

(** The instance: [self.gdf] and [self.database]. *)
Record ImageProcessing `{Shapely} : Type := Self {
  gdf : list Poly.t;
  database : string
}.
Arguments Self {_} gdf database.

(** Reading a local variable that has no value yet. *)
Definition load_local {A} (slot : option A) : result A :=
  match slot with
  | Some v => Ok v
  | None => Raise UnboundLocalError
  end.

(** [for x in xs: acc = body(x, acc)] without effects. *)
Fixpoint rfold {A B} (body : A → B → result B) (xs : list A) (acc : B)
  : result B :=
  match xs with
  | [] => Ok acc
  | x :: xs' => acc' ← body x acc; rfold body xs' acc'
  end.

(** [d[k] += [v]] *)
Definition dict_extend {V} (d : gmap string (list V)) (k : string) (v : V)
  : result (gmap string (list V)) :=
  old ← dict_get d k;
  Ok (<[k := (old ++ [v])%list]> d).

Section img_processing.
Context `{Rasterio} `{!Parsers}.

Definition img_listdir (path : string) : IO fs (list string) := λ w,
  match listing w !! path with
  | Some names => (Ok names, w)
  | None => (Raise FileNotFoundError, w)
  end.

(** [rio.open(path)] for reading. *)
Definition rio_open (path : string) : IO fs Raster.t := λ w,
  match rasters w !! path with
  | Some r => (Ok r, w)
  | None => (Raise RasterioIOError, w)
  end.

(** [rio.open(os.path.join(dir, file), 'w', **meta)] followed by
    [dst.write(...)]: the file appears in the listing of [dir]. *)
Definition rio_write (dir file : string) (r : Raster.t) : IO fs unit := λ w,
  match listing w !! dir with
  | Some names =>
      let names' := if bool_decide (file ∈ names) then names
                    else (names ++ [file])%list in
      (Ok (), Fs (<[dir := names']> (listing w))
                 (<[path_join dir file := r]> (rasters w))
                 (ledgers w))
  | None => (Raise RasterioIOError, w)
  end.

Definition ledger_read_csv (csv_path : string) : IO fs (list Ledger.t) := λ w,
  match ledgers w !! csv_path with
  | Some df => (Ok df, w)
  | None => (Raise FileNotFoundError, w)
  end.

(** [df.ingestiondate = pd.to_datetime(df.ingestiondate)]: every row with
    its parsed date. *)
Fixpoint parse_dates (df : list Ledger.t) : result (list (Ledger.t * Z)) :=
  match df with
  | [] => Ok []
  | r :: df' =>
      d ← to_datetime (Ledger.ingestiondate r);
      rest ← parse_dates df';
      Ok ((r, d) :: rest)
  end.

(** The inner loop of [get_folders], lines 104-111, for one ledger row. *)
Definition select_row (gdf_row : Poly.t) (threshold : Qc) (row : Ledger.t * Z)
    (acc : gmap string (list string) * gmap string (list Z))
  : result (gmap string (list string) * gmap string (list Z)) :=
  senti_poly ← wkt_loads (Ledger.geometry row.1);
  let intersect_area := area (intersection (Poly.geometry gdf_row) senti_poly) in
  a ← py_div intersect_area (area (Poly.geometry gdf_row));
  if bool_decide (threshold ≤ a)%Qc then
    folders ← dict_extend acc.1 (Poly.name gdf_row) (Ledger.filename row.1);
    date ← dict_extend acc.2 (Poly.name gdf_row) row.2;
    Ok (folders, date)
  else Ok acc.

(** The outer loop, lines 101-111, for one polygon of the instance. *)
Definition select_poly (df : list (Ledger.t * Z)) (threshold : Qc)
    (gdf_row : Poly.t)
    (acc : gmap string (list string) * gmap string (list Z))
  : result (gmap string (list string) * gmap string (list Z)) :=
  let folders := <[Poly.name gdf_row := []]> acc.1 in
  let date := <[Poly.name gdf_row := []]> acc.2 in
  rfold (select_row gdf_row threshold) df (folders, date).

(** [get_folders], lines 69-112.  The parameter is [initial_date]; the
    name assigned and read at line 95 is [intial_date], a local of its
    own, which has no value when the right-hand side reads it.  Line 96
    compares the dates with the parameter, a string that pandas parses as a
    date. *)
Definition get_folders (self : ImageProcessing) (csv_path : string)
    (initial_date final_date : option string) (threshold : Qc)
  : IO fs (gmap string (list string) * gmap string (list Z)) :=
  df ← ledger_read_csv csv_path;
  df ← lift (parse_dates df);
  let intial_date : option string := None in
  df ← lift (match initial_date with
             | Some s =>
                 arg ← load_local intial_date;
                 intial_date' ← strptime_dmy arg;
                 bound ← to_datetime s;
                 Ok (filter (λ r, bound < r.2)%Z df)
             | None => Ok df
             end);
  df ← lift (match final_date with
             | Some s =>
                 d ← strptime_dmy s;
                 let final_date := (d + one_day)%Z in
                 Ok (filter (λ r, r.2 < final_date)%Z df)
             | None => Ok df
             end);
  lift (rfold (select_poly df threshold) (gdf self) (∅, ∅)).

(** Lines 144-147, 179-182, 187-190 and 320-323: the dict from band name
    to file name of the [.jp2] files of a directory. *)
Definition jp2_bands (path : string) : IO fs (gmap string string) :=
  names ← img_listdir path;
  lift (rfold (λ f bands,
                 if contains ".jp2" f then
                   key ← list_get (split_on "_" f) 2;
                   Ok (<[key := f]> bands)
                 else Ok bands) names ∅).

(** [generate_ndvi], lines 130-162. *)
Definition generate_ndvi (img_path : string) : IO fs unit :=
  let path := path_join img_path "R10m" in
  names ← img_listdir path;
  if bool_decide ("NDVI.tiff" ∉ names) then
    bands ← jp2_bands path;
    f4 ← lift (dict_get bands "B04");
    b4 ← rio_open (path_join path f4);
    f8 ← lift (dict_get bands "B08");
    b8 ← rio_open (path_join path f8);
    let red := Raster.data b4 in
    let nir := Raster.data b8 in
    ndvi ← lift (normalized_difference nir red);
    rio_write path "NDVI.tiff"
      (Raster.mk (Raster.crs b4) (Raster.transform b4) (astype_float32 ndvi))
  else mret ().

(** [src.height] and [src.width] of a data set with bands. *)
Definition height (r : Raster.t) : nat :=
  default 0 (arr_shape (Raster.data r) !! 1).
Definition width (r : Raster.t) : nat :=
  default 0 (arr_shape (Raster.data r) !! 2).
Definition count (r : Raster.t) : nat :=
  default 0 (arr_shape (Raster.data r) !! 0).

(** [generate_ndre], lines 164-228.  The near-infrared band is read at half
    its size; the profile written for it carries the key [transfrom], so
    the transform of the source stays in place. *)
Definition generate_ndre (img_path : string) : IO fs unit :=
  let path := path_join img_path "R10m" in
  names ← img_listdir path;
  if bool_decide ("NDRE.tiff" ∉ names) then
    let path := path_join img_path "R20m" in
    bands ← jp2_bands path;
    f5 ← lift (dict_get bands "B05");
    let path := path_join path f5 in
    b5 ← rio_open path;
    let path := path_join img_path "R10m" in
    bands ← jp2_bands path;
    f8 ← lift (dict_get bands "B08");
    let filepath := path_join path f8 in
    src ← rio_open filepath;
    let out_height := (height src / 2)%nat in
    let out_width := (width src / 2)%nat in
    data ← lift (read_bilinear src [count src; out_height; out_width]);
    _ ← lift (py_div (Z2Qc (Z.of_nat (width src)))
                     (Z2Qc (Z.of_nat (default 0%nat (last (arr_shape data))))));
    _ ← lift (py_div (Z2Qc (Z.of_nat (height src)))
                     (Z2Qc (Z.of_nat
                              (default 0%nat
                                 (arr_shape data
                                    !! (length (arr_shape data) - 2)%nat)))));
    _ ← rio_write path "B8_reproj.tiff"
          (Raster.mk (Raster.crs src) (Raster.transform src) data);
    let path := path_join (path_join img_path "R10m") "B8_reproj.tiff" in
    b8 ← rio_open path;
    let rededge := Raster.data b5 in
    let nir := Raster.data b8 in
    ndre ← lift (normalized_difference nir rededge);
    rio_write (path_join img_path "R10m") "NDRE.tiff"
      (Raster.mk (Raster.crs b5) (Raster.transform b5) (astype_float32 ndre))
  else mret ().

(** Lines 245-248, 279-282 and 313-316: [self.gdf.iloc[[0]]], replaced by
    the rows named [poly_name] when one is given. *)
Definition select_rows (self : ImageProcessing) (poly_name : option string)
  : result (list Poly.t) :=
  iloc0 ← match gdf self with
          | first :: _ => Ok [first]
          | [] => Raise IndexError
          end;
  match poly_name with
  | Some n => Ok (filter (λ r, Poly.name r = n) (gdf self))
  | None => Ok iloc0
  end.

(** Lines 252-262, 286-296 and 325-335: clip the data set at [filepath] to
    the reprojected geometries of [gdf] and write the clip in the
    directory [category] of the first row of [gdf]. *)
Definition clip_and_write (gdf : list Poly.t) (filepath category file : string)
  : IO fs unit :=
  src ← rio_open filepath;
  let shape_proj := map (λ r, to_crs (Raster.crs src) (Poly.geometry r)) gdf in
  out ← lift (rio_mask src shape_proj);
  first ← lift (list_get gdf 0);
  rio_write (path_join (Poly.name first) category) file
    (Raster.mk (Raster.crs src) out.2 out.1).

(** [mask_ndre], lines 230-262. *)
Definition mask_ndre (self : ImageProcessing) (img_path : string) (date : Z)
    (poly_name : option string) : IO fs unit :=
  gdf ← lift (select_rows self poly_name);
  let date := strftime_dmy date in
  let filepath := path_join (path_join img_path "R10m") "NDRE.tiff" in
  clip_and_write gdf filepath "NDRE" (date ++ "_ndre.tiff").

(** [mask_ndvi], lines 264-296. *)
Definition mask_ndvi (self : ImageProcessing) (img_path : string) (date : Z)
    (poly_name : option string) : IO fs unit :=
  gdf ← lift (select_rows self poly_name);
  let date := strftime_dmy date in
  let filepath := path_join (path_join img_path "R10m") "NDVI.tiff" in
  clip_and_write gdf filepath "NDVI" (date ++ "_ndvi.tiff").

(** [mask_tci], lines 298-335. *)
Definition mask_tci (self : ImageProcessing) (img_path : string) (date : Z)
    (poly_name : option string) : IO fs unit :=
  gdf ← lift (select_rows self poly_name);
  let path := path_join img_path "R10m" in
  let date := strftime_dmy date in
  bands ← jp2_bands path;
  tci ← lift (dict_get bands "TCI");
  let filepath := path_join path tci in
  clip_and_write gdf filepath "TCI" (date ++ "_tci.tiff").


(** What the loops of [get_folders] compute when nothing raises, written
    directly: a ledger row is taken for a polygon when its footprint covers
    at least the fraction [threshold] of the polygon. *)
Definition covered (gdf_row : Poly.t) (threshold : Qc) (row : Ledger.t * Z)
  : bool :=
  match wkt_loads (Ledger.geometry row.1) with
  | Ok senti_poly =>
      bool_decide
        (threshold ≤ area (intersection (Poly.geometry gdf_row) senti_poly)
                     / area (Poly.geometry gdf_row))%Qc
  | Raise _ => false
  end.

Definition record_poly (df : list (Ledger.t * Z)) (threshold : Qc)
    (acc : gmap string (list string) * gmap string (list Z))
    (gdf_row : Poly.t)
  : gmap string (list string) * gmap string (list Z) :=
  let sel := filter (λ r, covered gdf_row threshold r = true) df in
  (<[Poly.name gdf_row := (λ r, Ledger.filename r.1) <$> sel]> acc.1,
   <[Poly.name gdf_row := snd <$> sel]> acc.2).

Definition selection (df : list (Ledger.t * Z)) (threshold : Qc)
    (gdf : list Poly.t)
  : gmap string (list string) * gmap string (list Z) :=
  foldl (record_poly df threshold) (∅, ∅) gdf.

(** The ledger rows left by the filter on the final date. *)
Definition until (final_date : option string) (df : list (Ledger.t * Z))
  : result (list (Ledger.t * Z)) :=
  match final_date with
  | Some s =>
      d ← strptime_dmy s;
      Ok (filter (λ r, r.2 < d + one_day)%Z df)
  | None => Ok df
  end.
End img_processing.

(** ** img_processing.py : the directories of an instance *)

(** The directories the file system of the image module records. *)
Definition is_dir (p : string) (w : fs) : bool :=
  bool_decide (is_Some (listing w !! p)).

(** The paths that are there in every file system: the current directory,
    its parent and the root. *)
Definition always_there (p : string) : bool :=
  bool_decide (p = "." ∨ p = ".." ∨ p = "/").

(** [os.path.exists(p)]: the empty path does not exist; the current
    directory, its parent and the root do. *)
Definition path_exists (p : string) (w : fs) : bool :=
  negb (bool_decide (p = ""))
  && (always_there p
      || is_dir p w
      || bool_decide (is_Some (rasters w !! p))
      || bool_decide (is_Some (ledgers w !! p))).

(** [os.mkdir(os.path.join(parent, child))]: refused when the path is
    empty, when it exists (FileExistsError, an OSError) or when the parent
    directory is missing (the current directory, written as the empty
    path, and the root are always there); the new directory is empty and is
    listed in its parent. *)
Definition mkdir (parent child : string) : IO fs unit := λ w,
  let full := path_join parent child in
  if bool_decide (full = "") then (Raise FileNotFoundError, w)
  else if path_exists full w then (Raise OSError, w)
  else
    let made := <[full := []]> (listing w) in
    match listing w !! parent with
    | Some names =>
        (Ok (), Fs (<[parent := (names ++ [child])%list]> made)
                   (rasters w) (ledgers w))
    | None =>
        if bool_decide (parent = "" ∨ parent = "/")
        then (Ok (), Fs made (rasters w) (ledgers w))
        else (Raise FileNotFoundError, w)
    end.

(** The directories [os.makedirs] goes through, from the outermost one:
    those that are missing are made, the last one has to be new. *)
Fixpoint makedirs_walk (cur : string) (comps : list string) : IO fs unit :=
  match comps with
  | [] => lift (Raise FileNotFoundError)
  | c :: comps' =>
      match comps' with
      | [] => mkdir cur c
      | _ :: _ => λ w,
          if is_dir (path_join cur c) w
          then makedirs_walk (path_join cur c) comps' w
          else (_ ← mkdir cur c; makedirs_walk (path_join cur c) comps') w
      end
  end.

(** [os.makedirs(path)], for paths without [.] and [..] components. *)
Definition makedirs (path : string) : IO fs unit :=
  makedirs_walk (if String.prefix "/" path then "/" else "")
                (filter (λ c, c ≠ "") (split_on "/" path)).

(** The body of the loop of [__int_directories], lines 47-53, for one
    row. *)
Definition make_categories `{Shapely} (rows : Poly.t) : IO fs unit := λ w,
  if negb (path_exists (Poly.name rows) w) then
    (_ ← makedirs (path_join (Poly.name rows) "NDVI");
     _ ← makedirs (path_join (Poly.name rows) "NDRE");
     makedirs (path_join (Poly.name rows) "TCI")) w
  else (Ok (), w).

(** [__int_directories], lines 42-53. *)
Definition __int_directories `{Shapely} (self : ImageProcessing) : IO fs unit :=
  for_each (λ rows (_ : unit), make_categories rows) (gdf self) ().


(** [get_img_path], lines 114-128. *)
Definition get_img_path `{Shapely} (self : ImageProcessing) (folder : string)
  : IO fs string :=
  let path := path_join (path_join (database self) folder) "GRANULE" in
  f ← img_listdir path;
  first ← lift (list_get f 0);
  mret (path_join (path_join path first) "IMG_DATA").





(** ** preprocess_file.py : file names and the naming of rows *)

(** [s.rfind(c)]: the index of the last [c] in [s], or -1. *)
Fixpoint rfind (c : ascii) (s : string) : Z :=
  match s with
  | EmptyString => -1
  | String a s' =>
      let r := rfind c s' in
      if (0 <=? r)%Z then (r + 1)%Z
      else if Ascii.eqb a c then 0%Z else (-1)%Z
  end.

(** A slice bound as Python reads it: counted from the end when negative,
    and brought back into the string. *)
Definition slice_bound (s : string) (i : Z) : nat :=
  let n := Z.of_nat (String.length s) in
  Z.to_nat (if (i <? 0)%Z then Z.max 0 (n + i) else Z.min i n).

(** [s[:stop]] *)
Definition slice_to (s : string) (stop : Z) : string :=
  String.substring 0 (slice_bound s stop) s.

(** [s[start:]] *)
Definition slice_from (s : string) (start : Z) : string :=
  String.substring (slice_bound s start)
                   (String.length s - slice_bound s start) s.

(** [os.path.basename(Path(filepath))]: the last component of the path,
    empty components and [.] components left out as [Path] does (a path
    without components is [.], or the root). *)
Definition basename (filepath : string) : string :=
  let comps := filter (λ c, c ≠ "" ∧ c ≠ ".") (split_on "/" filepath) in
  match last comps with
  | Some c => c
  | None => if String.prefix "/" filepath then "" else "."
  end.

(** [FileProcessing._get_filename], lines 224-229. *)
Definition _get_filename (text : string) : string * string :=
  let stop := rfind "." text in
  (slice_to text stop, slice_from text (stop + 1)).

(** [FileProcessing._get_filepathname], lines 151-154, and the first two
    lines of [_rename_geopandas]. *)
Definition _get_filepathname (filepath : string) : string :=
  let filename := basename filepath in
  slice_to filename (rfind "." filename).

(** Lines 120-123, 174-177 and 194-197: the [name] column of a frame set
    from a file name, numbered when the frame has more than one row. *)
Definition set_names {P} (gdf : list (gdf_row P)) (name_file : string)
  : list (gdf_row P) :=
  if bool_decide (1 < length gdf) then
    imap (λ x r, GdfRow (name_file ++ "_" ++ pretty x) (geometry r) (attrs r)) gdf
  else
    map (λ r, GdfRow name_file (geometry r) (attrs r)) gdf.

(** [_rename_geopandas], lines 110-124.  A column [Name] is renamed to
    [name], and the [name] column is then overwritten. *)
Definition _rename_geopandas {P} (gdf : list (gdf_row P)) (filepath : string)
  : list (gdf_row P) :=
  let name_file := _get_filepathname filepath in
  let gdf := map (λ r, GdfRow (name r) (geometry r)
                         (filter (λ kv, kv.1 ≠ "Name") (attrs r))) gdf in
  set_names gdf name_file.

(** geopandas: [gpd.read_file(filepath)]. *)
Class Geopandas (P : Type) : Type := {
  read_file : string → result (list (gdf_row P))
}.

(** [get_geopandas], lines 126-140. *)
Definition get_geopandas {P} `{Geopandas P} (filepath : string)
  : result (list (gdf_row P)) :=
  gdf ← read_file filepath;
  let gdf := _rename_geopandas gdf filepath in
  preprocess_multipoly gdf.

(** [read_from_shapefile], lines 180-198. *)
Definition read_from_shapefile {P} `{Geopandas P} (filepath : string)
  : result (list (gdf_row P)) :=
  gdf ← read_file filepath;
  let filename := _get_filepathname filepath in
  Ok (set_names gdf filename).

(** ** preprocess_file.py : the conversion of the files of a directory *)

(** fiona and geopandas on KML files and on writing:
    [fiona.listlayers(filepath)], [gpd.read_file(filepath, driver='KML',
    layer=layer)] and what [to_file] does with a frame without rows (it
    raises or writes a file without features, by the version of
    geopandas). *)
Class Fiona (P : Type) : Type := {
  listlayers : string → result (list string);
  read_layer : string → string → result (list (gdf_row P));
  to_file_empty : result unit
}.

(** [read_from_kml], lines 156-178: the layers are read in turn and
    appended to an empty frame. *)
Definition read_from_kml {P} `{Fiona P} (filepath : string)
  : result (list (gdf_row P)) :=
  layers ← listlayers filepath;
  df ← rfold (λ layer df, s ← read_layer filepath layer; Ok (df ++ s)%list)
             layers [];
  let filename := _get_filepathname filepath in
  Ok (set_names df filename).

(** The files the conversion works on: directory listings in the order
    [os.listdir] gives them, the paths of the plain files, and the GeoJSON
    files written, by path. *)
Record vfs (P : Type) : Type := Vfs {
  vlisting : gmap string (list string);
  vfiles : gset string;
  geojson : gmap string (list (gdf_row P))
}.
Arguments Vfs {P} vlisting vfiles geojson.
Arguments vlisting {P} _.
Arguments vfiles {P} _.
Arguments geojson {P} _.

(** A listing to which [n] is added when it is not there. *)
Definition add_name (names : list string) (n : string) : list string :=
  if bool_decide (n ∈ names) then names else (names ++ [n])%list.

Section process_files.
Context {P : Type} `{Geopandas P} `{!Fiona P}.

(** [os.listdir(path)]: the empty path and a path that does not exist give
    FileNotFoundError, a plain file NotADirectoryError (an OSError). *)
Definition vlistdir (path : string) : IO (vfs P) (list string) := λ w,
  if bool_decide (path = "") then (Raise FileNotFoundError, w)
  else
    match vlisting w !! path with
    | Some names => (Ok names, w)
    | None =>
        if bool_decide (path ∈ vfiles w ∨ is_Some (geojson w !! path))
        then (Raise OSError, w)
        else (Raise FileNotFoundError, w)
    end.

(** [write_geojson], lines 212-222, for the file [filename] of the directory
    [dir]: [gdf.to_file(f'{filename}.geojson', driver='GeoJSON')] replaces
    the file when it is there, and fails with fiona's DriverError (a
    ValueError) when the directory is missing. *)
Definition write_geojson (gdf : list (gdf_row P)) (dir filename : string)
  : IO (vfs P) unit :=
  _ ← lift (match gdf with [] => to_file_empty | _ :: _ => Ok () end);
  ((λ w,
     match vlisting w !! dir with
     | Some names =>
         (Ok (),
          Vfs (<[dir := add_name names (filename ++ ".geojson")]> (vlisting w))
              (vfiles w)
              (<[path_join dir filename ++ ".geojson" := gdf]> (geojson w)))
     | None => (Raise ValueError, w)
     end) : IO (vfs P) unit).

(** The body of the inner loop of [_process_files], lines 248-256; [gdf] is
    the local variable of that name, which has no value at first. *)
Definition process_file (path file_ : string)
    (gdf : option (list (gdf_row P)))
  : IO (vfs P) (option (list (gdf_row P))) :=
  let filename := (_get_filename file_).1 in
  let ext := (_get_filename file_).2 in
  gdf ← (if bool_decide (ext = "kml")
         then g ← lift (read_from_kml (path_join path file_)); mret (Some g)
         else mret gdf);
  gdf ← (if bool_decide (ext = "shp")
         then g ← lift (read_from_shapefile (path_join path file_));
              mret (Some g)
         else mret gdf);
  g ← lift (load_local gdf);
  g ← lift (preprocess_multipoly g);
  _ ← write_geojson g path filename;
  mret (Some g).

(** [_process_files], lines 231-256.  The argument [list_files] is
    overwritten before it is read. *)
Definition _process_files (path : string) (list_files : list string)
  : IO (vfs P) unit :=
  _ ← for_each
        (λ extension gdf,
           names ← vlistdir path;
           let list_files :=
             filter (λ k, extension = slice_from k (rfind "." k + 1)) names in
           for_each (process_file path) list_files gdf)
        ["kml"; "shp"] None;
  mret ().

(** The conversion of one file, written directly: the frame that is
    written for it, or the exception that reading, processing or writing
    it raises. *)
Definition convert (path file_ : string) : result (list (gdf_row P)) :=
  gdf ← (if bool_decide ((_get_filename file_).2 = "kml")
         then read_from_kml (path_join path file_)
         else read_from_shapefile (path_join path file_));
  g ← preprocess_multipoly gdf;
  _ ← match g with [] => to_file_empty | _ :: _ => Ok () end;
  Ok g.

(** The path of the GeoJSON file of a file, and its name in the
    directory. *)
Definition output_path (path file_ : string) : string :=
  path_join path (_get_filename file_).1 ++ ".geojson".

Definition output_name (file_ : string) : string :=
  (_get_filename file_).1 ++ ".geojson".

(** The files of a listing with a given extension, and the order in which
    [_process_files] goes through a listing: the KML files, then the
    shapefiles. *)
Definition with_extension (extension : string) (names : list string)
  : list string :=
  filter (λ k, extension = slice_from k (rfind "." k + 1)) names.

Definition conversion_order (names : list string) : list string :=
  (with_extension "kml" names ++ with_extension "shp" names)%list.
End process_files.

(** ** Concrete models of the libraries *)

(** Axis-parallel boxes with integer corners, as [shapely.geometry.box]
    builds them: a family of polygons closed under intersection. *)
Record box : Type := Box { x0 : Z; y0 : Z; x1 : Z; y1 : Z }.

Definition box_nonempty (b : box) : bool :=
  bool_decide (x0 b < x1 b)%Z && bool_decide (y0 b < y1 b)%Z.

Definition box_intersection (a b : box) : box :=
  Box (x0 a `max` x0 b) (y0 a `max` y0 b) (x1 a `min` x1 b) (y1 a `min` y1 b).

Definition box_area (b : box) : Qc :=
  if box_nonempty b then Z2Qc ((x1 b - x0 b) * (y1 b - y0 b)) else 0%Qc.

Definition box_within (a b : box) : bool :=
  bool_decide (x0 b ≤ x0 a)%Z && bool_decide (y0 b ≤ y0 a)%Z
  && bool_decide (x1 a ≤ x1 b)%Z && bool_decide (y1 a ≤ y1 b)%Z.

Definition box_shapely : Shapely :=
  {| shape := box;
     intersection := box_intersection;
     area := box_area;
     is_empty := λ b, negb (box_nonempty b);
     within := box_within |}.

(** An archive that answers every query with the same products; each
    product archive [title.zip] holds the folder [title.SAFE]. *)
Definition fixed_archive (S : Shapely) (answer : list Product.t) : Sentinel :=
  {| api_query := λ _ _ _ _, Ok answer;
     zip_namelist := λ title, [title ++ ".SAFE"] |}.

(** A raster library for data sets that already are in the wanted
    reference system and lie inside the clipping shapes: reprojection and
    clipping keep everything, a resampled read is accepted at the size of
    the data only. *)
Definition identity_rasterio (S : Shapely) : Rasterio :=
  {| read_bilinear := λ r out_shape,
       if bool_decide (arr_shape (Raster.data r) = out_shape)
       then Ok (Raster.data r) else Raise ValueError;
     rio_mask := λ r shapes,
       match shapes with
       | [] => Raise ValueError
       | _ :: _ => Ok (Raster.data r, Raster.transform r)
       end;
     to_crs := λ _ g, g |}.

(** A raster library whose resampled read keeps the first pixels of the
    data, as many as the requested shape holds; clipping and reprojection
    as in [identity_rasterio]. *)
Definition first_pixels_rasterio (S : Shapely) : Rasterio :=
  {| read_bilinear := λ r out_shape,
       let n := foldr Nat.mul 1%nat out_shape in
       match Raster.data r with
       | UIntArr bits _ xs => Ok (UIntArr bits out_shape (take n xs))
       | FloatArr _ xs => Ok (FloatArr out_shape (take n xs))
       end;
     rio_mask := λ r shapes,
       match shapes with
       | [] => Raise ValueError
       | _ :: _ => Ok (Raster.data r, Raster.transform r)
       end;
     to_crs := λ _ g, g |}.

(** Dates written as a number of days, a day being [one_day] seconds; WKT
    text of the form [x0 y0 x1 y1] for a box.  [day_parsers] below gives, in
    order, [to_datetime], [strptime_dmy], [strftime_dmy] and [wkt_loads]. *)
Definition digit_of (c : ascii) : option Z :=
  let n := Z.of_nat (nat_of_ascii c) in
  if bool_decide (48 ≤ n ≤ 57)%Z then Some (n - 48)%Z else None.

Fixpoint number_of (s : string) (acc : Z) : option Z :=
  match s with
  | EmptyString => Some acc
  | String c s' => d ← digit_of c; number_of s' (10 * acc + d)%Z
  end.

Definition parse_number (s : string) : result Z :=
  match s with
  | EmptyString => Raise ValueError
  | _ => match number_of s 0 with
         | Some z => Ok z
         | None => Raise ValueError
         end
  end.

Definition parse_box (s : string) : result box :=
  match split_on " " s with
  | [a; b; c; d] =>
      x0 ← parse_number a; y0 ← parse_number b;
      x1 ← parse_number c; y1 ← parse_number d;
      Ok (Box x0 y0 x1 y1)
  | _ => Raise ValueError
  end.

Definition day_parsers : @Parsers box_shapely :=
  @Build_Parsers box_shapely
    (λ s, d ← parse_number s; Ok (d * one_day)%Z)
    (λ s, d ← parse_number s; Ok (d * one_day)%Z)
    (λ t, pretty (t `div` one_day)%Z)
    parse_box.

(** ** Concrete inputs *)

(** A product folder whose [R10m] directory holds a one-pixel red band (B04)
    of value 30000 and a one-pixel near-infrared band (B08) of value 40000,
    both of 16 bits. *)
Definition bright_pixel_fs : fs :=
  Fs {[ "S2/IMG_DATA/R10m" := ["T23KKQ_20200105_B04_10m.jp2";
                               "T23KKQ_20200105_B08_10m.jp2"] ]}
     {[ "S2/IMG_DATA/R10m/T23KKQ_20200105_B04_10m.jp2" :=
          Raster.mk "EPSG:32723" [] (UIntArr 16 [1; 1; 1]%nat [30000%Z]);
        "S2/IMG_DATA/R10m/T23KKQ_20200105_B08_10m.jp2" :=
          Raster.mk "EPSG:32723" [] (UIntArr 16 [1; 1; 1]%nat [40000%Z]) ]}
     ∅.

(** A field of 10 by 10 inside a product footprint of 100 by 100. *)
Definition field : @shape box_shapely := Box 0 0 10 10.
Definition tile : @shape box_shapely := Box 0 0 100 100.

Definition tile_product : @Product.t box_shapely :=
  @Product.mk box_shapely "uuid-1" "S2A_T1" "S2A_T1.SAFE" tile.

Definition other_product : @Product.t box_shapely :=
  @Product.mk box_shapely "uuid-2" "S2A_T2" "S2A_T2.SAFE" tile.

(** A database directory that already holds the folder of [tile_product]. *)
Definition stocked_world : @world box_shapely :=
  @World box_shapely {[ "db" := {[ "S2A_T1.SAFE" ]} ]} ∅ ∅ [].

(** An empty database directory. *)
Definition empty_world : @world box_shapely :=
  @World box_shapely {[ "db" := ∅ ]} ∅ ∅ [].

(** A ledger with one recorded product, in a place that can be written. *)
Definition ledger_world : @world box_shapely :=
  @World box_shapely ∅ {[ "ledger.csv" := [tile_product] ]} ∅ [].

(** A ledger path in a directory that does not exist: nothing to read and
    no way to write. *)
Definition no_directory_world : @world box_shapely :=
  @World box_shapely ∅ ∅ {[ "missing/ledger.csv" ]} [].

(** A product folder whose [R10m] directory already holds both index
    files. *)
Definition processed_fs : fs :=
  Fs {[ "S2/IMG_DATA/R10m" := ["T23KKQ_20200105_B04_10m.jp2";
                               "T23KKQ_20200105_B08_10m.jp2";
                               "NDVI.tiff"; "NDRE.tiff"] ]}
     ∅ ∅.

(** A ledger with one product whose footprint is [tile], ingested on day 5;
    an instance over the polygon [field]. *)
Definition tile_row : Ledger.t := Ledger.mk "S2A_T1.SAFE" "5" "0 0 100 100".

Definition ledger_fs : fs := Fs ∅ ∅ {[ "ledger.csv" := [tile_row] ]}.

Definition field_instance : @ImageProcessing box_shapely :=
  @Self box_shapely [@Poly.mk box_shapely "field" field] "Sentinel_Data".

(** A frame with two MultiPolygon rows, a Polygon row and a point, over
    polygons that are plain numbers. *)
Definition mixed_frame : list (gdf_row nat) :=
  [GdfRow "a" (MultiPolygon [1; 2]) []; GdfRow "b" (MultiPolygon [3]) [];
   GdfRow "c" (Polygon 4) [("Name", "c")]; GdfRow "d" (OtherGeom Point) []].

(** A frame with a MultiPolygon row that has no part. *)
Definition hollow_frame : list (gdf_row nat) :=
  [GdfRow "c" (Polygon 4) []; GdfRow "a" (MultiPolygon []) []].

(** Two Polygon features, as read from a file, with the names the file
    gave them. *)
Definition two_fields : list (gdf_row nat) :=
  [GdfRow "north" (Polygon 1) [("Name", "north")];
   GdfRow "south" (Polygon 2) [("Name", "south")]].

(** A geopandas that knows one file. *)
Definition one_file (P : Type) (path : string) (rows : list (gdf_row P))
  : Geopandas P :=
  {| read_file := λ p, if bool_decide (p = path) then Ok rows
                       else Raise ValueError |}.

(** A fiona that knows one KML file, of one layer. *)
Definition one_layer (P : Type) (path : string) (rows : list (gdf_row P))
  : Fiona P :=
  {| listlayers := λ p, if bool_decide (p = path) then Ok ["fields"]
                        else Raise ValueError;
     read_layer := λ p _, if bool_decide (p = path) then Ok rows
                          else Raise ValueError;
     to_file_empty := Raise ValueError |}.

(** A directory with a KML file and a shapefile of the same stem: the KML
    file has one field, the shapefile has [two_fields]. *)
Definition farms_fs : vfs nat :=
  Vfs {[ "farms" := ["a.kml"; "a.shp"; "readme.txt"] ]}
      {[ "farms/a.kml"; "farms/a.shp"; "farms/readme.txt" ]}
      ∅.

Definition farms_shp : Geopandas nat := one_file nat "farms/a.shp" two_fields.

Definition farms_kml : Fiona nat :=
  one_layer nat "farms/a.kml" [GdfRow "north" (Polygon 7) [("Name", "north")]].

(** A fiona that cannot read the KML file of [farms_fs]. *)
Definition farms_no_kml : Fiona nat := one_layer nat "farms/b.kml" [].

(** A box of no area. *)
Definition line : @shape box_shapely := Box 0 0 0 10.

(** A product with a footprint of no area. *)
Definition flat_product : @Product.t box_shapely :=
  @Product.mk box_shapely "uuid-3" "S2A_T3" "S2A_T3.SAFE" line.

(** An instance over a polygon of no area. *)
Definition flat_instance : @ImageProcessing box_shapely :=
  @Self box_shapely [@Poly.mk box_shapely "line" line] "Sentinel_Data".

(** A product folder with small band values: red 2000 and near-infrared
    6000. *)
Definition dim_pixel_fs : fs :=
  Fs {[ "S2/IMG_DATA/R10m" := ["T23KKQ_20200105_B04_10m.jp2";
                               "T23KKQ_20200105_B08_10m.jp2"] ]}
     {[ "S2/IMG_DATA/R10m/T23KKQ_20200105_B04_10m.jp2" :=
          Raster.mk "EPSG:32723" [] (UIntArr 16 [1; 1; 1]%nat [2000%Z]);
        "S2/IMG_DATA/R10m/T23KKQ_20200105_B08_10m.jp2" :=
          Raster.mk "EPSG:32723" [] (UIntArr 16 [1; 1; 1]%nat [6000%Z]) ]}
     ∅.

(** A product folder with a red-edge band (B05) of one pixel in [R20m] and
    a near-infrared band (B08) of two by two pixels in [R10m], and no index
    file. *)
Definition red_edge_fs : fs :=
  Fs {[ "S2/IMG_DATA/R10m" := ["T23KKQ_20200105_B08_10m.jp2"];
        "S2/IMG_DATA/R20m" := ["T23KKQ_20200105_B05_20m.jp2"] ]}
     {[ "S2/IMG_DATA/R10m/T23KKQ_20200105_B08_10m.jp2" :=
          Raster.mk "EPSG:32723" []
            (UIntArr 16 [1; 2; 2]%nat [6000%Z; 6100%Z; 6200%Z; 6300%Z]);
        "S2/IMG_DATA/R20m/T23KKQ_20200105_B05_20m.jp2" :=
          Raster.mk "EPSG:32723" [] (UIntArr 16 [1; 1; 1]%nat [3000%Z]) ]}
     ∅.



(** A second field, away from [field], and an instance over both. *)
Definition meadow : @shape box_shapely := Box 20 20 30 30.

Definition farm_instance : @ImageProcessing box_shapely :=
  @Self box_shapely
    [@Poly.mk box_shapely "field" field; @Poly.mk box_shapely "meadow" meadow]
    "Sentinel_Data".

(** A product folder with its true-colour image and both index files, and
    the category directories of [field]. *)
Definition clipping_fs : fs :=
  Fs {[ "S2/IMG_DATA/R10m" := ["T23KKQ_20200105_TCI_10m.jp2";
                               "NDVI.tiff"; "NDRE.tiff"];
        "field/NDVI" := []; "field/NDRE" := []; "field/TCI" := [] ]}
     {[ "S2/IMG_DATA/R10m/T23KKQ_20200105_TCI_10m.jp2" :=
          Raster.mk "EPSG:32723" []
            (UIntArr 8 [3; 1; 1]%nat [10%Z; 20%Z; 30%Z]);
        "S2/IMG_DATA/R10m/NDVI.tiff" :=
          Raster.mk "EPSG:32723" [] (FloatArr [1; 1; 1]%nat [Fin (Z2Qc 1)]);
        "S2/IMG_DATA/R10m/NDRE.tiff" :=
          Raster.mk "EPSG:32723" [] (FloatArr [1; 1; 1]%nat [Fin (Z2Qc 0)]) ]}
     ∅.

(** A file system in which the name of [field] is taken by a directory
    without category directories. *)
Definition taken_fs : fs := Fs {[ "field" := ["notes.txt"] ]} ∅ ∅.


(** * Properties *)

(** ** preprocess_file.py *)

Section preprocess_file_facts.
Context {P : Type}.
Implicit Types (gdf : list (gdf_row P)) (row : gdf_row P).

Lemma check_type_polygon (g : geom P) :
  check_type g "Polygon" = is_polygon g.
Proof. by destruct g as [| |[]]. Qed.

Lemma check_type_multipolygon (g : geom P) :
  check_type g "MultiPolygon" = is_multipolygon g.
Proof. by destruct g as [| |[]]. Qed.

Lemma _row_by_type_None gdf poly_type :
  _row_by_type gdf poly_type = None ↔
  Forall (λ x, check_type (geometry x) poly_type = false) gdf.
Proof.
  unfold _row_by_type. case_bool_decide as Hnil; split; try done.
  - intros _. apply Forall_forall. intros x Hx. simpl.
    destruct (check_type (geometry x) poly_type) eqn:E; [|done].
    assert (x ∈ filter (λ x, check_type (geometry x) poly_type = true) gdf)
      as Hin by (by apply list_elem_of_filter).
    rewrite Hnil in Hin. by apply elem_of_nil in Hin.
  - intros Hall. exfalso. apply Hnil. clear Hnil.
    induction Hall as [|x l Hx _ IH]; [done|].
    rewrite filter_cons_False; [done|by rewrite Hx].
Qed.

Lemma _row_by_type_Some gdf poly_type sel :
  _row_by_type gdf poly_type = Some sel →
  sel = filter (λ x, check_type (geometry x) poly_type = true) gdf ∧ sel ≠ [].
Proof.
  unfold _row_by_type. case_bool_decide; [done|]. by intros [= <-].
Qed.

Lemma _transform_row_geometry row out :
  _transform_row row = Ok out →
  geometry <$> out = Polygon <$> parts row ∧ parts row ≠ [].
Proof.
  unfold _transform_row, parts.
  destruct (geometry row) as [|ps|]; simpl; try done.
  case_bool_decide as Hlen.
  - intros [= <-]. split; [|intros ->; simpl in Hlen; lia].
    rewrite fmap_imap, <-imap_const. by apply imap_ext.
  - destruct ps as [|p [|]]; simpl in *; try done; [|lia].
    by intros [= <-].
Qed.

Lemma _transform_row_ok row :
  is_multipolygon (geometry row) = true → parts row ≠ [] →
  ∃ out, _transform_row row = Ok out.
Proof.
  unfold _transform_row, parts.
  destruct (geometry row) as [|ps|]; try done. intros _ Hps. simpl.
  case_bool_decide; [by eexists|]. destruct ps; [done|]. by eexists.
Qed.

Lemma rconcat_map_transform_geometry (m out : list (gdf_row P)) :
  rconcat_map _transform_row m = Ok out →
  geometry <$> out = m ≫= (λ r, Polygon <$> parts r).
Proof.
  revert out. induction m as [|r m IH]; intros out; simpl.
  - by intros [= <-].
  - destruct (_transform_row r) as [ys|] eqn:Er; simpl; [|done].
    destruct (rconcat_map _transform_row m) as [zs|]; simpl; [|done].
    intros [= <-]. rewrite fmap_app, (IH zs eq_refl).
    by apply _transform_row_geometry in Er as [-> _].
Qed.

(** With at least two MultiPolygon rows, each with a part,
    [_transform_multipoly] gives one Polygon row for every part of every
    row, in order. *)
Lemma _transform_multipoly_many (m : list (gdf_row P)) :
  1 < length m →
  Forall (λ r, is_multipolygon (geometry r) = true ∧ parts r ≠ []) m →
  ∃ out, _transform_multipoly m = Ok out
         ∧ geometry <$> out = m ≫= (λ r, Polygon <$> parts r).
Proof.
  intros Hlen Hall. unfold _transform_multipoly.
  rewrite bool_decide_eq_true_2 by done.
  assert (∃ out, rconcat_map _transform_row m = Ok out) as [out Hout].
  { clear Hlen. induction Hall as [|r m [Hr Hp] _ [zs IH]]; [by eexists|].
    destruct (_transform_row_ok r Hr Hp) as [ys Hys].
    simpl. rewrite Hys, IH. by eexists. }
  exists out. split; [done|]. by apply rconcat_map_transform_geometry.
Qed.

(** With a single MultiPolygon row the result is that one row, carrying the
    first part only. *)
Lemma _transform_multipoly_single (row : gdf_row P) (p : P) (ps : list P) :
  geometry row = MultiPolygon (p :: ps) →
  _transform_multipoly [row] = Ok [GdfRow (name row) (Polygon p) (attrs row)].
Proof. intros Hg. unfold _transform_multipoly. simpl. by rewrite Hg. Qed.

Lemma _transform_multipoly_polygons (m out : list (gdf_row P)) :
  _transform_multipoly m = Ok out →
  Forall (λ r, is_polygon (geometry r) = true) out.
Proof.
  unfold _transform_multipoly. case_bool_decide.
  - intros Hout%rconcat_map_transform_geometry.
    apply Forall_fmap with (f := geometry) (P := λ g, is_polygon g = true).
    rewrite Hout. apply Forall_forall. intros g Hg.
    apply list_elem_of_bind in Hg as (r & Hg & _).
    by apply list_elem_of_fmap in Hg as (q & -> & _).
  - destruct m as [|first m']; [done|].
    destruct (geometry first) as [|[|p ps]|]; simpl; try done.
    intros [= <-]. apply Forall_forall. intros r Hr%list_elem_of_In.
    change (In r (map (λ r, GdfRow (name r) (Polygon p) (attrs r))
                      (first :: m'))) in Hr.
    by apply in_map_iff in Hr as (q & <- & _).
Qed.

Lemma _transform_row_raises row (e : exn) :
  _transform_row row = Raise e → e = TypeError ∨ e = IndexError.
Proof.
  unfold _transform_row.
  destruct (geometry row) as [|ps|]; simpl; try (intros [= <-]; by left).
  case_bool_decide; [done|]. destruct ps; [|done]. intros [= <-]. by right.
Qed.

(** [_transform_multipoly] never raises the exception of line 102. *)
Lemma _transform_multipoly_raises (m : list (gdf_row P)) (e : exn) :
  _transform_multipoly m = Raise e → e = TypeError ∨ e = IndexError.
Proof.
  unfold _transform_multipoly. case_bool_decide.
  - clear. induction m as [|r m IH]; simpl; [done|].
    destruct (_transform_row r) as [ys|e'] eqn:Er; simpl.
    + destruct (rconcat_map _transform_row m); simpl; [done|]. apply IH.
    + intros [= <-]. by eapply _transform_row_raises.
  - destruct m as [|first ?]; [intros [= <-]; by right|].
    destruct (geometry first) as [|[|]|]; simpl; try done;
      intros [= <-]; auto.
Qed.

Lemma filter_check_type_nil gdf poly_type :
  Forall (λ x, check_type (geometry x) poly_type = false) gdf →
  filter (λ x, check_type (geometry x) poly_type = true) gdf = [].
Proof.
  induction 1 as [|x l Hx _ IH]; [done|].
  rewrite filter_cons_False; [done|by rewrite Hx].
Qed.

(** The exception of line 102 is raised exactly when no row is a Polygon or
    a MultiPolygon. *)
Lemma preprocess_multipoly_none_found gdf :
  preprocess_multipoly gdf = Raise (PlainException none_polygon_msg) ↔
  Forall (λ x, is_polygon (geometry x) = false
               ∧ is_multipolygon (geometry x) = false) gdf.
Proof.
  unfold preprocess_multipoly.
  destruct (_row_by_type gdf "MultiPolygon") as [m|] eqn:Em;
    [|destruct (_row_by_type gdf "Polygon") as [p|] eqn:Ep].
  - split.
    + destruct (_transform_multipoly m) as [?|e] eqn:Et; simpl; [done|].
      intros [= ->]. by apply _transform_multipoly_raises in Et as [|].
    + intros Hall. apply _row_by_type_Some in Em as [-> Hne].
      exfalso. apply Hne, filter_check_type_nil.
      eapply Forall_impl; [done|]. intros x [_ Hx].
      by rewrite check_type_multipolygon.
  - split; [done|]. intros Hall. apply _row_by_type_Some in Ep as [-> Hne].
    exfalso. apply Hne, filter_check_type_nil.
    eapply Forall_impl; [done|]. intros x [Hx _].
    by rewrite check_type_polygon.
  - split; [|done]. intros _.
    apply _row_by_type_None in Em, Ep.
    apply Forall_forall. intros x Hx.
    rewrite Forall_forall in Em, Ep.
    specialize (Em x Hx). specialize (Ep x Hx).
    by rewrite <-check_type_polygon, <-check_type_multipolygon.
Qed.

(** Whatever [preprocess_multipoly] returns holds Polygon rows only. *)
Lemma preprocess_multipoly_only_polygons gdf out :
  preprocess_multipoly gdf = Ok out →
  Forall (λ r, is_polygon (geometry r) = true) out.
Proof.
  assert (∀ p, _row_by_type gdf "Polygon" = Some p →
               Forall (λ r, is_polygon (geometry r) = true) p) as Hpoly.
  { intros p Hp. apply _row_by_type_Some in Hp as [-> _].
    apply Forall_forall.
    intros x [Hx _]%list_elem_of_filter. by rewrite <-check_type_polygon. }
  unfold preprocess_multipoly.
  destruct (_row_by_type gdf "MultiPolygon") as [m|] eqn:Em;
    destruct (_row_by_type gdf "Polygon") as [p|] eqn:Ep; try done.
  - destruct (_transform_multipoly m) as [t|] eqn:Et; simpl; [|done].
    intros [= <-]. apply Forall_app. split; [|by apply Hpoly].
    by eapply _transform_multipoly_polygons.
  - destruct (_transform_multipoly m) as [t|] eqn:Et; simpl; [|done].
    intros [= <-]. unfold concat_frames. simpl. rewrite app_nil_r.
    by eapply _transform_multipoly_polygons.
  - intros [= <-]. by apply Hpoly.
Qed.

(** C4 (evaluation at the failing input).  A geodataframe whose only row is
    a MultiPolygon of two parts comes back as a single Polygon row holding
    the first part; the second part is in no row of the result. *)
Theorem C4_single_multipolygon_keeps_first_part
    (nm : string) (p0 p1 : P) (cols : list (string * string)) :
  preprocess_multipoly [GdfRow nm (MultiPolygon [p0; p1]) cols]
  = Ok [GdfRow nm (Polygon p0) cols].
Proof. reflexivity. Qed.
End preprocess_file_facts.

(** ** senti_download.py *)

Section senti_download_facts.
Context `{Sentinel}.
Implicit Types (w : world) (row : Product.t) (products : list Product.t).

(** *** The ledger *)

(** When the ledger can be read and written, [update_downloaded] writes
    back the rows it read and nothing else. *)
Lemma update_downloaded_rewrites_old w csv_path df downloaded_products :
  csvs w !! csv_path = Some df →
  csv_path ∉ unwritable w →
  update_downloaded csv_path downloaded_products w
  = (Ok (), World (dirs w) (<[csv_path := df]> (csvs w))
                  (unwritable w) (downloads w)).
Proof.
  intros Hread Hw.
  unfold update_downloaded, try_except, read_csv, to_csv, mbind, io_bind.
  rewrite Hread. by rewrite bool_decide_eq_false_2.
Qed.

(** Whenever reading or rewriting fails, the outcome of
    [update_downloaded] is that of writing the new products. *)
Lemma update_downloaded_fallback w csv_path downloaded_products :
  csvs w !! csv_path = None ∨ csv_path ∈ unwritable w →
  update_downloaded csv_path downloaded_products w
  = to_csv downloaded_products csv_path w.
Proof.
  intros Hfail.
  unfold update_downloaded, try_except, read_csv, mbind, io_bind.
  destruct (csvs w !! csv_path) as [df|] eqn:Hread; [|done].
  destruct Hfail as [|Hw]; [done|].
  unfold to_csv. by rewrite !bool_decide_eq_true_2.
Qed.

Lemma update_downloaded_writable w csv_path downloaded_products :
  csv_path ∉ unwritable w →
  ∃ w', update_downloaded csv_path downloaded_products w = (Ok (), w').
Proof.
  intros Hw. destruct (csvs w !! csv_path) as [df|] eqn:Hread.
  - rewrite (update_downloaded_rewrites_old _ _ df) by done. by eexists.
  - rewrite update_downloaded_fallback by auto.
    unfold to_csv. rewrite bool_decide_eq_false_2 by done. by eexists.
Qed.

(** C7 (as amended).  [update_downloaded] catches whatever reading or
    rewriting the ledger raises and then does what writing the downloaded
    products as a fresh CSV does; it raises only what that fresh write
    raises, and it raises nothing when the path can be written. *)
Theorem C7_update_downloaded_falls_back w csv_path downloaded_products :
  csvs w !! csv_path = None ∨ csv_path ∈ unwritable w →
  update_downloaded csv_path downloaded_products w
  = to_csv downloaded_products csv_path w
  ∧ (csv_path ∉ unwritable w →
     update_downloaded csv_path downloaded_products w
     = (Ok (), World (dirs w) (<[csv_path := downloaded_products]> (csvs w))
                     (unwritable w) (downloads w))).
Proof.
  intros Hfail. split; [by apply update_downloaded_fallback|].
  intros Hw. rewrite update_downloaded_fallback by done.
  unfold to_csv. by rewrite bool_decide_eq_false_2.
Qed.

(** *** The pipeline *)

(** [download_folders] raises before its loop when [products] is not a
    data frame. *)
Lemma download_folders_not_a_frame
    (polygon regional_poly products database_path threshold : pyval) w :
  iterrows products = Raise AttributeError →
  download_folders polygon regional_poly products database_path threshold w
  = (Raise AttributeError, w).
Proof.
  intros Hit. unfold download_folders, mbind, io_bind, lift.
  by rewrite Hit.
Qed.

(** C5 (evaluation at every input).  [full_pipe] queries the archive and
    then raises: the call of [download_folders] binds the database path to
    [products], which has no [iterrows].  Nothing is downloaded and the
    ledger is not touched. *)
Theorem C5_full_pipe_raises_after_query
    (csv_path : string) (polygon : shape)
    (intial_date final_date database_path : string) (threshold : Qc)
    (cloudcover : Qc * Qc) w :
  full_pipe csv_path polygon intial_date final_date database_path threshold
            cloudcover w
  = (match api_query polygon intial_date final_date cloudcover with
     | Ok _ => Raise AttributeError
     | Raise e => Raise e
     end, w).
Proof.
  unfold full_pipe, get_products, mbind, io_bind, lift.
  destruct (api_query polygon intial_date final_date cloudcover); [|done].
  by rewrite download_folders_not_a_frame.
Qed.

(** *** The download loop *)

Lemma listed_fetched db row w :
  listed db w ⊆ listed db (fetched db row w).
Proof.
  unfold listed, fetched, add_names. simpl.
  rewrite !lookup_insert_eq. simpl. set_solver.
Qed.

(** The body of the loop on well-typed arguments. *)
Lemma download_row_typed (p : shape) (rp : bool) (db : string) (th : Qc)
    row (delete : list string) w :
  download_row (PyShape p) (PyBool rp) (PyStr db) (PyFloat th) row delete w
  = if bool_decide (divisor p rp row = 0%Qc) then (Raise ZeroDivisionError, w)
    else if bool_decide (th ≤ area_ratio p rp row)%Qc then
      match dirs w !! db with
      | None => (Raise FileNotFoundError, w)
      | Some names =>
          if bool_decide (Product.filename row ∉ names)
          then (Ok delete, fetched db row w)
          else (Ok (delete ++ [Product.idx row])%list, w)
      end
    else (Ok (delete ++ [Product.idx row])%list, w).
Proof.
  unfold download_row, area_ratio, divisor, mbind, io_bind, lift. simpl.
  destruct rp; simpl; unfold py_div;
    (case_bool_decide as Hz; simpl; [done|]);
    (case_bool_decide as Hge; simpl; [|done]);
    unfold os_listdir;
    (destruct (dirs w !! db) as [names|] eqn:Hdb; [|done]);
    (case_bool_decide as Hin; [|done]);
    unfold extractall, api_download, add_names; simpl;
    rewrite lookup_insert_eq;
    (rewrite bool_decide_eq_true_2
       by (apply elem_of_union_l, elem_of_singleton; done));
    unfold fetched, add_names; simpl; by rewrite lookup_insert_eq.
Qed.

(** C2 (as amended).  On a row whose divisor is not zero, in a database
    directory that exists, the loop body requests the download of the
    product exactly when the ratio reaches the threshold and the file name
    of the product is not yet in the directory; otherwise it changes
    nothing and marks the row for deletion.  The ratio is taken over the
    area of the polygon when [regional_poly] is false and over the area of
    the product footprint when it is true. *)
Theorem C2_download_row_selects (p : shape) (rp : bool) (db : string)
    (th : Qc) row (delete : list string) w (names : gset string) :
  dirs w !! db = Some names →
  divisor p rp row ≠ 0%Qc →
  ∃ delete' w',
    download_row (PyShape p) (PyBool rp) (PyStr db) (PyFloat th) row delete w
    = (Ok delete', w')
    ∧ (downloads w' = (downloads w ++ [Product.idx row])%list
       ↔ (th ≤ area_ratio p rp row)%Qc ∧ Product.filename row ∉ names)
    ∧ ((th ≤ area_ratio p rp row)%Qc ∧ Product.filename row ∉ names →
       w' = fetched db row w ∧ delete' = delete)
    ∧ (¬ ((th ≤ area_ratio p rp row)%Qc ∧ Product.filename row ∉ names) →
       w' = w ∧ delete' = (delete ++ [Product.idx row])%list).
Proof.
  intros Hdb Hz. rewrite download_row_typed, Hdb.
  rewrite bool_decide_eq_false_2 by done.
  assert (downloads w ≠ (downloads w ++ [Product.idx row])%list) as Hneq.
  { intros Heq%(f_equal length). rewrite length_app in Heq. simpl in Heq. lia. }
  case_bool_decide as Hge; [case_bool_decide as Hin|];
    eexists _, _; (split; [done|]); repeat split; try tauto;
    try (intros []; done); try done.
Qed.

(** What the loop of [download_folders] keeps true, on well-typed
    arguments: the directory only gains names, every download it requests
    is for a row whose file name was not in the directory at the start, and
    every row whose file name was there is marked for deletion. *)
Lemma download_loop_invariant (p : shape) (rp : bool) (db : string) (th : Qc)
    (rows : list Product.t) :
  ∀ (delete : list string) w r w',
    for_each (download_row (PyShape p) (PyBool rp) (PyStr db) (PyFloat th))
             rows delete w = (r, w') →
    listed db w ⊆ listed db w'
    ∧ csvs w' = csvs w
    ∧ (∃ new, downloads w' = (downloads w ++ new)%list
              ∧ ∀ i, i ∈ new →
                     ∃ row, row ∈ rows ∧ Product.idx row = i
                            ∧ Product.filename row ∉ listed db w)
    ∧ (∀ d, r = Ok d →
            (∀ i, i ∈ delete → i ∈ d)
            ∧ ∀ row, row ∈ rows → Product.filename row ∈ listed db w →
                     Product.idx row ∈ d).
Proof.
  induction rows as [|row rows IH]; intros delete w r w'; simpl.
  - intros [= <- <-]. split; [done|]. split; [done|]. split.
    + exists []. split; [by rewrite app_nil_r|]. by intros i ?%elem_of_nil.
    + intros d [= <-]. split; [done|]. by intros row ?%elem_of_nil.
  - unfold mbind, io_bind at 1. rewrite download_row_typed.
    assert (∀ e, (Raise e, w) = (r, w') →
              listed db w ⊆ listed db w' ∧ csvs w' = csvs w
              ∧ (∃ new, downloads w' = (downloads w ++ new)%list
                        ∧ ∀ i, i ∈ new →
                               ∃ row0, row0 ∈ row :: rows
                                       ∧ Product.idx row0 = i
                                       ∧ Product.filename row0 ∉ listed db w)
              ∧ (∀ d, r = Ok d →
                      (∀ i, i ∈ delete → i ∈ d)
                      ∧ ∀ row0, row0 ∈ row :: rows →
                                Product.filename row0 ∈ listed db w →
                                Product.idx row0 ∈ d)) as Hraise.
    { intros e [= <- <-]. split; [done|]. split; [done|]. split; [|done].
      exists []. split; [by rewrite app_nil_r|]. by intros i ?%elem_of_nil. }
    assert (for_each (download_row (PyShape p) (PyBool rp) (PyStr db)
                                   (PyFloat th)) rows
                     (delete ++ [Product.idx row])%list w = (r, w') →
              listed db w ⊆ listed db w' ∧ csvs w' = csvs w
              ∧ (∃ new, downloads w' = (downloads w ++ new)%list
                        ∧ ∀ i, i ∈ new →
                               ∃ row0, row0 ∈ row :: rows
                                       ∧ Product.idx row0 = i
                                       ∧ Product.filename row0 ∉ listed db w)
              ∧ (∀ d, r = Ok d →
                      (∀ i, i ∈ delete → i ∈ d)
                      ∧ ∀ row0, row0 ∈ row :: rows →
                                Product.filename row0 ∈ listed db w →
                                Product.idx row0 ∈ d)) as Hskip.
    { intros Hrun.
      destruct (IH _ _ _ _ Hrun) as (Hsub & Hcsv & (new & Hnew & Hwhy) & Hdel).
      split; [done|]. split; [done|]. split.
      - exists new. split; [done|]. intros i Hi.
        destruct (Hwhy i Hi) as (row0 & ? & ? & ?).
        exists row0. split; [by right|done].
      - intros d Hd. destruct (Hdel d Hd) as [Hkeep Hrows]. split.
        + intros i Hi. apply Hkeep. set_solver.
        + intros row0 [->|Hin]%elem_of_cons Hpresent.
          * apply Hkeep. set_solver.
          * by apply Hrows. }
    case_bool_decide as Hz; [by apply Hraise|].
    case_bool_decide as Hge; [|by apply Hskip].
    destruct (dirs w !! db) as [names|] eqn:Hdb; [|by apply Hraise].
    case_bool_decide as Hin; [|by apply Hskip].
    intros Hrun.
    destruct (IH _ _ _ _ Hrun) as (Hsub & Hcsv & (new & Hnew & Hwhy) & Hdel).
    pose proof (listed_fetched db row w) as Hmono.
    assert (listed db w = names) as Hnames by (unfold listed; by rewrite Hdb).
    split; [set_solver|]. split; [by rewrite Hcsv|]. split.
    + exists (Product.idx row :: new). split.
      * rewrite Hnew. unfold fetched, add_names. simpl.
        by rewrite <-app_assoc.
      * intros i [->|Hi]%elem_of_cons.
        -- exists row. split; [by left|]. split; [done|]. by rewrite Hnames.
        -- destruct (Hwhy i Hi) as (row0 & ? & ? & Hnot).
           exists row0. split; [by right|]. split; [done|]. set_solver.
    + intros d Hd. destruct (Hdel d Hd) as [Hkeep Hrows]. split; [done|].
      intros row0 [->|Hrow0]%elem_of_cons Hpresent.
      * exfalso. apply Hin. by rewrite <-Hnames.
      * apply Hrows; [done|]. set_solver.
Qed.

Lemma fetched_dirs (db : string) row w (names : gset string) :
  dirs w !! db = Some names →
  dirs (fetched db row w) !! db
  = Some (list_to_set (zip_namelist (Product.title row))
          ∪ ({[ Product.title row ++ ".zip" ]} ∪ names)).
Proof.
  intros Hdb. unfold fetched, add_names. simpl.
  rewrite !lookup_insert_eq. simpl. by rewrite Hdb.
Qed.

(** The downloads of the whole loop, on well-typed arguments, a database
    directory that exists and rows whose divisor is not zero: the loop
    returns, and it has requested exactly the products of the plan, in
    order. *)
Lemma download_loop_plan (p : shape) (rp : bool) (db : string) (th : Qc)
    (rows : list Product.t) :
  Forall (λ row, divisor p rp row ≠ 0%Qc) rows →
  ∀ (delete : list string) w (names : gset string),
    dirs w !! db = Some names →
    ∃ delete' w',
      for_each (download_row (PyShape p) (PyBool rp) (PyStr db) (PyFloat th))
               rows delete w = (Ok delete', w')
      ∧ downloads w'
        = (downloads w ++ (Product.idx <$> download_plan p rp th names rows))%list.
Proof.
  induction 1 as [|row rows Hz _ IH]; intros delete w names Hdb.
  - exists delete, w. split; [done|]. simpl. by rewrite app_nil_r.
  - simpl. unfold mbind, io_bind at 1. rewrite download_row_typed, Hdb.
    rewrite bool_decide_eq_false_2 by done.
    case_bool_decide as Hge; simpl; [case_bool_decide as Hin; simpl|].
    + destruct (IH delete (fetched db row w) _ (fetched_dirs db row w names Hdb))
        as (delete' & w' & Hrun & Hlog).
      exists delete', w'. split; [done|]. rewrite Hlog.
      unfold fetched, add_names. simpl. by rewrite <-app_assoc.
    + by apply IH.
    + by apply IH.
Qed.

(** [download_folders] on well-typed arguments: files already in the
    database directory stay, nothing is downloaded for a row whose file
    name was there, and such a row is not among the rows returned. *)
Lemma download_folders_skips_present (p : shape) (rp : bool) products
    (db : string) (th : Qc) w r w' :
  download_folders (PyShape p) (PyBool rp) (PyFrame products) (PyStr db)
                   (PyFloat th) w = (r, w') →
  listed db w ⊆ listed db w'
  ∧ (∃ new, downloads w' = (downloads w ++ new)%list
            ∧ ∀ i, i ∈ new →
                   ∃ row, row ∈ products ∧ Product.idx row = i
                          ∧ Product.filename row ∉ listed db w)
  ∧ (∀ kept, r = Ok kept →
             ∀ row, row ∈ products → Product.filename row ∈ listed db w →
                    row ∉ kept).
Proof.
  unfold download_folders, mbind, io_bind, lift. simpl.
  destruct (for_each _ products [] w) as [[delete|e] w1] eqn:Hloop;
    intros [= <- <-];
    destruct (download_loop_invariant _ _ _ _ _ _ _ _ _ Hloop)
      as (Hsub & _ & Hnew & Hdel);
    (split; [done|]); (split; [done|]); [|done].
  intros kept [= <-] row Hrow Hpresent.
  destruct (Hdel delete eq_refl) as [_ Hrows].
  unfold drop. rewrite list_elem_of_filter. intros [Hnot _].
  apply Hnot. by apply Hrows.
Qed.
End senti_download_facts.

(** ** img_processing.py *)

(** *** The normalized difference on arrays *)

(** On two unsigned integer arrays of one type and shape, every pixel of the
    expression of lines 155 and 221 is [nd_pixel]: the difference is exact,
    the sum is the one of the integer type. *)
Lemma normalized_difference_uint (bits : Z) (sh : list nat) (ns xs : list Z) :
  normalized_difference (UIntArr bits sh ns) (UIntArr bits sh xs)
  = Ok (FloatArr sh (zip_with (nd_pixel bits) ns xs)).
Proof.
  unfold normalized_difference, arr_sub, arr_add, arr_div, same_shape.
  simpl. rewrite !bool_decide_eq_true_2 by done. simpl.
  rewrite bool_decide_eq_true_2 by done. simpl.
  rewrite Z.max_id. do 2 f_equal. unfold float_elems. simpl.
  revert xs. induction ns as [|n ns IH]; intros [|x xs]; simpl; [done..|].
  by rewrite IH.
Qed.

Lemma Z2Qc_add (a b : Z) : Z2Qc (a + b) = (Z2Qc a + Z2Qc b)%Qc.
Proof.
  apply Qc_is_canon. unfold Z2Qc. simpl.
  rewrite !Qred_correct. by rewrite inject_Z_plus.
Qed.

Lemma Z2Qc_eq_0 (a : Z) : Z2Qc a = 0%Qc → a = 0%Z.
Proof.
  intros Heq. apply (f_equal this) in Heq. unfold Z2Qc in Heq. simpl in Heq.
  assert (inject_Z a == 0)%Q as Hq by (by rewrite <-(Qred_correct (inject_Z a)), Heq).
  unfold Qeq in Hq. simpl in Hq. lia.
Qed.

(** Where the sum of the two values fits the integer type and is not zero,
    the pixel is the normalized difference. *)
Lemma nd_pixel_fits (bits nir x : Z) :
  (0 ≤ nir + x < 2 ^ bits)%Z → (nir + x ≠ 0)%Z →
  nd_pixel bits nir x = Fin ((Z2Qc nir - Z2Qc x) / (Z2Qc nir + Z2Qc x))%Qc.
Proof.
  intros Hfit Hnz. unfold nd_pixel. rewrite Z.mod_small by done. simpl.
  rewrite bool_decide_eq_false_2; [by rewrite Z2Qc_add|].
  by intros ?%Z2Qc_eq_0.
Qed.

(** Values below half the range of the type never wrap. *)
Lemma nd_pixel_half_range (bits nir x : Z) :
  (0 < bits)%Z → (0 ≤ nir < 2 ^ (bits - 1))%Z → (0 ≤ x < 2 ^ (bits - 1))%Z →
  (nir + x ≠ 0)%Z →
  nd_pixel bits nir x = Fin ((Z2Qc nir - Z2Qc x) / (Z2Qc nir + Z2Qc x))%Qc.
Proof.
  intros Hbits Hn Hx Hnz. apply nd_pixel_fits; [|done].
  replace bits with (Z.succ (bits - 1)) at 1 by lia.
  rewrite Z.pow_succ_r by lia. lia.
Qed.

(** Where the sum exceeds the integer type, the pixel is the difference over
    the sum reduced by [2 ^ bits]. *)
Lemma nd_pixel_wraps (bits nir x : Z) :
  (0 ≤ nir < 2 ^ bits)%Z → (0 ≤ x < 2 ^ bits)%Z → (2 ^ bits ≤ nir + x)%Z →
  nd_pixel bits nir x
  = fdiv (Fin (Z2Qc nir - Z2Qc x)%Qc) (Fin (Z2Qc (nir + x - 2 ^ bits))).
Proof.
  intros Hn Hx Hover. unfold nd_pixel.
  replace ((nir + x) `mod` 2 ^ bits)%Z with (nir + x - 2 ^ bits)%Z; [done|].
  apply Z.mod_unique with (q := 1%Z); lia.
Qed.

(** C1 (evaluation at the failing input).  On a 16-bit red value of 30000
    and a near-infrared value of 40000, [generate_ndvi] writes the pixel
    10000/4464: the sum 70000 has wrapped to 4464.  The normalized
    difference of the two values is 10000/70000. *)
Theorem C1_generate_ndvi_wraps_the_sum :
  ∃ w', generate_ndvi "S2/IMG_DATA" bright_pixel_fs = (Ok (), w')
        ∧ Raster.data <$> rasters w' !! "S2/IMG_DATA/R10m/NDVI.tiff"
          = Some (FloatArr [1; 1; 1]%nat [Fin (Z2Qc 10000 / Z2Qc 4464)%Qc])
        ∧ (Z2Qc 10000 / Z2Qc 4464)%Qc
          ≠ ((Z2Qc 40000 - Z2Qc 30000) / (Z2Qc 40000 + Z2Qc 30000))%Qc.
Proof.
  eexists. split; [vm_compute; reflexivity|]. split; [vm_compute; reflexivity|].
  intros Heq. apply (f_equal this) in Heq. vm_compute in Heq. discriminate.
Qed.

Section img_processing_facts.
Context `{Rasterio} `{!Parsers}.
Implicit Types (w : fs) (self : ImageProcessing).

(** *** Dates in [get_folders] *)

(** C6 (evaluation at every input with an initial date).  With an initial
    date, [get_folders] reads the ledger, parses its dates and then raises
    at line 95, where [intial_date] is read before it has a value: no
    product is returned. *)
Theorem C6_get_folders_initial_date_raises self (csv_path s : string)
    (final_date : option string) (threshold : Qc) w :
  get_folders self csv_path (Some s) final_date threshold w
  = (match ledgers w !! csv_path with
     | None => Raise FileNotFoundError
     | Some df => match parse_dates df with
                  | Ok _ => Raise UnboundLocalError
                  | Raise e => Raise e
                  end
     end, w).
Proof.
  unfold get_folders, ledger_read_csv, mbind, io_bind, lift.
  destruct (ledgers w !! csv_path) as [df|]; [|done].
  by destruct (parse_dates df).
Qed.

(** *** Outputs that already exist *)

Lemma generate_ndvi_present (img_path : string) w (names : list string) :
  listing w !! path_join img_path "R10m" = Some names →
  "NDVI.tiff" ∈ names →
  generate_ndvi img_path w = (Ok (), w).
Proof.
  intros Hls Hin. unfold generate_ndvi, img_listdir, mbind, io_bind.
  rewrite Hls. by rewrite bool_decide_eq_false_2 by auto.
Qed.

Lemma generate_ndre_present (img_path : string) w (names : list string) :
  listing w !! path_join img_path "R10m" = Some names →
  "NDRE.tiff" ∈ names →
  generate_ndre img_path w = (Ok (), w).
Proof.
  intros Hls Hin. unfold generate_ndre, img_listdir, mbind, io_bind.
  rewrite Hls. by rewrite bool_decide_eq_false_2 by auto.
Qed.

(** *** Clipping without a polygon name *)





(** *** The selection loops of [get_folders] *)

Lemma select_row_covered (gdf_row : Poly.t) (threshold : Qc)
    (rd : Ledger.t * Z) (F : gmap string (list string))
    (D : gmap string (list Z)) l ld :
  area (Poly.geometry gdf_row) ≠ 0%Qc →
  is_ok (wkt_loads (Ledger.geometry rd.1)) = true →
  F !! Poly.name gdf_row = Some l →
  D !! Poly.name gdf_row = Some ld →
  select_row gdf_row threshold rd (F, D)
  = Ok (if covered gdf_row threshold rd
        then (<[Poly.name gdf_row := (l ++ [Ledger.filename rd.1])%list]> F,
              <[Poly.name gdf_row := (ld ++ [rd.2])%list]> D)
        else (F, D)).
Proof.
  intros Harea Hwkt HF HD. unfold select_row, covered, py_div.
  destruct (wkt_loads (Ledger.geometry rd.1)) as [fp|]; [|done]. simpl.
  rewrite bool_decide_eq_false_2 by done. simpl.
  case_bool_decide; [|done].
  unfold dict_extend, dict_get. simpl. by rewrite HF, HD.
Qed.

Lemma rfold_select_row (gdf_row : Poly.t) (threshold : Qc)
    (df : list (Ledger.t * Z)) :
  area (Poly.geometry gdf_row) ≠ 0%Qc →
  Forall (λ r, is_ok (wkt_loads (Ledger.geometry r.1)) = true) df →
  ∀ (F : gmap string (list string)) (D : gmap string (list Z)) l ld,
    F !! Poly.name gdf_row = Some l →
    D !! Poly.name gdf_row = Some ld →
    rfold (select_row gdf_row threshold) df (F, D)
    = Ok (<[Poly.name gdf_row :=
              (l ++ ((λ r, Ledger.filename r.1)
                       <$> filter (λ r, covered gdf_row threshold r = true) df))%list]> F,
          <[Poly.name gdf_row :=
              (ld ++ (snd <$> filter (λ r, covered gdf_row threshold r = true) df))%list]> D).
Proof.
  intros Harea. induction 1 as [|rd df Hwkt _ IH]; intros F D l ld HF HD.
  - simpl. rewrite !app_nil_r. by rewrite !insert_id.
  - change (rfold (select_row gdf_row threshold) (rd :: df) (F, D))
      with (select_row gdf_row threshold rd (F, D)
            ≫= rfold (select_row gdf_row threshold) df).
    rewrite (select_row_covered _ _ _ _ _ l ld) by done.
    destruct (covered gdf_row threshold rd) eqn:Hcov; simpl.
    + rewrite (IH _ _ (l ++ [Ledger.filename rd.1])%list (ld ++ [rd.2])%list)
        by apply lookup_insert_eq.
      rewrite !insert_insert_eq, filter_cons_True by done.
      rewrite !fmap_cons. simpl. by rewrite <-!app_assoc.
    + rewrite (IH _ _ l ld) by done.
      rewrite filter_cons_False; [done|]. by rewrite Hcov.
Qed.

Lemma select_poly_record (df : list (Ledger.t * Z)) (threshold : Qc)
    (gdf_row : Poly.t) acc :
  area (Poly.geometry gdf_row) ≠ 0%Qc →
  Forall (λ r, is_ok (wkt_loads (Ledger.geometry r.1)) = true) df →
  select_poly df threshold gdf_row acc
  = Ok (record_poly df threshold acc gdf_row).
Proof.
  intros Harea Hwkt. unfold select_poly, record_poly.
  rewrite (rfold_select_row _ _ _ Harea Hwkt _ _ [] [])
    by apply lookup_insert_eq.
  by rewrite !insert_insert_eq.
Qed.

Lemma rfold_select_poly (df : list (Ledger.t * Z)) (threshold : Qc)
    (gdf : list Poly.t) :
  Forall (λ g, area (Poly.geometry g) ≠ 0%Qc) gdf →
  Forall (λ r, is_ok (wkt_loads (Ledger.geometry r.1)) = true) df →
  ∀ acc, rfold (select_poly df threshold) gdf acc
         = Ok (foldl (record_poly df threshold) acc gdf).
Proof.
  intros Harea Hwkt. induction Harea as [|g gdf Hg _ IH]; intros acc; [done|].
  simpl. rewrite select_poly_record by done. simpl. apply IH.
Qed.

Lemma parse_dates_elem (df : list Ledger.t) pdf (row : Ledger.t) :
  parse_dates df = Ok pdf → row ∈ df →
  ∃ d, to_datetime (Ledger.ingestiondate row) = Ok d ∧ (row, d) ∈ pdf.
Proof.
  revert pdf. induction df as [|r df IH]; intros pdf; simpl.
  - by intros _ ?%elem_of_nil.
  - destruct (to_datetime (Ledger.ingestiondate r)) as [d|] eqn:Hd; [|done].
    simpl. destruct (parse_dates df) as [rest|]; [|done]. simpl.
    intros [= <-] [->|Hin]%elem_of_cons.
    + exists d. split; [done|]. by left.
    + destruct (IH rest eq_refl Hin) as (d' & ? & ?).
      exists d'. split; [done|]. by right.
Qed.

(** Without an initial date, when the ledger reads and parses and no
    polygon of the instance has a zero area, [get_folders] returns the
    selection over the rows the final date leaves. *)
Lemma get_folders_selection self (csv_path : string)
    (final_date : option string) (threshold : Qc) w df pdf kept :
  ledgers w !! csv_path = Some df →
  parse_dates df = Ok pdf →
  until final_date pdf = Ok kept →
  Forall (λ r, is_ok (wkt_loads (Ledger.geometry r.1)) = true) kept →
  Forall (λ g, area (Poly.geometry g) ≠ 0%Qc) (gdf self) →
  get_folders self csv_path None final_date threshold w
  = (Ok (selection kept threshold (gdf self)), w).
Proof.
  intros Hread Hparse Hkept Hwkt Harea.
  unfold get_folders, ledger_read_csv, mbind, io_bind, lift.
  rewrite Hread, Hparse. unfold until in Hkept.
  destruct final_date as [s|]; simpl in *;
    [destruct (strptime_dmy s); simpl in *; [|done]|];
    injection Hkept as <-; by rewrite rfold_select_poly.
Qed.

Lemma selection_lookup_last (df : list (Ledger.t * Z)) (threshold : Qc)
    (before after : list Poly.t) (g : Poly.t) :
  Poly.name g ∉ Poly.name <$> after →
  ∀ acc,
    let out := foldl (record_poly df threshold) acc (before ++ g :: after) in
    out.1 !! Poly.name g
    = Some ((λ r, Ledger.filename r.1)
              <$> filter (λ r, covered g threshold r = true) df)
    ∧ out.2 !! Poly.name g
      = Some (snd <$> filter (λ r, covered g threshold r = true) df).
Proof.
  induction after as [|g' after IH] using rev_ind; intros Hlast acc out.
  - unfold out. rewrite foldl_app. simpl. by rewrite !lookup_insert_eq.
  - unfold out. rewrite app_comm_cons, (assoc_L (++)), foldl_app. simpl.
    rewrite fmap_app, not_elem_of_app in Hlast. destruct Hlast as [Hlast Hne].
    rewrite !lookup_insert_ne
      by (intros Heq; apply Hne; rewrite <-Heq; simpl; by left).
    by apply IH.
Qed.

Lemma selection_dates (df : list (Ledger.t * Z)) (threshold : Qc)
    (gdf : list Poly.t) (n : string) (ds : list Z) :
  ∀ acc,
    (foldl (record_poly df threshold) acc gdf).2 !! n = Some ds →
    acc.2 !! n = Some ds ∨ ∃ g, g ∈ gdf ∧ ds = (filter (λ r, covered g threshold r = true) df).*2.
Proof.
  induction gdf as [|g gdf IH] using rev_ind; intros acc; [by left|].
  rewrite foldl_app. simpl.
  destruct (decide (Poly.name g = n)) as [<-|Hne].
  - rewrite lookup_insert_eq. intros [= <-]. right. exists g.
    split; [|done]. apply elem_of_app. right. by left.
  - rewrite lookup_insert_ne by done. intros [?|(g' & ? & ?)]%IH; [by left|].
    right. exists g'. split; [|done]. apply elem_of_app. by left.
Qed.

(** The half of the date filter that works: without an initial date and
    with a final date, every date returned is before the end of the final
    day. *)
Lemma get_folders_final_date self (csv_path s : string) (threshold : Qc) w
    df pdf (t : Z) :
  ledgers w !! csv_path = Some df →
  parse_dates df = Ok pdf →
  strptime_dmy s = Ok t →
  Forall (λ r, is_ok (wkt_loads (Ledger.geometry r.1)) = true) pdf →
  Forall (λ g, area (Poly.geometry g) ≠ 0%Qc) (gdf self) →
  ∃ folders date,
    get_folders self csv_path None (Some s) threshold w
    = (Ok (folders, date), w)
    ∧ ∀ n ds d, date !! n = Some ds → d ∈ ds → (d < t + one_day)%Z.
Proof.
  intros Hread Hparse Ht Hwkt Harea.
  set (kept := filter (λ r : Ledger.t * Z, (r.2 < t + one_day)%Z) pdf).
  assert (until (Some s) pdf = Ok kept) as Hkept
    by (unfold until; by rewrite Ht).
  assert (Forall (λ r, is_ok (wkt_loads (Ledger.geometry r.1)) = true) kept)
    as Hwkt'.
  { apply Forall_forall. intros r [_ Hr]%list_elem_of_filter.
    by apply (proj1 (Forall_forall _ _) Hwkt). }
  exists (selection kept threshold (gdf self)).1,
         (selection kept threshold (gdf self)).2.
  rewrite <-surjective_pairing.
  split; [by eapply get_folders_selection|].
  intros n ds d Hds Hd. unfold selection in Hds.
  apply selection_dates in Hds as [Hds|(g & _ & ->)]; [done|].
  apply list_elem_of_fmap in Hd as ([row d'] & -> & Hin).
  apply list_elem_of_filter in Hin as [_ Hin].
  by apply list_elem_of_filter in Hin as [Hlt _].
Qed.

(** *** Polygons inside a footprint *)



End img_processing_facts.

(** ** Outputs that already exist, across the modules *)

Section existing_outputs.
Context `{Sentinel} `{!Rasterio}.

(** C9.  [generate_ndvi] changes nothing when [NDVI.tiff] is listed in the
    [R10m] directory, [generate_ndre] changes nothing when [NDRE.tiff] is
    listed there, and [download_folders] keeps every name of the database
    directory, requests no download for a product whose file name is
    already there, and does not return such a product. *)
Theorem C9_existing_outputs_are_left_alone :
  (∀ (img_path : string) (w : fs) (names : list string),
      listing w !! path_join img_path "R10m" = Some names →
      "NDVI.tiff" ∈ names →
      generate_ndvi img_path w = (Ok (), w))
  ∧ (∀ (img_path : string) (w : fs) (names : list string),
        listing w !! path_join img_path "R10m" = Some names →
        "NDRE.tiff" ∈ names →
        generate_ndre img_path w = (Ok (), w))
  ∧ (∀ (p : shape) (rp : bool) (products : list Product.t) (db : string)
       (th : Qc) (w : world) r w',
        download_folders (PyShape p) (PyBool rp) (PyFrame products)
                         (PyStr db) (PyFloat th) w = (r, w') →
        listed db w ⊆ listed db w'
        ∧ (∃ new, downloads w' = (downloads w ++ new)%list
                  ∧ ∀ i, i ∈ new →
                         ∃ row, row ∈ products ∧ Product.idx row = i
                                ∧ Product.filename row ∉ listed db w)
        ∧ (∀ kept, r = Ok kept →
                   ∀ row, row ∈ products →
                          Product.filename row ∈ listed db w →
                          row ∉ kept)).
Proof.
  split; [|split].
  - intros. by eapply generate_ndvi_present.
  - intros. by eapply generate_ndre_present.
  - intros. by eapply download_folders_skips_present.
Qed.
End existing_outputs.

(** ** Evaluations on the concrete models *)

Section evaluations.
#[local] Existing Instance box_shapely.


(** C3 (evaluation at the failing input).  With one product recorded in a
    ledger that can be read and written, [update_downloaded] called with a
    newly downloaded product leaves the ledger with the recorded product
    only. *)
Theorem C3_update_downloaded_drops_new_rows :
  ∃ w', @update_downloaded box_shapely "ledger.csv" [other_product] ledger_world
        = (Ok (), w')
        ∧ csvs w' !! "ledger.csv" = Some [tile_product]
        ∧ other_product ∉ [tile_product].
Proof.
  eexists. split; [vm_compute; reflexivity|]. split; [vm_compute; reflexivity|].
  intros Hin%list_elem_of_singleton. discriminate.
Qed.

(** C2 (counterexample to the claim as stated).  The footprint [tile] covers
    the whole of the polygon [field], so the ratio over the area of the
    polygon reaches the threshold 0.9; yet nothing is downloaded when the
    folder of the product is already in the database directory, and nothing
    is downloaded from an empty directory when [regional_poly] is true. *)
Lemma C2_counterexample_covered_but_not_downloaded :
  (Q2Qc (9 # 10) ≤ @area_ratio box_shapely field false tile_product)%Qc
  ∧ @download_folders box_shapely (fixed_archive box_shapely [])
      (PyShape field) (PyBool false) (PyFrame [tile_product]) (PyStr "db")
      (PyFloat (Q2Qc (9 # 10))) stocked_world
    = (Ok [], stocked_world)
  ∧ @download_folders box_shapely (fixed_archive box_shapely [])
      (PyShape field) (PyBool true) (PyFrame [tile_product]) (PyStr "db")
      (PyFloat (Q2Qc (9 # 10))) empty_world
    = (Ok [], empty_world).
Proof.
  split; [by vm_compute|]. split; vm_compute; reflexivity.
Qed.

(** C2 (witness of the amended statement): from an empty database directory
    the product that covers the polygon is downloaded. *)
Lemma C2_download_row_selects_witness :
  dirs empty_world !! "db" = Some ∅
  ∧ @divisor box_shapely field false tile_product ≠ 0%Qc
  ∧ ∃ delete' w',
      @download_row box_shapely (fixed_archive box_shapely [])
        (PyShape field) (PyBool false) (PyStr "db") (PyFloat (Q2Qc (9 # 10)))
        tile_product [] empty_world = (Ok delete', w')
      ∧ (downloads w' = (downloads empty_world ++ [Product.idx tile_product])%list
         ↔ (Q2Qc (9 # 10) ≤ area_ratio field false tile_product)%Qc
           ∧ Product.filename tile_product ∉ (∅ : gset string)).
Proof.
  split; [reflexivity|]. split; [vm_compute; discriminate|].
  destruct (@C2_download_row_selects box_shapely (fixed_archive box_shapely [])
              field false "db" (Q2Qc (9 # 10)) tile_product [] empty_world ∅)
    as (delete' & w' & Hrun & Hiff & _).
  - reflexivity.
  - vm_compute; discriminate.
  - exists delete', w'. split; [exact Hrun|exact Hiff].
Defined.

(** C7 (counterexample to the claim as stated).  Where the ledger path lies
    in a directory that does not exist, reading fails, the fresh write fails
    as well, and [update_downloaded] raises. *)
Lemma C7_counterexample_fallback_raises :
  @update_downloaded box_shapely "missing/ledger.csv" [tile_product]
    no_directory_world
  = (Raise OSError, no_directory_world).
Proof. vm_compute. reflexivity. Qed.

(** C7 (witness of the amended statement): with no ledger yet, the
    downloaded products become the ledger. *)
Lemma C7_update_downloaded_falls_back_witness :
  (csvs empty_world !! "ledger.csv" = None
   ∨ "ledger.csv" ∈ unwritable empty_world)
  ∧ @update_downloaded box_shapely "ledger.csv" [tile_product] empty_world
    = @to_csv box_shapely [tile_product] "ledger.csv" empty_world
  ∧ ("ledger.csv" ∉ unwritable empty_world →
     @update_downloaded box_shapely "ledger.csv" [tile_product] empty_world
     = (Ok (), World (dirs empty_world)
                     (<["ledger.csv" := [tile_product]]> (csvs empty_world))
                     (unwritable empty_world) (downloads empty_world))).
Proof.
  split; [left; reflexivity|].
  apply (@C7_update_downloaded_falls_back box_shapely empty_world
           "ledger.csv" [tile_product]).
  left; reflexivity.
Defined.



(** C9 (witness): the processed folder is left as it is by both generators,
    and the product whose folder is in the database directory is neither
    downloaded nor returned. *)
Lemma C9_existing_outputs_are_left_alone_witness :
  generate_ndvi "S2/IMG_DATA" processed_fs = (Ok (), processed_fs)
  ∧ @generate_ndre box_shapely (identity_rasterio box_shapely) "S2/IMG_DATA"
      processed_fs = (Ok (), processed_fs)
  ∧ (@download_folders box_shapely (fixed_archive box_shapely [])
       (PyShape field) (PyBool false) (PyFrame [tile_product]) (PyStr "db")
       (PyFloat (Q2Qc (9 # 10))) stocked_world = (Ok [], stocked_world)
     ∧ listed "db" stocked_world ⊆ listed "db" stocked_world
     ∧ tile_product ∉ ([] : list Product.t)).
Proof.
  destruct (@C9_existing_outputs_are_left_alone box_shapely
              (fixed_archive box_shapely []) (identity_rasterio box_shapely))
    as (Hndvi & Hndre & Hdown).
  split; [|split].
  - apply (Hndvi "S2/IMG_DATA" processed_fs
             ["T23KKQ_20200105_B04_10m.jp2"; "T23KKQ_20200105_B08_10m.jp2";
              "NDVI.tiff"; "NDRE.tiff"]); [reflexivity|].
    do 2 right. left.
  - apply (Hndre "S2/IMG_DATA" processed_fs
             ["T23KKQ_20200105_B04_10m.jp2"; "T23KKQ_20200105_B08_10m.jp2";
              "NDVI.tiff"; "NDRE.tiff"]); [reflexivity|].
    do 3 right. left.
  - assert (@download_folders box_shapely (fixed_archive box_shapely [])
              (PyShape field) (PyBool false) (PyFrame [tile_product])
              (PyStr "db") (PyFloat (Q2Qc (9 # 10))) stocked_world
            = (Ok [], stocked_world)) as Hrun by (vm_compute; reflexivity).
    destruct (Hdown field false [tile_product] "db" (Q2Qc (9 # 10))
                stocked_world (Ok []) stocked_world Hrun)
      as (Hkeep & _ & Hskip).
    split; [exact Hrun|]. split; [exact Hkeep|].
    apply (Hskip [] eq_refl tile_product).
    + left.
    + vm_compute. reflexivity.
Defined.

End evaluations.

(** * Further properties *)

(** ** preprocess_file.py : what [preprocess_multipoly] returns *)

Section preprocess_file_more.
Context {P : Type}.
Implicit Types (gdf : list (gdf_row P)) (row : gdf_row P).

Lemma filter_check_type_polygon gdf :
  filter (λ x, check_type (geometry x) "Polygon" = true) gdf
  = filter (λ x, is_polygon (geometry x) = true) gdf.
Proof.
  induction gdf as [|x gdf IH]; [done|].
  destruct (is_polygon (geometry x)) eqn:Hx.
  - rewrite !filter_cons_True by (by rewrite ?check_type_polygon). by rewrite IH.
  - rewrite !filter_cons_False by (by rewrite ?check_type_polygon, Hx). done.
Qed.

Lemma filter_check_type_multipolygon gdf :
  filter (λ x, check_type (geometry x) "MultiPolygon" = true) gdf
  = filter (λ x, is_multipolygon (geometry x) = true) gdf.
Proof.
  induction gdf as [|x gdf IH]; [done|].
  destruct (is_multipolygon (geometry x)) eqn:Hx.
  - rewrite !filter_cons_True by (by rewrite ?check_type_multipolygon).
    by rewrite IH.
  - rewrite !filter_cons_False by (by rewrite ?check_type_multipolygon, Hx).
    done.
Qed.

(** [preprocess_multipoly] in terms of the two filtered frames. *)
Lemma preprocess_multipoly_unfold gdf :
  preprocess_multipoly gdf
  = let m := filter (λ x, is_multipolygon (geometry x) = true) gdf in
    let p := filter (λ x, is_polygon (geometry x) = true) gdf in
    match m, p with
    | [], [] => Raise (PlainException none_polygon_msg)
    | [], _ :: _ => Ok p
    | _ :: _, _ => processed ← _transform_multipoly m; Ok (processed ++ p)%list
    end.
Proof.
  unfold preprocess_multipoly, _row_by_type, concat_frames.
  rewrite filter_check_type_polygon, filter_check_type_multipolygon.
  destruct (filter (λ x, is_multipolygon (geometry x) = true) gdf) as [|r m];
    destruct (filter (λ x, is_polygon (geometry x) = true) gdf) as [|q p];
    simpl; done.
Qed.

(** X1.  Whatever [preprocess_multipoly] returns holds Polygon rows only. *)
Theorem X1_preprocess_multipoly_returns_polygons gdf out :
  preprocess_multipoly gdf = Ok out →
  Forall (λ r, is_polygon (geometry r) = true) out.
Proof. apply preprocess_multipoly_only_polygons. Qed.

(** X2.  The exception of line 102 is raised exactly when no row of the
    input is a Polygon or a MultiPolygon (an empty frame included). *)
Theorem X2_preprocess_multipoly_none_found_iff gdf :
  preprocess_multipoly gdf = Raise (PlainException none_polygon_msg) ↔
  Forall (λ x, is_polygon (geometry x) = false
               ∧ is_multipolygon (geometry x) = false) gdf.
Proof. apply preprocess_multipoly_none_found. Qed.

(** X3.  With at least two MultiPolygon rows, none of them empty,
    [preprocess_multipoly] returns, and the geometries of the result are the
    parts of the MultiPolygon rows, row after row and in order, followed by
    the Polygon rows of the input. *)
Theorem X3_preprocess_multipoly_expands_every_part gdf :
  1 < length (filter (λ x, is_multipolygon (geometry x) = true) gdf) →
  Forall (λ r, is_multipolygon (geometry r) = true → parts r ≠ []) gdf →
  ∃ out,
    preprocess_multipoly gdf = Ok out
    ∧ geometry <$> out
      = ((filter (λ x, is_multipolygon (geometry x) = true) gdf
            ≫= λ r, Polygon <$> parts r)
         ++ (geometry <$> filter (λ x, is_polygon (geometry x) = true) gdf))%list.
Proof.
  intros Hlen Hparts. rewrite preprocess_multipoly_unfold. simpl.
  set (m := filter (λ x, is_multipolygon (geometry x) = true) gdf) in *.
  assert (Forall (λ r, is_multipolygon (geometry r) = true ∧ parts r ≠ []) m)
    as Hm.
  { apply Forall_forall. intros r [Hr Hin]%list_elem_of_filter.
    split; [done|]. by apply (proj1 (Forall_forall _ _) Hparts). }
  destruct (_transform_multipoly_many m Hlen Hm) as (processed & Hrun & Hgeo).
  destruct m as [|r0 m']; [simpl in Hlen; lia|].
  rewrite Hrun. simpl. eexists. split; [done|].
  by rewrite fmap_app, Hgeo.
Qed.

Lemma rconcat_map_empty_part (m : list (gdf_row P)) row :
  Forall (λ r, is_multipolygon (geometry r) = true) m →
  row ∈ m → parts row = [] →
  rconcat_map _transform_row m = Raise IndexError.
Proof.
  induction 1 as [|r m Hr _ IH]; [by intros ?%elem_of_nil|].
  intros Hin Hempty. simpl.
  destruct (decide (parts r = [])) as [Hr0|Hr0].
  - unfold _transform_row, parts in *.
    destruct (geometry r) as [|ps|]; try done. by subst ps.
  - destruct (_transform_row_ok r Hr Hr0) as [ys ->]. simpl.
    apply elem_of_cons in Hin as [->|Hin]; [done|].
    by rewrite IH.
Qed.

(** X4.  A MultiPolygon row without parts makes [preprocess_multipoly] raise
    [IndexError], wherever the row stands and whatever the other rows
    are. *)
Theorem X4_preprocess_multipoly_empty_multipolygon gdf row :
  row ∈ gdf →
  geometry row = MultiPolygon [] →
  preprocess_multipoly gdf = Raise IndexError.
Proof.
  intros Hin Hgeo. rewrite preprocess_multipoly_unfold. simpl.
  set (m := filter (λ x, is_multipolygon (geometry x) = true) gdf).
  assert (row ∈ m) as Hm
    by (apply list_elem_of_filter; split; [by rewrite Hgeo|done]).
  assert (Forall (λ r, is_multipolygon (geometry r) = true) m) as Hall
    by (apply Forall_forall; by intros r [? _]%list_elem_of_filter).
  assert (parts row = []) as Hparts by (unfold parts; by rewrite Hgeo).
  assert (_transform_multipoly m = Raise IndexError) as Hrun.
  { unfold _transform_multipoly. case_bool_decide as Hlen.
    - by eapply rconcat_map_empty_part.
    - destruct m as [|first [|]]; [by apply elem_of_nil in Hm| |simpl in Hlen; lia].
      apply list_elem_of_singleton in Hm as <-. by rewrite Hgeo. }
  destruct m as [|r0 m']; [by apply elem_of_nil in Hm|].
  by rewrite Hrun.
Qed.

(** Every row [_transform_multipoly] makes is a Polygon that is a part of
    one of the rows it was given. *)
Lemma _transform_multipoly_parts (m out : list (gdf_row P)) :
  _transform_multipoly m = Ok out →
  Forall (λ r, ∃ row q, row ∈ m ∧ q ∈ parts row ∧ geometry r = Polygon q) out.
Proof.
  unfold _transform_multipoly. case_bool_decide as Hlen.
  - intros Hout%rconcat_map_transform_geometry.
    apply Forall_forall. intros r Hr.
    assert (geometry r ∈ geometry <$> out) as Hg
      by (apply list_elem_of_fmap; by exists r).
    rewrite Hout in Hg. apply list_elem_of_bind in Hg as (row & Hg & Hrow).
    apply list_elem_of_fmap in Hg as (q & Hq & Hin). by exists row, q.
  - destruct m as [|first [|second m']]; [done| |simpl in Hlen; lia].
    destruct (geometry first) as [|[|p ps]|] eqn:Hgeo; simpl; try done.
    intros [= <-]. apply Forall_cons. split; [|by apply Forall_nil].
    exists first, p. split; [by left|]. split; [|done].
    unfold parts. rewrite Hgeo. by left.
Qed.

(** X5.  The result is the rows made from the MultiPolygon rows followed by
    the Polygon rows of the input, unchanged and in order.  Every row made
    is a Polygon that is a part of a MultiPolygon row of the input, so a row
    that is neither a Polygon nor a MultiPolygon gives nothing to the
    result; without a MultiPolygon row the result is the Polygon rows
    alone. *)
Theorem X5_preprocess_multipoly_keeps_polygon_rows gdf out :
  preprocess_multipoly gdf = Ok out →
  ∃ processed,
    out = (processed ++ filter (λ x, is_polygon (geometry x) = true) gdf)%list
    ∧ Forall (λ r, ∃ row q, row ∈ gdf
                            ∧ is_multipolygon (geometry row) = true
                            ∧ q ∈ parts row
                            ∧ geometry r = Polygon q) processed
    ∧ (Forall (λ x, is_multipolygon (geometry x) = false) gdf → processed = []).
Proof.
  rewrite preprocess_multipoly_unfold. simpl.
  destruct (filter (λ x, is_multipolygon (geometry x) = true) gdf)
    as [|r m] eqn:Hm.
  - destruct (filter (λ x, is_polygon (geometry x) = true) gdf); [done|].
    intros [= <-]. exists []. split; [done|]. split; [by apply Forall_nil|done].
  - destruct (_transform_multipoly (r :: m)) as [processed|] eqn:Hrun;
      simpl; [|done].
    intros [= <-]. exists processed. split; [done|]. split.
    + apply _transform_multipoly_parts in Hrun.
      eapply Forall_impl; [exact Hrun|]. intros x (row & q & Hrow & Hq & Hx).
      rewrite <-Hm in Hrow. apply list_elem_of_filter in Hrow as [Hmp Hrow].
      by exists row, q.
    + intros Hnone.
      assert (r ∈ filter (λ x, is_multipolygon (geometry x) = true) gdf) as Hr
        by (rewrite Hm; by left).
      apply list_elem_of_filter in Hr as [Hr Hin].
      apply (proj1 (Forall_forall _ _) Hnone) in Hin. congruence.
Qed.

(** X6.  Among several MultiPolygon rows, a row with two parts or more
    gives rows named [name_0], [name_1], ... in the order of the parts, all
    different; a row with one part keeps its name. *)
Theorem X6_transform_row_names row (ps : list P) :
  geometry row = MultiPolygon ps → ps ≠ [] →
  ∃ out,
    _transform_row row = Ok out
    ∧ name <$> out
      = (if bool_decide (1 < length ps)
         then imap (λ k _, name row ++ "_" ++ pretty k) ps
         else [name row])
    ∧ NoDup (name <$> out).
Proof.
  intros Hgeo Hne. unfold _transform_row. rewrite Hgeo. simpl.
  case_bool_decide as Hlen.
  - eexists. split; [done|]. rewrite fmap_imap. split; [done|].
    apply NoDup_alt. intros i j x.
    rewrite !list_lookup_imap.
    destruct (ps !! i); simpl; [|done]. destruct (ps !! j); simpl; [|done].
    intros [= <-] [= Heq].
    apply (inj (String.app (name row))) in Heq.
    apply (inj (String.app "_")) in Heq.
    by apply (inj pretty) in Heq.
  - destruct ps as [|p [|]]; [done| |simpl in Hlen; lia].
    eexists. split; [done|]. split; [done|]. apply NoDup_singleton.
Qed.
End preprocess_file_more.

(** ** senti_download.py : the whole of [download_folders] and the ledger *)

Section senti_download_more.
Context `{Sentinel}.
Implicit Types (w : world) (row : Product.t) (products : list Product.t).

Lemma for_each_app {W A B} (body : A → B → IO W B) (xs ys : list A) (acc : B)
    (w : W) :
  for_each body (xs ++ ys) acc w
  = match for_each body xs acc w with
    | (Ok acc', w') => for_each body ys acc' w'
    | (Raise e, w') => (Raise e, w')
    end.
Proof.
  revert acc w. induction xs as [|x xs IH]; intros acc w; simpl; [done|].
  unfold mbind, io_bind. destruct (body x acc w) as [[acc'|e] w']; [|done].
  apply IH.
Qed.

(** The loop on well-typed arguments, a database directory that exists and
    rows whose divisor is not zero: what is marked for deletion is the rows
    that are not taken. *)
Lemma download_loop_plan_skip (p : shape) (rp : bool) (db : string) (th : Qc)
    (rows : list Product.t) :
  Forall (λ row, divisor p rp row ≠ 0%Qc) rows →
  ∀ (delete : list string) w (names : gset string),
    dirs w !! db = Some names →
    ∃ w',
      for_each (download_row (PyShape p) (PyBool rp) (PyStr db) (PyFloat th))
               rows delete w
      = (Ok (delete ++ (Product.idx <$> download_skip p rp th names rows))%list,
         w')
      ∧ downloads w'
        = (downloads w ++ (Product.idx <$> download_plan p rp th names rows))%list
      ∧ is_Some (dirs w' !! db).
Proof.
  induction 1 as [|row rows Hz _ IH]; intros delete w names Hdb.
  - exists w. simpl. by rewrite !app_nil_r, Hdb.
  - simpl. unfold mbind, io_bind at 1. rewrite download_row_typed, Hdb.
    rewrite bool_decide_eq_false_2 by done.
    case_bool_decide as Hge; simpl; [case_bool_decide as Hin; simpl|].
    + destruct (IH delete (fetched db row w) _ (fetched_dirs db row w names Hdb))
        as (w' & Hrun & Hlog & Hdir).
      exists w'. split; [done|]. split; [|done]. rewrite Hlog.
      unfold fetched, add_names. simpl. by rewrite <-app_assoc.
    + destruct (IH (delete ++ [Product.idx row])%list w names Hdb)
        as (w' & Hrun & Hlog & Hdir).
      exists w'. rewrite Hrun. by rewrite <-app_assoc.
    + destruct (IH (delete ++ [Product.idx row])%list w names Hdb)
        as (w' & Hrun & Hlog & Hdir).
      exists w'. rewrite Hrun. by rewrite <-app_assoc.
Qed.

Lemma download_skip_subseteq (p : shape) (rp : bool) (th : Qc)
    (rows : list Product.t) :
  ∀ (names : gset string) row, row ∈ download_skip p rp th names rows → row ∈ rows.
Proof.
  induction rows as [|r rows IH]; intros names row; simpl; [done|].
  destruct (_ && _).
  - intros ?%IH. by right.
  - intros [->|?%IH]%elem_of_cons; [by left|by right].
Qed.

Lemma drop_skip_is_plan (p : shape) (rp : bool) (th : Qc)
    (rows : list Product.t) :
  NoDup (Product.idx <$> rows) →
  ∀ (names : gset string) (pre : list string),
    (∀ r, r ∈ rows → Product.idx r ∉ pre) →
    drop rows (pre ++ (Product.idx <$> download_skip p rp th names rows))%list
    = download_plan p rp th names rows.
Proof.
  unfold drop. induction rows as [|row rows IH]; intros Hnd names pre Hpre;
    [done|].
  rewrite fmap_cons in Hnd. apply NoDup_cons in Hnd as [Hfresh Hnd].
  assert (∀ r, r ∈ rows → Product.idx r ≠ Product.idx row) as Hother.
  { intros r Hr Heq. apply Hfresh. rewrite <-Heq.
    apply list_elem_of_fmap. by exists r. }
  simpl. destruct (_ && _) eqn:Htake.
  - rewrite filter_cons_True.
    + f_equal. apply IH; [done|]. intros r Hr. apply Hpre. by right.
    + rewrite elem_of_app. intros [Hin|Hin].
      * by apply (Hpre row); [left|].
      * apply list_elem_of_fmap in Hin as (r & Heq & Hr%download_skip_subseteq).
        by apply (Hother r).
  - rewrite filter_cons_False.
    + rewrite fmap_cons, cons_middle, (assoc_L (++) pre [_]).
      apply IH; [done|]. intros r Hr.
      rewrite elem_of_app, list_elem_of_singleton. intros [Hin|Heq].
      * by apply (Hpre r); [right|].
      * by apply (Hother r).
    + intros Hnot. apply Hnot. rewrite elem_of_app. right.
      rewrite fmap_cons. by left.
Qed.

(** X7.  On well-typed arguments, with a database directory that exists,
    divisors that are not zero and index labels that are all different,
    [download_folders] returns exactly the products it has downloaded, in the
    order of the frame, and the downloads it has requested are theirs. *)
Theorem X7_download_folders_returns_the_downloaded (p : shape) (rp : bool)
    products (db : string) (th : Qc) w (names : gset string) :
  dirs w !! db = Some names →
  Forall (λ row, divisor p rp row ≠ 0%Qc) products →
  NoDup (Product.idx <$> products) →
  ∃ w',
    download_folders (PyShape p) (PyBool rp) (PyFrame products) (PyStr db)
                     (PyFloat th) w
    = (Ok (download_plan p rp th names products), w')
    ∧ downloads w'
      = (downloads w
         ++ (Product.idx <$> download_plan p rp th names products))%list.
Proof.
  intros Hdb Hz Hnd.
  destruct (download_loop_plan_skip p rp db th products Hz [] w names Hdb)
    as (w' & Hrun & Hlog & _).
  exists w'. split; [|done].
  unfold download_folders, mbind, io_bind, lift. simpl. rewrite Hrun.
  unfold mret, io_ret. do 2 f_equal.
  apply (drop_skip_is_plan p rp th products Hnd names []).
  intros r _ Hin. by apply elem_of_nil in Hin.
Qed.

(** X8.  A row whose divisor is zero stops [download_folders] with
    [ZeroDivisionError]; the products downloaded for the rows before it stay
    downloaded. *)
Theorem X8_download_folders_zero_area (p : shape) (rp : bool)
    (before after : list Product.t) row (db : string) (th : Qc) w
    (names : gset string) :
  dirs w !! db = Some names →
  Forall (λ r, divisor p rp r ≠ 0%Qc) before →
  divisor p rp row = 0%Qc →
  ∃ w',
    download_folders (PyShape p) (PyBool rp) (PyFrame (before ++ row :: after))
                     (PyStr db) (PyFloat th) w
    = (Raise ZeroDivisionError, w')
    ∧ downloads w'
      = (downloads w ++ (Product.idx <$> download_plan p rp th names before))%list.
Proof.
  intros Hdb Hz Hzero.
  destruct (download_loop_plan_skip p rp db th before Hz [] w names Hdb)
    as (w' & Hrun & Hlog & _).
  exists w'. split; [|done].
  unfold download_folders, mbind, io_bind, lift. simpl.
  rewrite for_each_app, Hrun. simpl. unfold mbind, io_bind.
  rewrite download_row_typed. by rewrite bool_decide_eq_true_2.
Qed.

Lemma drop_all (rows : list Product.t) (delete : list string) :
  (∀ r, r ∈ rows → Product.idx r ∈ delete) → drop rows delete = [].
Proof.
  unfold drop. induction rows as [|r rows IH]; intros Hall; [done|].
  rewrite filter_cons_False.
  - apply IH. intros r' Hr'. apply Hall. by right.
  - intros Hnot. apply Hnot, Hall. by left.
Qed.

Lemma download_loop_no_directory (p : shape) (rp : bool) (db : string) (th : Qc)
    (rows : list Product.t) w :
  dirs w !! db = None →
  Forall (λ row, divisor p rp row ≠ 0%Qc) rows →
  ∀ delete,
    for_each (download_row (PyShape p) (PyBool rp) (PyStr db) (PyFloat th))
             rows delete w
    = if existsb (λ row, bool_decide (th ≤ area_ratio p rp row)%Qc) rows
      then (Raise FileNotFoundError, w)
      else (Ok (delete ++ (Product.idx <$> rows))%list, w).
Proof.
  intros Hdb. induction 1 as [|row rows Hz _ IH]; intros delete; simpl.
  - by rewrite app_nil_r.
  - unfold mbind, io_bind at 1. rewrite download_row_typed, Hdb.
    rewrite bool_decide_eq_false_2 by done.
    case_bool_decide; simpl; [done|].
    rewrite IH. by rewrite <-app_assoc.
Qed.

(** X9.  Without the database directory nothing is ever downloaded:
    [download_folders] raises [FileNotFoundError] as soon as a row reaches
    the threshold, and returns an empty frame when none does. *)
Theorem X9_download_folders_no_directory (p : shape) (rp : bool) products
    (db : string) (th : Qc) w :
  dirs w !! db = None →
  Forall (λ row, divisor p rp row ≠ 0%Qc) products →
  download_folders (PyShape p) (PyBool rp) (PyFrame products) (PyStr db)
                   (PyFloat th) w
  = if existsb (λ row, bool_decide (th ≤ area_ratio p rp row)%Qc) products
    then (Raise FileNotFoundError, w)
    else (Ok [], w).
Proof.
  intros Hdb Hz. unfold download_folders, mbind, io_bind, lift. simpl.
  rewrite download_loop_no_directory by done.
  destruct (existsb _ products); [done|]. unfold mret, io_ret. do 2 f_equal.
  apply drop_all. intros r Hr. apply list_elem_of_fmap. by exists r.
Qed.

(** X10.  [update_downloaded] requests no download and changes no ledger
    but the one at [csv_path].  It raises exactly when the path cannot be
    written, and otherwise leaves at [csv_path] the rows that were there, or
    the downloaded products when there was no ledger to read. *)
Theorem X10_update_downloaded_touches_one_ledger (csv_path : string)
    (downloaded_products : list Product.t) w :
  ∃ r w',
    update_downloaded csv_path downloaded_products w = (r, w')
    ∧ downloads w' = downloads w
    ∧ unwritable w' = unwritable w
    ∧ (∀ other, other ≠ csv_path → csvs w' !! other = csvs w !! other)
    ∧ (is_ok r = true ↔ csv_path ∉ unwritable w)
    ∧ (is_ok r = true →
       csvs w' !! csv_path
       = Some (default downloaded_products (csvs w !! csv_path))).
Proof.
  destruct (decide (csv_path ∈ unwritable w)) as [Hw|Hw].
  - eexists _, _. rewrite update_downloaded_fallback by auto.
    unfold to_csv. rewrite bool_decide_eq_true_2 by done.
    split; [done|]. simpl. repeat split; done.
  - destruct (csvs w !! csv_path) as [df|] eqn:Hread.
    + eexists _, _. rewrite (update_downloaded_rewrites_old _ _ df) by done.
      split; [done|]. simpl. repeat split; try done.
      * intros other Hne. by rewrite lookup_insert_ne.
      * intros _. by rewrite lookup_insert_eq.
    + eexists _, _. rewrite update_downloaded_fallback by auto.
      unfold to_csv. rewrite bool_decide_eq_false_2 by done.
      split; [done|]. simpl. repeat split; try done.
      * intros other Hne. by rewrite lookup_insert_ne.
      * intros _. by rewrite lookup_insert_eq.
Qed.
End senti_download_more.

(** ** img_processing.py : [get_folders] beyond the contained polygon *)

Section get_folders_more.
Context `{Rasterio} `{!Parsers}.
Implicit Types (w : fs) (self : ImageProcessing).

(** X11.  Without an initial date and with a final date that parses, when the
    ledger reads and parses and no polygon has a zero area, [get_folders]
    returns, and every date it returns is before the end of the final day. *)
Theorem X11_get_folders_final_date_bounds self (csv_path s : string)
    (threshold : Qc) w df pdf (t : Z) :
  ledgers w !! csv_path = Some df →
  parse_dates df = Ok pdf →
  strptime_dmy s = Ok t →
  Forall (λ r, is_ok (wkt_loads (Ledger.geometry r.1)) = true) pdf →
  Forall (λ g, area (Poly.geometry g) ≠ 0%Qc) (gdf self) →
  ∃ folders date,
    get_folders self csv_path None (Some s) threshold w
    = (Ok (folders, date), w)
    ∧ ∀ n ds d, date !! n = Some ds → d ∈ ds → (d < t + one_day)%Z.
Proof. apply get_folders_final_date. Qed.

(** X12.  The result of [get_folders] is keyed by polygon name: under the
    name of a polygon that no later polygon of the instance shares, it holds
    the file names and the dates of the ledger rows whose footprint covers
    at least the fraction [threshold] of that polygon, in ledger order and
    row for row. *)
Theorem X12_get_folders_lists_covered_rows self (csv_path : string)
    (final_date : option string) (threshold : Qc) w df pdf kept
    (before after : list Poly.t) (g : Poly.t) :
  ledgers w !! csv_path = Some df →
  parse_dates df = Ok pdf →
  until final_date pdf = Ok kept →
  Forall (λ r, is_ok (wkt_loads (Ledger.geometry r.1)) = true) kept →
  Forall (λ g, area (Poly.geometry g) ≠ 0%Qc) (gdf self) →
  gdf self = (before ++ g :: after)%list →
  Poly.name g ∉ Poly.name <$> after →
  ∃ folders date,
    get_folders self csv_path None final_date threshold w
    = (Ok (folders, date), w)
    ∧ folders !! Poly.name g
      = Some ((λ r, Ledger.filename r.1)
                <$> filter (λ r, covered g threshold r = true) kept)
    ∧ date !! Poly.name g
      = Some (snd <$> filter (λ r, covered g threshold r = true) kept).
Proof.
  intros Hread Hparse Hkept Hwkt Harea Hgdf Hlast.
  exists (selection kept threshold (gdf self)).1,
         (selection kept threshold (gdf self)).2.
  rewrite <-surjective_pairing.
  split; [by eapply get_folders_selection|].
  unfold selection. rewrite Hgdf. by apply selection_lookup_last.
Qed.

Lemma select_row_zero_area (threshold : Qc) (g : Poly.t) (rd : Ledger.t * Z)
    acc :
  area (Poly.geometry g) = 0%Qc →
  is_ok (wkt_loads (Ledger.geometry rd.1)) = true →
  select_row g threshold rd acc = Raise ZeroDivisionError.
Proof.
  intros Hzero Hrd. unfold select_row.
  destruct (wkt_loads (Ledger.geometry rd.1)); [|done]. simpl.
  unfold py_div. by rewrite bool_decide_eq_true_2.
Qed.

Lemma select_poly_zero_area (df : list (Ledger.t * Z)) (threshold : Qc)
    (g : Poly.t) acc :
  area (Poly.geometry g) = 0%Qc → df ≠ [] →
  Forall (λ r, is_ok (wkt_loads (Ledger.geometry r.1)) = true) df →
  select_poly df threshold g acc = Raise ZeroDivisionError.
Proof.
  intros Hzero Hne Hwkt. destruct Hwkt as [|rd df Hrd _]; [done|].
  unfold select_poly.
  change (rfold (select_row g threshold) (rd :: df) ?a)
    with (select_row g threshold rd a ≫= rfold (select_row g threshold) df).
  by rewrite select_row_zero_area.
Qed.

(** X13.  A polygon of zero area makes [get_folders] raise
    [ZeroDivisionError] as soon as the ledger has a row left, wherever the
    polygon stands in the instance. *)
Theorem X13_get_folders_zero_area_polygon self (csv_path : string)
    (final_date : option string) (threshold : Qc) w df pdf kept (g : Poly.t) :
  ledgers w !! csv_path = Some df →
  parse_dates df = Ok pdf →
  until final_date pdf = Ok kept →
  kept ≠ [] →
  Forall (λ r, is_ok (wkt_loads (Ledger.geometry r.1)) = true) kept →
  g ∈ gdf self →
  area (Poly.geometry g) = 0%Qc →
  get_folders self csv_path None final_date threshold w
  = (Raise ZeroDivisionError, w).
Proof.
  intros Hread Hparse Hkept Hne Hwkt Hg Hzero.
  unfold get_folders, ledger_read_csv, mbind, io_bind, lift.
  rewrite Hread, Hparse. unfold until in Hkept.
  assert (∀ acc, rfold (select_poly kept threshold) (gdf self) acc
                 = Raise ZeroDivisionError) as Hloop.
  { revert Hg. generalize (gdf self). intros l.
    induction l as [|g0 l IH]; intros Hg acc; [by apply elem_of_nil in Hg|].
    change (rfold (select_poly kept threshold) (g0 :: l) acc)
      with (select_poly kept threshold g0 acc
            ≫= rfold (select_poly kept threshold) l).
    destruct (decide (area (Poly.geometry g0) = 0%Qc)) as [Hz0|Hz0].
    - by rewrite select_poly_zero_area.
    - rewrite select_poly_record by done. simpl.
      apply elem_of_cons in Hg as [->|Hg]; [done|]. by apply IH. }
  destruct final_date as [s|]; simpl in *;
    [destruct (strptime_dmy s); simpl in *; [|done]|];
    injection Hkept as <-; by rewrite Hloop.
Qed.

Lemma selection_empty_ledger (threshold : Qc) (l : list Poly.t) :
  ∀ acc,
    rfold (select_poly [] threshold) l acc
    = Ok (foldl (record_poly [] threshold) acc l).
Proof. induction l as [|g l IH]; intros acc; [done|]. simpl. apply IH. Qed.

(** X14.  On an empty ledger [get_folders] returns an empty list of folders
    and an empty list of dates for every polygon of the instance, whatever
    the polygons are. *)
Theorem X14_get_folders_empty_ledger self (csv_path : string)
    (threshold : Qc) w (g : Poly.t) :
  ledgers w !! csv_path = Some [] →
  g ∈ gdf self →
  ∃ folders date,
    get_folders self csv_path None None threshold w = (Ok (folders, date), w)
    ∧ folders !! Poly.name g = Some []
    ∧ date !! Poly.name g = Some [].
Proof.
  intros Hread Hg.
  unfold get_folders, ledger_read_csv, mbind, io_bind, lift.
  rewrite Hread. simpl. rewrite selection_empty_ledger.
  eexists _, _. rewrite <-surjective_pairing. split; [done|].
  apply list_elem_of_split in Hg as (before & after & ->).
  revert before. induction after as [|g' after IH] using rev_ind; intros before.
  - rewrite foldl_app. simpl. by rewrite !lookup_insert_eq.
  - rewrite app_comm_cons, (assoc_L (++)), foldl_app. simpl.
    destruct (decide (Poly.name g' = Poly.name g)) as [->|Hne].
    + by rewrite !lookup_insert_eq.
    + rewrite !lookup_insert_ne by done. apply IH.
Qed.
End get_folders_more.

(** ** img_processing.py : the index files and the clips *)

Section index_files_more.
Context `{Rasterio} `{!Parsers}.
Implicit Types (w : fs) (self : ImageProcessing).

Lemma img_listdir_reads (path : string) w r w' :
  img_listdir path w = (r, w') → w' = w.
Proof. unfold img_listdir. destruct (listing w !! path); by intros [= _ <-]. Qed.

Lemma rio_open_reads (path : string) w r w' :
  rio_open path w = (r, w') → w' = w.
Proof. unfold rio_open. destruct (rasters w !! path); by intros [= _ <-]. Qed.

Lemma jp2_bands_reads (path : string) w r w' :
  jp2_bands path w = (r, w') → w' = w.
Proof.
  unfold jp2_bands, mbind, io_bind, lift, img_listdir.
  destruct (listing w !! path); by intros [= _ <-].
Qed.

Lemma rio_write_lists (dir file : string) (r : Raster.t) w w' :
  rio_write dir file r w = (Ok (), w') →
  ∃ names, listing w' !! dir = Some names ∧ file ∈ names.
Proof.
  unfold rio_write. destruct (listing w !! dir) as [names|]; [|done].
  intros [= <-]. simpl. rewrite lookup_insert_eq. eexists. split; [done|].
  case_bool_decide; [done|]. apply elem_of_app. right. by left.
Qed.

(** X15.  With no [NDVI.tiff] yet, a B04 and a B08 file of one unsigned
    integer type and one shape give an [NDVI.tiff] that carries the reference
    system and the transform of B04 and, pixel by pixel and in the order of
    the arrays, the value of lines 155; where every sum of the two bands fits
    the integer type and is not zero, that value is the normalized
    difference (B08 - B04)/(B08 + B04). *)
Theorem X15_generate_ndvi_writes_the_index (img_path : string) w
    (names : list string) (bands : gmap string string) (f4 f8 : string)
    (crs4 crs8 : string) (tr4 tr8 : list Qc) (bits : Z) (sh : list nat)
    (red nir : list Z) :
  let path := path_join img_path "R10m" in
  listing w !! path = Some names →
  "NDVI.tiff" ∉ names →
  jp2_bands path w = (Ok bands, w) →
  bands !! "B04" = Some f4 →
  bands !! "B08" = Some f8 →
  rasters w !! path_join path f4 = Some (Raster.mk crs4 tr4 (UIntArr bits sh red)) →
  rasters w !! path_join path f8 = Some (Raster.mk crs8 tr8 (UIntArr bits sh nir)) →
  generate_ndvi img_path w
  = (Ok (),
     Fs (<[path := (names ++ ["NDVI.tiff"])%list]> (listing w))
        (<[path_join path "NDVI.tiff" :=
             Raster.mk crs4 tr4 (FloatArr sh (zip_with (nd_pixel bits) nir red))]>
           (rasters w))
        (ledgers w))
  ∧ (Forall2 (λ n x, (0 ≤ n + x < 2 ^ bits)%Z ∧ (n + x ≠ 0)%Z) nir red →
     zip_with (nd_pixel bits) nir red
     = zip_with (λ n x, Fin ((Z2Qc n - Z2Qc x) / (Z2Qc n + Z2Qc x))%Qc) nir red).
Proof.
  intros path Hls Hnew Hbands H4 H8 Hb4 Hb8. split.
  - unfold generate_ndvi. fold path.
    unfold mbind at 1, io_bind at 1, img_listdir. rewrite Hls.
    rewrite bool_decide_eq_true_2 by done.
    unfold mbind at 1, io_bind at 1. rewrite Hbands.
    unfold mbind, io_bind, lift, dict_get, rio_open.
    rewrite H4, Hb4, H8, Hb8. simpl.
    rewrite normalized_difference_uint. unfold rio_write. rewrite Hls.
    by rewrite bool_decide_eq_false_2.
  - clear. induction 1 as [|n x nir' red' [Hfit Hnz] _ IH]; [done|].
    simpl. rewrite IH. by rewrite nd_pixel_fits.
Qed.

(** X16.  A run of [generate_ndvi] or of [generate_ndre] that returns leaves
    a folder on which a second run changes nothing. *)
Theorem X16_generate_twice_is_generate_once (img_path : string) w w' :
  (generate_ndvi img_path w = (Ok (), w') →
   generate_ndvi img_path w' = (Ok (), w'))
  ∧ (generate_ndre img_path w = (Ok (), w') →
     generate_ndre img_path w' = (Ok (), w')).
Proof.
  split.
  - intros Hrun.
    destruct (listing w !! path_join img_path "R10m") as [names|] eqn:Hls.
    2: { unfold generate_ndvi, mbind, io_bind, img_listdir in Hrun.
         by rewrite Hls in Hrun. }
    destruct (decide ("NDVI.tiff" ∈ names)) as [Hin|Hnew].
    { rewrite (generate_ndvi_present _ _ _ Hls Hin) in Hrun.
      injection Hrun as <-. by eapply generate_ndvi_present. }
    unfold generate_ndvi in Hrun.
    unfold mbind at 1, io_bind at 1, img_listdir in Hrun. rewrite Hls in Hrun.
    rewrite bool_decide_eq_true_2 in Hrun by done.
    unfold mbind at 1, io_bind at 1 in Hrun.
    destruct (jp2_bands _ w) as [[bands|] w1] eqn:Hb; [|done].
    apply jp2_bands_reads in Hb as ->.
    unfold mbind at 1, io_bind at 1, lift in Hrun.
    destruct (dict_get bands "B04") as [f4|]; [|done].
    unfold mbind at 1, io_bind at 1 in Hrun.
    destruct (rio_open _ w) as [[b4|] w1] eqn:Ho4; [|done].
    apply rio_open_reads in Ho4 as ->.
    unfold mbind at 1, io_bind at 1, lift in Hrun.
    destruct (dict_get bands "B08") as [f8|]; [|done].
    unfold mbind at 1, io_bind at 1 in Hrun.
    destruct (rio_open _ w) as [[b8|] w1] eqn:Ho8; [|done].
    apply rio_open_reads in Ho8 as ->.
    unfold mbind at 1, io_bind at 1, lift in Hrun.
    destruct (normalized_difference _ _) as [ndvi|]; [|done].
    apply rio_write_lists in Hrun as (names' & Hls' & Hin').
    by eapply generate_ndvi_present.
  - intros Hrun.
    destruct (listing w !! path_join img_path "R10m") as [names|] eqn:Hls.
    2: { unfold generate_ndre, mbind, io_bind, img_listdir in Hrun.
         by rewrite Hls in Hrun. }
    destruct (decide ("NDRE.tiff" ∈ names)) as [Hin|Hnew].
    { rewrite (generate_ndre_present _ _ _ Hls Hin) in Hrun.
      injection Hrun as <-. by eapply generate_ndre_present. }
    unfold generate_ndre in Hrun.
    unfold mbind at 1, io_bind at 1, img_listdir in Hrun. rewrite Hls in Hrun.
    rewrite bool_decide_eq_true_2 in Hrun by done.
    repeat
      (unfold mbind at 1, io_bind at 1, lift in Hrun;
       match type of Hrun with
       | context [match ?m with _ => _ end] =>
           match m with
           | generate_ndre _ _ => fail 1
           | _ => destruct m as [[?|?] ?]; [|done]
           | _ => destruct m as [?|?]; [|done]
           end
       end).
    apply rio_write_lists in Hrun as (names' & Hls' & Hin').
    by eapply generate_ndre_present.
Qed.
End index_files_more.

(** ** preprocess_file.py : file names and the naming of rows *)

Lemma append_cons (a : ascii) (s t : string) :
  String a s ++ t = String a (s ++ t).
Proof. done. Qed.

Lemma append_nil (t : string) : "" ++ t = t.
Proof. done. Qed.

Lemma length_append (s t : string) :
  String.length (s ++ t) = String.length s + String.length t.
Proof.
  induction s as [|a s IH]; [done|]. rewrite append_cons. simpl. by rewrite IH.
Qed.

Lemma substring_all (s : string) : String.substring 0 (String.length s) s = s.
Proof. induction s as [|a s IH]; [done|]. simpl. by rewrite IH. Qed.

Lemma substring_prefix (s t : string) :
  String.substring 0 (String.length s) (s ++ t) = s.
Proof.
  induction s as [|a s IH]; [by destruct t|].
  rewrite append_cons. simpl. by rewrite IH.
Qed.

Lemma substring_suffix (s t : string) :
  String.substring (String.length s) (String.length t) (s ++ t) = t.
Proof.
  induction s as [|a s IH]; [apply substring_all|].
  rewrite append_cons. simpl. apply IH.
Qed.

Lemma rfind_absent (c : ascii) (s : string) :
  Forall (λ a, a ≠ c) (list_ascii_of_string s) → rfind c s = (-1)%Z.
Proof.
  induction s as [|a s IH]; [done|]. simpl.
  intros [Ha Hs]%Forall_cons. rewrite (IH Hs). simpl.
  by rewrite (proj2 (Ascii.eqb_neq a c) Ha).
Qed.

Lemma rfind_bounds (c : ascii) (s : string) :
  (-1 ≤ rfind c s < Z.of_nat (String.length s))%Z.
Proof.
  induction s as [|a s IH]; [simpl; lia|]. simpl String.length. simpl rfind.
  destruct (0 <=? rfind c s)%Z eqn:Hr; [lia|].
  destruct (Ascii.eqb a c); lia.
Qed.

Lemma rfind_last (c : ascii) (stem ext : string) :
  Forall (λ a, a ≠ c) (list_ascii_of_string ext) →
  rfind c (stem ++ String c ext) = Z.of_nat (String.length stem).
Proof.
  intros Hext. induction stem as [|a stem IH].
  - rewrite append_nil. simpl. rewrite (rfind_absent c ext Hext). simpl.
    by rewrite Ascii.eqb_refl.
  - rewrite append_cons. simpl rfind. rewrite IH. simpl String.length.
    destruct (0 <=? Z.of_nat (String.length stem))%Z eqn:Hle; lia.
Qed.

Lemma slice_to_stem (stem ext : string) :
  Forall (λ a, a ≠ "."%char) (list_ascii_of_string ext) →
  slice_to (stem ++ "." ++ ext) (rfind "." (stem ++ "." ++ ext)) = stem.
Proof.
  intros Hext. change (stem ++ "." ++ ext) with (stem ++ String "." ext).
  rewrite rfind_last by done.
  unfold slice_to, slice_bound. rewrite length_append. simpl String.length.
  replace (Z.to_nat _) with (String.length stem)
    by (destruct (_ <? 0)%Z eqn:?; lia).
  apply substring_prefix.
Qed.

(** X17.  [_get_filename] cuts a file name at its last dot: for an extension
    without a dot it gives back the stem and the extension, so that
    [stem + "." + ext] is the name again. *)
Theorem X17_get_filename_splits_at_last_dot (stem ext : string) :
  Forall (λ a, a ≠ "."%char) (list_ascii_of_string ext) →
  _get_filename (stem ++ "." ++ ext) = (stem, ext).
Proof.
  intros Hext. unfold _get_filename. rewrite slice_to_stem by done.
  change (stem ++ "." ++ ext) with (stem ++ String "." ext).
  rewrite rfind_last by done.
  assert (String.length (stem ++ String "." ext)
          = String.length stem + S (String.length ext)) as Hlen
    by apply length_append.
  f_equal.
  unfold slice_from, slice_bound. rewrite Hlen.
  replace (Z.to_nat _) with (String.length (stem ++ "."))
    by (rewrite length_append; simpl; destruct (_ <? 0)%Z eqn:?; lia).
  replace (String.length stem + S (String.length ext)
           - String.length (stem ++ "."))
    with (String.length ext) by (rewrite length_append; simpl; lia).
  replace (stem ++ String "." ext) with ((stem ++ ".") ++ ext).
  - apply substring_suffix.
  - clear. induction stem as [|a stem IH]; [done|].
    rewrite !append_cons. by rewrite IH.
Qed.

(** X18.  On a name without a dot, [rfind] gives -1 and the slice drops the
    last character: [_get_filename] returns the name short of its last
    character as the stem, and the whole name as the extension. *)
Theorem X18_get_filename_without_dot (text : string) :
  Forall (λ a, a ≠ "."%char) (list_ascii_of_string text) →
  _get_filename text
  = (String.substring 0 (String.length text - 1) text, text).
Proof.
  intros Hno. unfold _get_filename. rewrite rfind_absent by done.
  unfold slice_to, slice_from.
  assert (slice_bound text (-1) = String.length text - 1) as ->
    by (unfold slice_bound; change (-1 <? 0)%Z with true; cbv iota; lia).
  assert (slice_bound text (-1 + 1) = 0) as ->
    by (unfold slice_bound; change (-1 + 1 <? 0)%Z with false; cbv iota; lia).
  rewrite Nat.sub_0_r. by rewrite substring_all.
Qed.

Lemma split_on_nonempty (c : ascii) (s : string) : split_on c s ≠ [].
Proof.
  induction s as [|a s IH]; [done|]. simpl.
  destruct (Ascii.eqb a c); [done|]. by destruct (split_on c s).
Qed.

Lemma split_on_append (c : ascii) (s t : string) :
  split_on c (s ++ String c t) = (split_on c s ++ split_on c t)%list.
Proof.
  induction s as [|a s IH].
  - rewrite append_nil. simpl. by rewrite Ascii.eqb_refl.
  - rewrite append_cons. simpl. rewrite IH.
    destruct (Ascii.eqb a c); [done|].
    pose proof (split_on_nonempty c s). by destruct (split_on c s).
Qed.

Lemma split_on_absent (c : ascii) (s : string) :
  Forall (λ a, a ≠ c) (list_ascii_of_string s) → split_on c s = [s].
Proof.
  induction s as [|a s IH]; [done|]. simpl.
  intros [Ha Hs]%Forall_cons. rewrite (IH Hs).
  by rewrite (proj2 (Ascii.eqb_neq a c) Ha).
Qed.

Lemma basename_in_directory (dir file : string) :
  Forall (λ a, a ≠ "/"%char) (list_ascii_of_string file) →
  file ≠ "" → file ≠ "." →
  basename (dir ++ "/" ++ file) = file.
Proof.
  intros Hfile Hne Hdot. unfold basename.
  change (dir ++ "/" ++ file) with (dir ++ String "/" file).
  rewrite split_on_append, (split_on_absent _ file) by done.
  rewrite filter_app, filter_cons_True, filter_nil by done.
  by rewrite last_snoc.
Qed.

(** X19.  For a file in a directory, whose name has a stem that is not
    empty and an extension without a dot, [_get_filepathname] is the stem:
    the directory and the extension are gone. *)
Theorem X19_get_filepathname_is_the_stem (dir stem ext : string) :
  stem ≠ "" →
  Forall (λ a, a ≠ "/"%char) (list_ascii_of_string (stem ++ "." ++ ext)) →
  Forall (λ a, a ≠ "."%char) (list_ascii_of_string ext) →
  _get_filepathname (dir ++ "/" ++ stem ++ "." ++ ext) = stem.
Proof.
  intros Hstem Hslash Hext. unfold _get_filepathname.
  assert (stem ++ "." ++ ext ≠ "") as Hne by (by destruct stem).
  assert (stem ++ "." ++ ext ≠ ".") as Hdot.
  { destruct stem as [|a [|b stem]]; [done|by intros [=]|by intros [=]]. }
  rewrite (basename_in_directory dir (stem ++ "." ++ ext)) by done.
  by apply slice_to_stem.
Qed.

Section naming_rows.
Context {P : Type}.
Implicit Types (gdf : list (gdf_row P)).

Lemma set_names_geometry gdf (name_file : string) :
  geometry <$> set_names gdf name_file = geometry <$> gdf.
Proof.
  unfold set_names. case_bool_decide.
  - rewrite fmap_imap. rewrite <-(imap_const geometry).
    by apply imap_ext.
  - clear. induction gdf as [|r gdf IH]; [done|]. simpl. f_equal. apply IH.
Qed.

Lemma set_names_names gdf (name_file : string) :
  name <$> set_names gdf name_file
  = if bool_decide (1 < length gdf)
    then imap (λ x _, name_file ++ "_" ++ pretty x) gdf
    else replicate (length gdf) name_file.
Proof.
  unfold set_names. case_bool_decide.
  - by rewrite fmap_imap.
  - clear. induction gdf as [|r gdf IH]; [done|]. simpl. by f_equal.
Qed.

Lemma numbered_names_NoDup {A} (l : list A) (name_file : string) :
  NoDup (imap (λ x _, name_file ++ "_" ++ pretty x) l).
Proof.
  apply NoDup_alt. intros i j x. rewrite !list_lookup_imap.
  destruct (l !! i); simpl; [|done]. destruct (l !! j); simpl; [|done].
  intros [= <-] [= Heq].
  apply (inj (String.app name_file)) in Heq.
  apply (inj (String.app "_")) in Heq.
  by apply (inj pretty) in Heq.
Qed.

Lemma _rename_geopandas_rows gdf (filepath : string) :
  let out := _rename_geopandas gdf filepath in
  let stem := _get_filepathname filepath in
  geometry <$> out = geometry <$> gdf
  ∧ name <$> out
    = (if bool_decide (1 < length gdf)
       then imap (λ x _, stem ++ "_" ++ pretty x) gdf
       else replicate (length gdf) stem).
Proof.
  intros out stem. unfold out, _rename_geopandas. fold stem.
  set (renamed := map _ gdf).
  assert (length renamed = length gdf) as Hlen by apply length_map.
  assert (geometry <$> renamed = geometry <$> gdf) as Hgeo.
  { unfold renamed. clear. induction gdf as [|r gdf IH]; [done|].
    simpl. f_equal. apply IH. }
  rewrite set_names_geometry, set_names_names, Hlen.
  split; [done|].
  assert (∀ gen : nat → string,
            imap (λ x _, gen x) renamed = imap (λ x _, gen x) gdf) as Himap.
  { intros gen. apply list_eq. intros i. rewrite !list_lookup_imap.
    destruct (gdf !! i) eqn:Hi.
    - destruct (lookup_lt_is_Some_2 renamed i) as [r' ->]; [|done].
      rewrite Hlen. by eapply lookup_lt_Some.
    - rewrite (lookup_ge_None_2 renamed i); [done|].
      rewrite Hlen. by apply lookup_ge_None. }
  by rewrite (Himap (λ x, stem ++ "_" ++ pretty x)).
Qed.

(** X20.  [_rename_geopandas] keeps the rows, their order and their
    geometries, and names them from the file alone: with more than one row
    the names are [stem_0], [stem_1], ... and all different, otherwise the
    name is the stem; the names and the [Name] column that came with the
    frame play no part. *)
Theorem X20_rename_geopandas_names_rows gdf (filepath : string) :
  let out := _rename_geopandas gdf filepath in
  let stem := _get_filepathname filepath in
  geometry <$> out = geometry <$> gdf
  ∧ name <$> out
    = (if bool_decide (1 < length gdf)
       then imap (λ x _, stem ++ "_" ++ pretty x) gdf
       else replicate (length gdf) stem)
  ∧ (1 < length gdf → NoDup (name <$> out)).
Proof.
  intros out stem.
  destruct (_rename_geopandas_rows gdf filepath) as [Hgeo Hnames].
  split; [done|]. split; [done|]. intros Hmany. unfold out.
  rewrite Hnames, bool_decide_eq_true_2 by done.
  apply numbered_names_NoDup.
Qed.

(** X21.  On a file with two features or more, all of them Polygons,
    [get_geopandas] returns those Polygons in order, named [stem_0],
    [stem_1], ... from the file name. *)
Theorem X21_get_geopandas_polygon_file `{!Geopandas P} (filepath : string)
    gdf :
  read_file filepath = Ok gdf →
  1 < length gdf →
  Forall (λ r, is_polygon (geometry r) = true) gdf →
  ∃ out,
    get_geopandas filepath = Ok out
    ∧ geometry <$> out = geometry <$> gdf
    ∧ name <$> out
      = imap (λ x _, _get_filepathname filepath ++ "_" ++ pretty x) gdf.
Proof.
  intros Hread Hmany Hpoly. unfold get_geopandas. rewrite Hread. simpl.
  destruct (_rename_geopandas_rows gdf filepath) as [Hgeo Hnames].
  rewrite bool_decide_eq_true_2 in Hnames by done.
  set (renamed := _rename_geopandas gdf filepath) in *.
  assert (Forall (λ r, is_polygon (geometry r) = true) renamed) as Hall.
  { apply (Forall_fmap geometry (λ g, is_polygon g = true)).
    rewrite Hgeo. by apply Forall_fmap. }
  assert (filter (λ x, is_polygon (geometry x) = true) renamed = renamed)
    as Hkeep.
  { clear -Hall. induction Hall as [|r l Hr _ IH]; [done|].
    rewrite filter_cons_True by done. by rewrite IH. }
  assert (filter (λ x, is_multipolygon (geometry x) = true) renamed = [])
    as Hnone.
  { clear -Hall. induction Hall as [|r l Hr _ IH]; [done|].
    rewrite filter_cons_False; [done|]. by destruct (geometry r). }
  exists renamed. rewrite preprocess_multipoly_unfold. simpl.
  rewrite Hnone, Hkeep.
  destruct renamed as [|r0 renamed'] eqn:Hren; [|done].
  apply (f_equal length) in Hgeo. rewrite !length_fmap in Hgeo.
  simpl in Hgeo. lia.
Qed.
End naming_rows.

(** ** img_processing.py : clips with a polygon name *)

Section masks_more.
Context `{Rasterio} `{!Parsers}.
Implicit Types (w : fs) (self : ImageProcessing).

Lemma clip_and_write_nothing (filepath category file : string) w :
  ∃ e, clip_and_write [] filepath category file w = (Raise e, w).
Proof.
  unfold clip_and_write, rio_open, mbind, io_bind, lift. simpl.
  destruct (rasters w !! filepath) as [src|]; [|by eexists].
  destruct (rio_mask src []); by eexists.
Qed.

(** X22.  When no row is selected, because the instance has no polygon or
    because no polygon carries the name asked for, each of [mask_ndvi],
    [mask_ndre] and [mask_tci] raises and writes nothing. *)
Theorem X22_mask_without_a_row_writes_nothing self (img_path : string)
    (date : Z) (poly_name : option string) w :
  gdf self = []
  ∨ (∃ n, poly_name = Some n ∧ filter (λ r, Poly.name r = n) (gdf self) = []) →
  (∃ e, mask_ndvi self img_path date poly_name w = (Raise e, w))
  ∧ (∃ e, mask_ndre self img_path date poly_name w = (Raise e, w))
  ∧ (∃ e, mask_tci self img_path date poly_name w = (Raise e, w)).
Proof.
  intros Hnone.
  assert (select_rows self poly_name = Raise IndexError
          ∨ select_rows self poly_name = Ok []) as [Hsel|Hsel].
  { unfold select_rows. destruct Hnone as [->|(n & -> & Hfilter)]; [by left|].
    destruct (gdf self) as [|first rest] eqn:Hgdf; [by left|]. simpl.
    right. by rewrite Hfilter. }
  - unfold mask_ndvi, mask_ndre, mask_tci, mbind, io_bind, lift.
    rewrite Hsel. repeat split; by eexists.
  - unfold mask_ndvi, mask_ndre, mask_tci.
    unfold mbind at 1 2 3, io_bind at 1 2 3, lift. rewrite Hsel.
    split; [apply clip_and_write_nothing|].
    split; [apply clip_and_write_nothing|].
    unfold mbind, io_bind.
    destruct (jp2_bands _ w) as [[bands|e] w1] eqn:Hb;
      apply jp2_bands_reads in Hb as ->; [|by eexists].
    destruct (dict_get bands "TCI"); [|by eexists].
    apply clip_and_write_nothing.
Qed.

(** X23.  When the first polygon of the instance is the only one with its
    name, asking for that name is the same as asking for no name, for each
    of the three clips. *)
Theorem X23_mask_named_first_is_the_default (first : Poly.t)
    (rest : list Poly.t) (db img_path : string) (date : Z) w :
  Poly.name first ∉ Poly.name <$> rest →
  let self := Self (first :: rest) db in
  mask_ndvi self img_path date (Some (Poly.name first)) w
  = mask_ndvi self img_path date None w
  ∧ mask_ndre self img_path date (Some (Poly.name first)) w
    = mask_ndre self img_path date None w
  ∧ mask_tci self img_path date (Some (Poly.name first)) w
    = mask_tci self img_path date None w.
Proof.
  intros Hunique self.
  assert (select_rows self (Some (Poly.name first)) = select_rows self None)
    as Hsel.
  { unfold select_rows, self. simpl. f_equal.
    rewrite filter_cons_True by done. f_equal.
    clear -Hunique. induction rest as [|r rest IH]; [done|].
    rewrite fmap_cons, not_elem_of_cons in Hunique.
    destruct Hunique as [Hne Hrest].
    rewrite filter_cons_False by done. by apply IH. }
  unfold mask_ndvi, mask_ndre, mask_tci. by rewrite Hsel.
Qed.
End masks_more.

(** ** Evaluations of the further properties *)

Section more_evaluations.
#[local] Existing Instance box_shapely.

Lemma X1_preprocess_multipoly_returns_polygons_witness :
  preprocess_multipoly mixed_frame
  = Ok [GdfRow "a_0" (Polygon 1) []; GdfRow "a_1" (Polygon 2) [];
        GdfRow "b" (Polygon 3) []; GdfRow "c" (Polygon 4) [("Name", "c")]]
  ∧ Forall (λ r, is_polygon (geometry r) = true)
      [GdfRow "a_0" (Polygon 1) []; GdfRow "a_1" (Polygon 2) [];
       GdfRow "b" (Polygon 3) []; GdfRow "c" (Polygon 4) [("Name", "c")]].
Proof.
  split; [reflexivity|].
  apply (X1_preprocess_multipoly_returns_polygons mixed_frame). reflexivity.
Defined.

Lemma X3_preprocess_multipoly_expands_every_part_witness :
  ∃ out,
    preprocess_multipoly mixed_frame = Ok out
    ∧ geometry <$> out = [Polygon 1; Polygon 2; Polygon 3; Polygon 4].
Proof.
  apply (X3_preprocess_multipoly_expands_every_part mixed_frame).
  - vm_compute. lia.
  - repeat constructor; discriminate.
Defined.

Lemma X4_preprocess_multipoly_empty_multipolygon_witness :
  preprocess_multipoly hollow_frame = Raise IndexError.
Proof.
  apply (X4_preprocess_multipoly_empty_multipolygon hollow_frame
           (GdfRow "a" (MultiPolygon []) [])).
  - right. left.
  - reflexivity.
Defined.

Lemma X5_preprocess_multipoly_keeps_polygon_rows_witness :
  ∃ processed,
    [GdfRow "a_0" (Polygon 1) []; GdfRow "a_1" (Polygon 2) [];
     GdfRow "b" (Polygon 3) []; GdfRow "c" (Polygon 4) [("Name", "c")]]
    = (processed
       ++ filter (λ x, is_polygon (geometry x) = true) mixed_frame)%list
    ∧ Forall (λ r, ∃ row q, row ∈ mixed_frame
                            ∧ is_multipolygon (geometry row) = true
                            ∧ q ∈ parts row
                            ∧ geometry r = Polygon q) processed
    ∧ (Forall (λ x, is_multipolygon (geometry x) = false) mixed_frame →
       processed = []).
Proof.
  apply (X5_preprocess_multipoly_keeps_polygon_rows mixed_frame). reflexivity.
Defined.

Lemma X6_transform_row_names_witness :
  ∃ out,
    _transform_row (GdfRow "a" (MultiPolygon [1; 2]) []) = Ok out
    ∧ name <$> out = ["a_0"; "a_1"]
    ∧ NoDup (name <$> out).
Proof.
  apply (X6_transform_row_names (GdfRow "a" (MultiPolygon [1; 2]) []) [1; 2]).
  - reflexivity.
  - discriminate.
Defined.

Lemma X7_download_folders_returns_the_downloaded_witness :
  ∃ w',
    @download_folders box_shapely (fixed_archive box_shapely [])
      (PyShape field) (PyBool false) (PyFrame [tile_product; other_product])
      (PyStr "db") (PyFloat (Q2Qc (9 # 10))) empty_world
    = (Ok [tile_product; other_product], w')
    ∧ downloads w' = ["uuid-1"; "uuid-2"].
Proof.
  destruct (@X7_download_folders_returns_the_downloaded box_shapely
              (fixed_archive box_shapely []) field false
              [tile_product; other_product] "db" (Q2Qc (9 # 10)) empty_world ∅)
    as (w' & Hrun & Hlog).
  - reflexivity.
  - repeat constructor; vm_compute; discriminate.
  - apply (bool_decide_unpack _). vm_compute. exact I.
  - exists w'. split; [exact Hrun|exact Hlog].
Defined.

Lemma X8_download_folders_zero_area_witness :
  ∃ w',
    @download_folders box_shapely (fixed_archive box_shapely [])
      (PyShape field) (PyBool true)
      (PyFrame [tile_product; flat_product; other_product])
      (PyStr "db") (PyFloat (Q2Qc (1 # 100))) empty_world
    = (Raise ZeroDivisionError, w')
    ∧ downloads w' = ["uuid-1"].
Proof.
  destruct (@X8_download_folders_zero_area box_shapely
              (fixed_archive box_shapely []) field true
              [tile_product] [other_product] flat_product "db"
              (Q2Qc (1 # 100)) empty_world ∅)
    as (w' & Hrun & Hlog).
  - reflexivity.
  - repeat constructor; vm_compute; discriminate.
  - reflexivity.
  - exists w'. split; [exact Hrun|exact Hlog].
Defined.

Lemma X9_download_folders_no_directory_witness :
  @download_folders box_shapely (fixed_archive box_shapely [])
    (PyShape field) (PyBool false) (PyFrame [tile_product]) (PyStr "db")
    (PyFloat (Q2Qc (9 # 10))) ledger_world
  = (Raise FileNotFoundError, ledger_world).
Proof.
  apply (@X9_download_folders_no_directory box_shapely
           (fixed_archive box_shapely []) field false [tile_product] "db"
           (Q2Qc (9 # 10)) ledger_world).
  - reflexivity.
  - repeat constructor; vm_compute; discriminate.
Defined.

Lemma X11_get_folders_final_date_bounds_witness :
  ∃ folders date,
    @get_folders box_shapely day_parsers field_instance "ledger.csv" None
      (Some "5") (Q2Qc (97 # 100)) ledger_fs
    = (Ok (folders, date), ledger_fs)
    ∧ ∀ n ds d, date !! n = Some ds → d ∈ ds → (d < 432000 + one_day)%Z.
Proof.
  apply (@X11_get_folders_final_date_bounds box_shapely day_parsers
           field_instance "ledger.csv" "5" (Q2Qc (97 # 100)) ledger_fs
           [tile_row] [(tile_row, 432000%Z)] 432000%Z).
  - reflexivity.
  - reflexivity.
  - reflexivity.
  - repeat constructor.
  - repeat constructor. vm_compute. discriminate.
Defined.

Lemma X12_get_folders_lists_covered_rows_witness :
  ∃ folders date,
    @get_folders box_shapely day_parsers field_instance "ledger.csv" None None
      (Q2Qc (97 # 100)) ledger_fs
    = (Ok (folders, date), ledger_fs)
    ∧ folders !! "field" = Some ["S2A_T1.SAFE"]
    ∧ date !! "field" = Some [432000%Z].
Proof.
  apply (@X12_get_folders_lists_covered_rows box_shapely day_parsers
           field_instance "ledger.csv" None (Q2Qc (97 # 100)) ledger_fs
           [tile_row] [(tile_row, 432000%Z)] [(tile_row, 432000%Z)]
           [] [] (Poly.mk "field" field)).
  - reflexivity.
  - reflexivity.
  - reflexivity.
  - repeat constructor.
  - repeat constructor. vm_compute. discriminate.
  - reflexivity.
  - apply not_elem_of_nil.
Defined.

Lemma X13_get_folders_zero_area_polygon_witness :
  @get_folders box_shapely day_parsers flat_instance "ledger.csv" None None
    (Q2Qc (97 # 100)) ledger_fs
  = (Raise ZeroDivisionError, ledger_fs).
Proof.
  apply (@X13_get_folders_zero_area_polygon box_shapely day_parsers
           flat_instance "ledger.csv" None (Q2Qc (97 # 100)) ledger_fs
           [tile_row] [(tile_row, 432000%Z)] [(tile_row, 432000%Z)]
           (Poly.mk "line" line)).
  - reflexivity.
  - reflexivity.
  - reflexivity.
  - discriminate.
  - repeat constructor.
  - left.
  - reflexivity.
Defined.

Lemma X14_get_folders_empty_ledger_witness :
  ∃ folders date,
    @get_folders box_shapely day_parsers flat_instance "ledger.csv" None None
      (Q2Qc (97 # 100)) (Fs ∅ ∅ {[ "ledger.csv" := [] ]})
    = (Ok (folders, date), Fs ∅ ∅ {[ "ledger.csv" := [] ]})
    ∧ folders !! "line" = Some []
    ∧ date !! "line" = Some [].
Proof.
  apply (@X14_get_folders_empty_ledger box_shapely day_parsers flat_instance
           "ledger.csv" (Q2Qc (97 # 100)) (Fs ∅ ∅ {[ "ledger.csv" := [] ]})
           (Poly.mk "line" line)).
  - reflexivity.
  - left.
Defined.

Lemma X15_generate_ndvi_writes_the_index_witness :
  ∃ w',
    generate_ndvi "S2/IMG_DATA" dim_pixel_fs = (Ok (), w')
    ∧ Raster.data <$> rasters w' !! "S2/IMG_DATA/R10m/NDVI.tiff"
      = Some (FloatArr [1; 1; 1]
                [Fin ((Z2Qc 6000 - Z2Qc 2000) / (Z2Qc 6000 + Z2Qc 2000))%Qc]).
Proof.
  destruct (X15_generate_ndvi_writes_the_index "S2/IMG_DATA" dim_pixel_fs
              ["T23KKQ_20200105_B04_10m.jp2"; "T23KKQ_20200105_B08_10m.jp2"]
              (<["B08" := "T23KKQ_20200105_B08_10m.jp2"]>
                 (<["B04" := "T23KKQ_20200105_B04_10m.jp2"]> ∅))
              "T23KKQ_20200105_B04_10m.jp2" "T23KKQ_20200105_B08_10m.jp2"
              "EPSG:32723" "EPSG:32723" [] [] 16 [1; 1; 1] [2000%Z] [6000%Z])
    as [Hrun Hpix].
  - reflexivity.
  - apply (bool_decide_unpack _). vm_compute. exact I.
  - vm_compute. reflexivity.
  - reflexivity.
  - reflexivity.
  - reflexivity.
  - reflexivity.
  - rewrite Hpix in Hrun by (repeat constructor; lia).
    eexists. split; [exact Hrun|]. vm_compute. reflexivity.
Defined.

Lemma X16_generate_twice_is_generate_once_witness :
  ∃ w1 w2,
    generate_ndvi "S2/IMG_DATA" dim_pixel_fs = (Ok (), w1)
    ∧ rasters dim_pixel_fs !! "S2/IMG_DATA/R10m/NDVI.tiff" = None
    ∧ is_Some (rasters w1 !! "S2/IMG_DATA/R10m/NDVI.tiff")
    ∧ generate_ndvi "S2/IMG_DATA" w1 = (Ok (), w1)
    ∧ @generate_ndre box_shapely (first_pixels_rasterio box_shapely)
        "S2/IMG_DATA" red_edge_fs = (Ok (), w2)
    ∧ rasters red_edge_fs !! "S2/IMG_DATA/R10m/NDRE.tiff" = None
    ∧ is_Some (rasters w2 !! "S2/IMG_DATA/R10m/NDRE.tiff")
    ∧ @generate_ndre box_shapely (first_pixels_rasterio box_shapely)
        "S2/IMG_DATA" w2 = (Ok (), w2).
Proof.
  destruct (@X16_generate_twice_is_generate_once box_shapely
              (first_pixels_rasterio box_shapely) "S2/IMG_DATA" dim_pixel_fs
              (generate_ndvi "S2/IMG_DATA" dim_pixel_fs).2) as [Hndvi _].
  destruct (@X16_generate_twice_is_generate_once box_shapely
              (first_pixels_rasterio box_shapely) "S2/IMG_DATA" red_edge_fs
              (@generate_ndre box_shapely (first_pixels_rasterio box_shapely)
                 "S2/IMG_DATA" red_edge_fs).2) as [_ Hndre].
  exists (generate_ndvi "S2/IMG_DATA" dim_pixel_fs).2,
         (@generate_ndre box_shapely (first_pixels_rasterio box_shapely)
            "S2/IMG_DATA" red_edge_fs).2.
  split; [vm_compute; reflexivity|].
  split; [vm_compute; reflexivity|].
  split; [eexists; vm_compute; reflexivity|].
  split; [apply Hndvi; vm_compute; reflexivity|].
  split; [vm_compute; reflexivity|].
  split; [vm_compute; reflexivity|].
  split; [eexists; vm_compute; reflexivity|].
  apply Hndre. vm_compute. reflexivity.
Defined.

Lemma X17_get_filename_splits_at_last_dot_witness :
  _get_filename "north.field.kml" = ("north.field", "kml").
Proof.
  apply (X17_get_filename_splits_at_last_dot "north.field" "kml").
  repeat constructor; discriminate.
Defined.

Lemma X18_get_filename_without_dot_witness :
  _get_filename "kml" = ("km", "kml").
Proof.
  apply (X18_get_filename_without_dot "kml").
  repeat constructor; discriminate.
Defined.

Lemma X19_get_filepathname_is_the_stem_witness :
  _get_filepathname "data/fields/farm.kml" = "farm".
Proof.
  apply (X19_get_filepathname_is_the_stem "data/fields" "farm" "kml").
  - discriminate.
  - repeat constructor; discriminate.
  - repeat constructor; discriminate.
Defined.

Lemma X20_rename_geopandas_names_rows_witness :
  name <$> _rename_geopandas two_fields "data/farm.kml" = ["farm_0"; "farm_1"]
  ∧ NoDup (name <$> _rename_geopandas two_fields "data/farm.kml").
Proof.
  destruct (X20_rename_geopandas_names_rows two_fields "data/farm.kml")
    as (_ & Hnames & Hdistinct).
  split; [exact Hnames|]. apply Hdistinct. simpl. lia.
Defined.

Lemma X21_get_geopandas_polygon_file_witness :
  ∃ out,
    @get_geopandas nat (one_file nat "data/farm.kml" two_fields) "data/farm.kml"
    = Ok out
    ∧ geometry <$> out = [Polygon 1; Polygon 2]
    ∧ name <$> out = ["farm_0"; "farm_1"].
Proof.
  apply (@X21_get_geopandas_polygon_file nat
           (one_file nat "data/farm.kml" two_fields) "data/farm.kml" two_fields).
  - reflexivity.
  - simpl. lia.
  - repeat constructor.
Defined.

Lemma X22_mask_without_a_row_writes_nothing_witness :
  (∃ e, @mask_ndvi box_shapely (identity_rasterio box_shapely) day_parsers
          field_instance "S2/IMG_DATA" 432000 (Some "meadow") processed_fs
        = (Raise e, processed_fs))
  ∧ (∃ e, @mask_ndre box_shapely (identity_rasterio box_shapely) day_parsers
            field_instance "S2/IMG_DATA" 432000 (Some "meadow") processed_fs
          = (Raise e, processed_fs))
  ∧ (∃ e, @mask_tci box_shapely (identity_rasterio box_shapely) day_parsers
            field_instance "S2/IMG_DATA" 432000 (Some "meadow") processed_fs
          = (Raise e, processed_fs)).
Proof.
  apply (@X22_mask_without_a_row_writes_nothing box_shapely
           (identity_rasterio box_shapely) day_parsers field_instance
           "S2/IMG_DATA" 432000%Z (Some "meadow") processed_fs).
  right. exists "meadow". split; reflexivity.
Defined.

Lemma X23_mask_named_first_is_the_default_witness :
  ∃ w',
    @mask_ndvi box_shapely (identity_rasterio box_shapely) day_parsers
      farm_instance "S2/IMG_DATA" 432000 (Some "field") clipping_fs
    = (Ok (), w')
    ∧ @mask_ndvi box_shapely (identity_rasterio box_shapely) day_parsers
        farm_instance "S2/IMG_DATA" 432000 None clipping_fs
      = (Ok (), w')
    ∧ is_Some (rasters w' !! "field/NDVI/5_ndvi.tiff")
    ∧ rasters clipping_fs !! "field/NDVI/5_ndvi.tiff" = None.
Proof.
  destruct (@X23_mask_named_first_is_the_default box_shapely
              (identity_rasterio box_shapely) day_parsers
              (Poly.mk "field" field) [Poly.mk "meadow" meadow]
              "Sentinel_Data" "S2/IMG_DATA" 432000%Z clipping_fs)
    as (Hndvi & _ & _).
  - intros Hin. apply elem_of_cons in Hin as [Heq|Hin]; [discriminate|].
    by apply elem_of_nil in Hin.
  - exists (@mask_ndvi box_shapely (identity_rasterio box_shapely) day_parsers
              farm_instance "S2/IMG_DATA" 432000 None clipping_fs).2.
    split; [|split; [|split]].
    + etransitivity; [exact Hndvi|]. vm_compute. reflexivity.
    + vm_compute. reflexivity.
    + eexists. vm_compute. reflexivity.
    + vm_compute. reflexivity.
Defined.
End more_evaluations.

(** ** img_processing.py : the directories of an instance *)





















Lemma make_categories_existing `{Shapely} (g : Poly.t) w :
  path_exists (Poly.name g) w = true → make_categories g w = (Ok (), w).
Proof. intros Hex. unfold make_categories. by rewrite Hex. Qed.


Section directories_more.
Context `{Rasterio} `{!Parsers}.
Implicit Types (w : fs) (self : ImageProcessing).





(** X24.  When every polygon name of the instance exists already, as a
    directory or as a file, [__int_directories] returns without touching
    the file system: no category directory is added under an existing
    name. *)
Theorem X24_int_directories_skips_existing_names self w :
  (∀ g, g ∈ gdf self → path_exists (Poly.name g) w = true) →
  __int_directories self w = (Ok (), w).
Proof.
  unfold __int_directories. generalize (gdf self). clear self.
  intros rows. induction rows as [|g rows IH]; intros Hall; [done|].
  change (for_each (λ r (_ : unit), make_categories r) (g :: rows) () w)
    with (match make_categories g w with
          | (Ok acc, w1) =>
              for_each (λ r (_ : unit), make_categories r) rows acc w1
          | (Raise e, w1) => (Raise e, w1)
          end).
  rewrite make_categories_existing by (apply Hall; by left).
  apply IH. intros g' Hg'. apply Hall. by right.
Qed.



End directories_more.

(** ** Evaluations of the properties of the directories *)

Section directories_evaluations.
#[local] Existing Instance box_shapely.

Lemma X24_int_directories_skips_existing_names_witness :
  @__int_directories box_shapely field_instance taken_fs = (Ok (), taken_fs).
Proof.
  apply (@X24_int_directories_skips_existing_names box_shapely
           field_instance taken_fs).
  intros g Hg. apply elem_of_cons in Hg as [->|Hg].
  - vm_compute. reflexivity.
  - by apply elem_of_nil in Hg.
Defined.

(** A polygon named after the current directory: the name exists, and no
    directory is made. *)
Lemma current_directory_is_skipped :
  @__int_directories box_shapely
    (@Self box_shapely [@Poly.mk box_shapely "." field] "Sentinel_Data")
    (Fs ∅ ∅ ∅)
  = (Ok (), Fs ∅ ∅ ∅).
Proof. vm_compute. reflexivity. Qed.





End directories_evaluations.

(** ** preprocess_file.py : the conversion of the files of a directory *)

Lemma slice_from_ext (stem ext : string) :
  Forall (λ a, a ≠ "."%char) (list_ascii_of_string ext) →
  slice_from (stem ++ "." ++ ext) (rfind "." (stem ++ "." ++ ext) + 1) = ext.
Proof.
  intros Hext. change (stem ++ "." ++ ext) with (stem ++ String "." ext).
  rewrite rfind_last by done.
  assert (String.length (stem ++ String "." ext)
          = String.length stem + S (String.length ext)) as Hlen
    by apply length_append.
  unfold slice_from, slice_bound. rewrite Hlen.
  replace (Z.to_nat _) with (String.length (stem ++ "."))
    by (rewrite length_append; simpl; destruct (_ <? 0)%Z eqn:?; lia).
  replace (String.length stem + S (String.length ext)
           - String.length (stem ++ "."))
    with (String.length ext) by (rewrite length_append; simpl; lia).
  replace (stem ++ String "." ext) with ((stem ++ ".") ++ ext).
  - apply substring_suffix.
  - clear. induction stem as [|a stem IH]; [done|].
    rewrite !append_cons. by rewrite IH.
Qed.

(** In a map filled by a run of writes, a key holds what the last write to
    it left. *)
Lemma last_writer {F V} (key : F → string) (val : F → V) (l : list F)
    (m : gmap string V) (p : string) :
  foldl (λ m f, <[key f := val f]> m) m l !! p
  = match last (filter (λ f, key f = p) l) with
    | Some f => Some (val f)
    | None => m !! p
    end.
Proof.
  induction l as [|x l IH] using rev_ind; [done|].
  rewrite foldl_app, filter_app. simpl.
  destruct (decide (key x = p)) as [Hx|Hx].
  - rewrite filter_cons_True, filter_nil by done.
    rewrite last_snoc, Hx. by rewrite lookup_insert_eq.
  - rewrite filter_cons_False, filter_nil, app_nil_r by done.
    by rewrite lookup_insert_ne.
Qed.

Lemma add_name_elem (names : list string) (n x : string) :
  x ∈ add_name names n ↔ x ∈ names ∨ x = n.
Proof.
  unfold add_name. case_bool_decide as Hn.
  - split; [by left|]. by intros [?| ->].
  - rewrite elem_of_app, elem_of_cons. split.
    + intros [?|[?|[]%elem_of_nil]]; [by left|by right].
    + intros [?|?]; [by left|right; by left].
Qed.

Lemma foldl_add_name_elem (outs names : list string) (x : string) :
  x ∈ foldl add_name names outs ↔ x ∈ names ∨ x ∈ outs.
Proof.
  revert names. induction outs as [|n outs IH]; intros names; simpl.
  - split; [by left|]. by intros [?|[]%elem_of_nil].
  - rewrite IH, add_name_elem, elem_of_cons. tauto.
Qed.

Lemma foldl_add_name_id (outs names : list string) :
  (∀ n, n ∈ outs → n ∈ names) → foldl add_name names outs = names.
Proof.
  induction outs as [|n outs IH]; intros Hall; simpl; [done|].
  assert (add_name names n = names) as ->.
  { unfold add_name. rewrite bool_decide_eq_true_2; [done|].
    apply Hall. by left. }
  apply IH. intros x Hx. apply Hall. by right.
Qed.

Section process_files_facts.
Context {P : Type} `{Geopandas P} `{!Fiona P}.
Implicit Types (w : vfs P) (names : list string).

Lemma with_extension_ext (e : string) names (f : string) :
  f ∈ with_extension e names → (_get_filename f).2 = e.
Proof. by intros [-> _]%list_elem_of_filter. Qed.

Lemma output_name_extension (f : string) :
  slice_from (output_name f) (rfind "." (output_name f) + 1) = "geojson".
Proof.
  unfold output_name.
  apply (slice_from_ext (_get_filename f).1 "geojson").
  repeat (apply Forall_cons; split; [discriminate|]). by apply Forall_nil.
Qed.

Lemma with_extension_after (e : string) (fs : list string) names :
  e ≠ "geojson" →
  with_extension e (foldl add_name names (output_name <$> fs))
  = with_extension e names.
Proof.
  intros He. revert names. induction fs as [|f fs IH]; intros names; [done|].
  simpl. rewrite IH. unfold add_name. case_bool_decide; [done|].
  unfold with_extension. rewrite filter_app, filter_cons_False, filter_nil.
  - by rewrite app_nil_r.
  - by rewrite output_name_extension.
Qed.

Lemma conversion_order_after (fs : list string) names :
  conversion_order (foldl add_name names (output_name <$> fs))
  = conversion_order names.
Proof. unfold conversion_order. by rewrite !with_extension_after. Qed.

Lemma conversion_order_ext names (f : string) :
  f ∈ conversion_order names →
  (_get_filename f).2 = "kml" ∨ (_get_filename f).2 = "shp".
Proof.
  intros [Hf|Hf]%elem_of_app; apply with_extension_ext in Hf; auto.
Qed.

Lemma process_file_run (path f : string) (gdf : option (list (gdf_row P)))
    w names :
  (_get_filename f).2 = "kml" ∨ (_get_filename f).2 = "shp" →
  vlisting w !! path = Some names →
  process_file path f gdf w
  = match convert path f with
    | Ok g =>
        (Ok (Some g),
         Vfs (<[path := add_name names (output_name f)]> (vlisting w))
             (vfiles w)
             (<[output_path path f := g]> (geojson w)))
    | Raise e => (Raise e, w)
    end.
Proof.
  intros Hext Hl.
  unfold process_file, convert, write_geojson, output_name, output_path.
  assert (∀ r : result (list (gdf_row P)),
            (g ← lift r; lift (load_local (Some g))
             ≫= λ g, lift (preprocess_multipoly g)
             ≫= λ g, ((_ ← lift (match g with
                                 | [] => to_file_empty
                                 | _ :: _ => Ok ()
                                 end);
                       ((λ w,
                          match vlisting w !! path with
                          | Some names =>
                              (Ok (),
                               Vfs (<[path := add_name names
                                                ((_get_filename f).1
                                                 ++ ".geojson")]>
                                      (vlisting w))
                                   (vfiles w)
                                   (<[path_join path (_get_filename f).1
                                      ++ ".geojson" := g]> (geojson w)))
                          | None => (Raise ValueError, w)
                          end) : IO (vfs P) unit))
                      ≫= λ _, mret (Some g))) w
            = match (gdf ← r; g ← preprocess_multipoly gdf;
                     _ ← match g with
                         | [] => to_file_empty
                         | _ :: _ => Ok ()
                         end;
                     Ok g) with
              | Ok g =>
                  (Ok (Some g),
                   Vfs (<[path := add_name names
                                    ((_get_filename f).1 ++ ".geojson")]>
                          (vlisting w))
                       (vfiles w)
                       (<[path_join path (_get_filename f).1 ++ ".geojson"
                          := g]> (geojson w)))
              | Raise e => (Raise e, w)
              end) as Hrun.
  { intros [g0|e]; [|done]. unfold mbind, io_bind, lift. simpl.
    destruct (preprocess_multipoly g0) as [g|e]; simpl; [|done].
    destruct g as [|r g]; simpl.
    - destruct to_file_empty as [[]|e]; simpl; [|done]. by rewrite Hl.
    - by rewrite Hl. }
  destruct Hext as [Hk|Hs].
  - rewrite !Hk.
    rewrite (bool_decide_eq_true_2 ("kml" = "kml")) by done.
    rewrite (bool_decide_eq_false_2 ("kml" = "shp")) by done.
    rewrite <-Hrun. unfold mbind, io_bind, lift, mret, io_ret.
    by destruct (read_from_kml _).
  - rewrite !Hs.
    rewrite (bool_decide_eq_false_2 ("shp" = "kml")) by done.
    rewrite (bool_decide_eq_true_2 ("shp" = "shp")) by done.
    rewrite <-Hrun. unfold mbind, io_bind, lift, mret, io_ret.
    by destruct (read_from_shapefile _).
Qed.

Lemma vfs_eta w : Vfs (vlisting w) (vfiles w) (geojson w) = w.
Proof. by destruct w. Qed.

Lemma for_each_cons {W A B} (body : A → B → IO W B) (x : A) (xs : list A)
    (acc : B) (w0 : W) :
  for_each body (x :: xs) acc w0
  = match body x acc w0 with
    | (Ok acc', w1) => for_each body xs acc' w1
    | (Raise e, w1) => (Raise e, w1)
    end.
Proof. done. Qed.

(** The inner loop of [_process_files] over files that all convert. *)
Lemma process_loop_ok (path : string) (val : string → list (gdf_row P))
    (fs : list string) (gdf : option (list (gdf_row P))) w names :
  Forall (λ f, ((_get_filename f).2 = "kml" ∨ (_get_filename f).2 = "shp")
               ∧ convert path f = Ok (val f)) fs →
  vlisting w !! path = Some names →
  ∃ gdf',
    for_each (process_file path) fs gdf w
    = (Ok gdf',
       Vfs (<[path := foldl add_name names (output_name <$> fs)]> (vlisting w))
           (vfiles w)
           (foldl (λ m f, <[output_path path f := val f]> m) (geojson w) fs)).
Proof.
  intros Hfs. revert gdf w names.
  induction Hfs as [|f fs [Hext Hconv] _ IH]; intros gdf w names Hl.
  - exists gdf. simpl. rewrite insert_id by done. by rewrite vfs_eta.
  - rewrite for_each_cons.
    rewrite (process_file_run path f gdf w names) by done. rewrite Hconv.
    edestruct IH as [gdf' ->]. { simpl. apply lookup_insert_eq. }
    exists gdf'. simpl. by rewrite insert_insert_eq.
Qed.

(** The inner loop up to the first file that does not convert. *)
Lemma process_loop_fail (path : string) (val : string → list (gdf_row P))
    (pre : list string) (f : string) (post : list string) (e : exn)
    (gdf : option (list (gdf_row P))) w names :
  Forall (λ f, ((_get_filename f).2 = "kml" ∨ (_get_filename f).2 = "shp")
               ∧ convert path f = Ok (val f)) pre →
  (_get_filename f).2 = "kml" ∨ (_get_filename f).2 = "shp" →
  convert path f = Raise e →
  vlisting w !! path = Some names →
  for_each (process_file path) (pre ++ f :: post) gdf w
  = (Raise e,
     Vfs (<[path := foldl add_name names (output_name <$> pre)]> (vlisting w))
         (vfiles w)
         (foldl (λ m f, <[output_path path f := val f]> m) (geojson w) pre)).
Proof.
  intros Hpre Hext Hconv Hl. rewrite for_each_app.
  destruct (process_loop_ok path val pre gdf w names Hpre Hl) as [gdf' ->].
  rewrite for_each_cons.
  rewrite (process_file_run path f gdf' _
             (foldl add_name names (output_name <$> pre))), Hconv.
  - done.
  - done.
  - simpl. apply lookup_insert_eq.
Qed.

(** One turn of the outer loop of [_process_files]. *)
Lemma pass_run (path e : string) (gdf : option (list (gdf_row P))) w names :
  path ≠ "" →
  vlisting w !! path = Some names →
  (names ← vlistdir path;
   for_each (process_file path)
            (filter (λ k, e = slice_from k (rfind "." k + 1)) names) gdf) w
  = for_each (process_file path) (with_extension e names) gdf w.
Proof.
  intros Hpath Hl. unfold mbind, io_bind, vlistdir.
  by rewrite bool_decide_eq_false_2, Hl.
Qed.

Lemma process_files_unfold (path : string) (list_files : list string) w :
  _process_files path list_files w
  = match (names ← vlistdir path;
           for_each (process_file path)
                    (filter (λ k, "kml" = slice_from k (rfind "." k + 1)) names)
                    None) w with
    | (Ok gdf, w1) =>
        match (names ← vlistdir path;
               for_each (process_file path)
                        (filter (λ k, "shp" = slice_from k (rfind "." k + 1))
                                names)
                        gdf) w1 with
        | (Ok _, w2) => (Ok (), w2)
        | (Raise e, w2) => (Raise e, w2)
        end
    | (Raise e, w1) => (Raise e, w1)
    end.
Proof.
  unfold _process_files. unfold mbind at 1, io_bind at 1.
  rewrite !for_each_cons.
  destruct ((names ← vlistdir path; _) w) as [[gdf|e] w1]; [|done].
  rewrite for_each_cons.
  destruct ((vlistdir path ≫= _) w1) as [[gdf2|e] w2]; done.
Qed.

Lemma conversions_known (path : string) (val : string → list (gdf_row P))
    (e : string) names (fs : list string) :
  e = "kml" ∨ e = "shp" →
  (∀ f, f ∈ fs → f ∈ with_extension e names) →
  Forall (λ f, convert path f = Ok (val f)) fs →
  Forall (λ f, ((_get_filename f).2 = "kml" ∨ (_get_filename f).2 = "shp")
               ∧ convert path f = Ok (val f)) fs.
Proof.
  intros He Hin Hconv. apply Forall_forall. intros f Hf. split.
  - apply Hin, with_extension_ext in Hf. rewrite Hf. done.
  - by eapply Forall_forall in Hconv.
Qed.

(** [_process_files] on a directory whose files all convert. *)
Lemma process_files_ok (path : string) (val : string → list (gdf_row P))
    (list_files : list string) w names :
  path ≠ "" →
  vlisting w !! path = Some names →
  Forall (λ f, convert path f = Ok (val f)) (conversion_order names) →
  _process_files path list_files w
  = (Ok (),
     Vfs (<[path := foldl add_name names
                          (output_name <$> conversion_order names)]>
            (vlisting w))
         (vfiles w)
         (foldl (λ m f, <[output_path path f := val f]> m) (geojson w)
                (conversion_order names))).
Proof.
  intros Hpath Hl [Hk Hs]%Forall_app.
  rewrite process_files_unfold, (pass_run path "kml" None w names) by done.
  destruct (process_loop_ok path val (with_extension "kml" names) None w names)
    as [gdf1 ->]; [|done|].
  { apply (conversions_known path val "kml" names); auto. }
  rewrite (pass_run path "shp" gdf1 _
             (foldl add_name names
                    (output_name <$> with_extension "kml" names)))
    by (done || (simpl; apply lookup_insert_eq)).
  rewrite with_extension_after by done.
  destruct (process_loop_ok path val (with_extension "shp" names) gdf1
              (Vfs (<[path := foldl add_name names
                                (output_name <$> with_extension "kml" names)]>
                      (vlisting w))
                   (vfiles w)
                   (foldl (λ m f, <[output_path path f := val f]> m)
                          (geojson w) (with_extension "kml" names)))
              (foldl add_name names
                     (output_name <$> with_extension "kml" names)))
    as [gdf2 ->].
  { apply (conversions_known path val "shp" names); auto. }
  { simpl. apply lookup_insert_eq. }
  simpl. unfold conversion_order.
  by rewrite insert_insert_eq, fmap_app, !foldl_app.
Qed.

(** [_process_files] up to the first file that does not convert. *)
Lemma process_files_fail (path : string) (val : string → list (gdf_row P))
    (list_files : list string) (pre : list string) (f : string)
    (post : list string) (e : exn) w names :
  path ≠ "" →
  vlisting w !! path = Some names →
  conversion_order names = (pre ++ f :: post)%list →
  Forall (λ f, convert path f = Ok (val f)) pre →
  convert path f = Raise e →
  _process_files path list_files w
  = (Raise e,
     Vfs (<[path := foldl add_name names (output_name <$> pre)]> (vlisting w))
         (vfiles w)
         (foldl (λ m f, <[output_path path f := val f]> m) (geojson w) pre)).
Proof.
  intros Hpath Hl Horder Hpre Hconv.
  assert ((∃ k, with_extension "kml" names = (pre ++ f :: k)%list)
          ∨ (∃ k, pre = (with_extension "kml" names ++ k)%list
                  ∧ with_extension "shp" names = (k ++ f :: post)%list))
    as [[k HK]|(k & Hpre_eq & HS)].
  { unfold conversion_order in Horder.
    apply app_eq_inv in Horder as [(k & HK & Hrest)|(k & Hp & HS)].
    - destruct k as [|f' k].
      + right. exists []. rewrite app_nil_r in HK. simpl in Hrest.
        by rewrite app_nil_r.
      + simpl in Hrest. injection Hrest as -> ->. left. by exists k.
    - right. by exists k. }
  - rewrite process_files_unfold, (pass_run path "kml" None w names) by done.
    rewrite HK.
    assert (∀ x, x ∈ (pre ++ f :: k)%list → x ∈ with_extension "kml" names)
      as Hin by (intros x; by rewrite HK).
    rewrite (process_loop_fail path val pre f k e None w names); [done| | |done..].
    + apply (conversions_known path val "kml" names); auto.
      intros x Hx. apply Hin, elem_of_app. by left.
    + left. apply (with_extension_ext "kml" names), Hin, elem_of_app.
      right. by left.
  - subst pre. apply Forall_app in Hpre as [Hk Hpre].
    rewrite process_files_unfold, (pass_run path "kml" None w names) by done.
    destruct (process_loop_ok path val (with_extension "kml" names) None w
                names) as [gdf1 ->]; [|done|].
    { apply (conversions_known path val "kml" names); auto. }
    rewrite (pass_run path "shp" gdf1 _
               (foldl add_name names
                      (output_name <$> with_extension "kml" names)))
      by (done || (simpl; apply lookup_insert_eq)).
    rewrite with_extension_after by done. rewrite HS.
    assert (∀ x, x ∈ (k ++ f :: post)%list → x ∈ with_extension "shp" names)
      as Hin by (intros x; by rewrite HS).
    rewrite (process_loop_fail path val k f post e gdf1 _
               (foldl add_name names
                      (output_name <$> with_extension "kml" names))).
    + simpl. by rewrite insert_insert_eq, fmap_app, !foldl_app.
    + apply (conversions_known path val "shp" names); auto.
      intros x Hx. apply Hin, elem_of_app. by left.
    + right. apply (with_extension_ext "shp" names), Hin, elem_of_app.
      right. by left.
    + done.
    + simpl. apply lookup_insert_eq.
Qed.

(** The frame a file converts to, chosen for the files that convert. *)
Lemma conversions_exist (path : string) (fs : list string) :
  Forall (λ f, ∃ g, convert path f = Ok g) fs →
  ∃ val : string → list (gdf_row P),
    Forall (λ f, convert path f = Ok (val f)) fs.
Proof.
  intros Hfs.
  exists (λ f, match convert path f with Ok g => g | Raise _ => [] end).
  eapply Forall_impl; [exact Hfs|]. intros f [g Hg]. by rewrite Hg.
Qed.

(** X28.  On a directory whose KML files and shapefiles all convert,
    [_process_files] returns normally; it goes through the KML files and
    then through the shapefiles, each in the order of the listing, and a
    GeoJSON path ends up with the conversion of the last file written
    there, so that the shapefile of a stem replaces what the KML file of
    that stem gave.  Every output is listed in the directory; the GeoJSON
    paths of no file, the other directories and the plain files are as
    before. *)
Theorem X28_process_files_last_writer (path : string)
    (list_files names : list string) w :
  path ≠ "" →
  vlisting w !! path = Some names →
  Forall (λ f, ∃ g, convert path f = Ok g) (conversion_order names) →
  ∃ w',
    _process_files path list_files w = (Ok (), w')
    ∧ (∀ p f g,
         last (filter (λ f, output_path path f = p) (conversion_order names))
         = Some f →
         convert path f = Ok g → geojson w' !! p = Some g)
    ∧ (∀ p, filter (λ f, output_path path f = p) (conversion_order names) = [] →
            geojson w' !! p = geojson w !! p)
    ∧ (∃ listed, vlisting w' !! path = Some listed
                 ∧ ∀ f, f ∈ conversion_order names → output_name f ∈ listed)
    ∧ (∀ d, d ≠ path → vlisting w' !! d = vlisting w !! d)
    ∧ vfiles w' = vfiles w.
Proof.
  intros Hpath Hl Hall. destruct (conversions_exist path _ Hall) as [val Hval].
  eexists. split; [by apply (process_files_ok path val)|]. simpl.
  split; [|split; [|split; [|split]]].
  - intros p f g Hlast Hg. rewrite last_writer, Hlast.
    assert (f ∈ conversion_order names) as Hf.
    { apply last_Some in Hlast as [l' Hl'].
      assert (f ∈ filter (λ f, output_path path f = p) (conversion_order names))
        as Hin by (rewrite Hl'; apply elem_of_app; right; by left).
      by apply list_elem_of_filter in Hin as [_ ?]. }
    eapply Forall_forall in Hval; [|exact Hf]. congruence.
  - intros p Hnone. by rewrite last_writer, Hnone.
  - eexists. split; [apply lookup_insert_eq|].
    intros f Hf. apply foldl_add_name_elem. right.
    apply list_elem_of_fmap. by exists f.
  - intros d Hd. by rewrite lookup_insert_ne.
  - done.
Qed.

(** X29.  [_process_files] stops at the first file, in the order of X28,
    that does not convert, with the exception of that file: the files
    before it have their GeoJSON files, no file after it is converted - a
    KML file that fails leaves every shapefile of the directory
    unconverted. *)
Theorem X29_process_files_stops_at_first_failure (path : string)
    (list_files names pre : list string) (f : string) (post : list string)
    (e : exn) w :
  path ≠ "" →
  vlisting w !! path = Some names →
  conversion_order names = (pre ++ f :: post)%list →
  Forall (λ f, ∃ g, convert path f = Ok g) pre →
  convert path f = Raise e →
  ∃ w',
    _process_files path list_files w = (Raise e, w')
    ∧ (∀ p f' g,
         last (filter (λ f, output_path path f = p) pre) = Some f' →
         convert path f' = Ok g → geojson w' !! p = Some g)
    ∧ (∀ p, filter (λ f, output_path path f = p) pre = [] →
            geojson w' !! p = geojson w !! p).
Proof.
  intros Hpath Hl Horder Hpre Hconv.
  destruct (conversions_exist path _ Hpre) as [val Hval].
  eexists. split; [by apply (process_files_fail path val _ pre f post)|].
  simpl. split.
  - intros p f' g Hlast Hg. rewrite last_writer, Hlast.
    assert (f' ∈ pre) as Hf.
    { apply last_Some in Hlast as [l' Hl'].
      assert (f' ∈ filter (λ f, output_path path f = p) pre)
        as Hin by (rewrite Hl'; apply elem_of_app; right; by left).
      by apply list_elem_of_filter in Hin as [_ ?]. }
    eapply Forall_forall in Hval; [|exact Hf]. congruence.
  - intros p Hnone. by rewrite last_writer, Hnone.
Qed.

(** X30.  Running [_process_files] again on the directory it has just
    converted changes nothing: the GeoJSON files it wrote are not taken for
    input, every file converts to what it gave before and every output is
    listed already. *)
Theorem X30_process_files_again_changes_nothing (path : string)
    (list_files list_files' names : list string) w :
  path ≠ "" →
  vlisting w !! path = Some names →
  Forall (λ f, ∃ g, convert path f = Ok g) (conversion_order names) →
  ∃ w',
    _process_files path list_files w = (Ok (), w')
    ∧ _process_files path list_files' w' = (Ok (), w').
Proof.
  intros Hpath Hl Hall. destruct (conversions_exist path _ Hall) as [val Hval].
  eexists. split; [by apply (process_files_ok path val)|].
  rewrite (process_files_ok path val list_files' _
             (foldl add_name names (output_name <$> conversion_order names)));
    [|done|simpl; apply lookup_insert_eq|by rewrite conversion_order_after].
  simpl. rewrite conversion_order_after, insert_insert_eq. f_equal. f_equal.
  - f_equal. apply foldl_add_name_id. intros n Hn.
    apply foldl_add_name_elem. by right.
  - apply map_eq. intros p. rewrite !last_writer.
    by destruct (last (filter _ _)).
Qed.
End process_files_facts.

(** ** Evaluations of the properties of the conversion *)

Lemma X28_process_files_last_writer_witness :
  ∃ w',
    @_process_files nat farms_shp farms_kml "farms" [] farms_fs = (Ok (), w')
    ∧ geojson w' !! "farms/a.geojson"
      = Some [GdfRow "a_0" (Polygon 1) [("Name", "north")];
              GdfRow "a_1" (Polygon 2) [("Name", "south")]].
Proof.
  destruct (@X28_process_files_last_writer nat farms_shp farms_kml "farms" []
              ["a.kml"; "a.shp"; "readme.txt"] farms_fs)
    as (w' & Hrun & Hlast & _).
  - discriminate.
  - reflexivity.
  - repeat (apply Forall_cons; split; [eexists; vm_compute; reflexivity|]).
    by apply Forall_nil.
  - exists w'. split; [exact Hrun|].
    apply (Hlast "farms/a.geojson" "a.shp"); vm_compute; reflexivity.
Defined.

Lemma X29_process_files_stops_at_first_failure_witness :
  ∃ w',
    @_process_files nat farms_shp farms_no_kml "farms" [] farms_fs
    = (Raise ValueError, w')
    ∧ geojson w' !! "farms/a.geojson" = None.
Proof.
  destruct (@X29_process_files_stops_at_first_failure nat farms_shp
              farms_no_kml "farms" [] ["a.kml"; "a.shp"; "readme.txt"]
              [] "a.kml" ["a.shp"] ValueError farms_fs)
    as (w' & Hrun & _ & Hnone).
  - discriminate.
  - reflexivity.
  - vm_compute. reflexivity.
  - by apply Forall_nil.
  - vm_compute. reflexivity.
  - exists w'. split; [exact Hrun|].
    rewrite (Hnone "farms/a.geojson"); reflexivity.
Defined.

Lemma X30_process_files_again_changes_nothing_witness :
  ∃ w',
    @_process_files nat farms_shp farms_kml "farms" [] farms_fs = (Ok (), w')
    ∧ @_process_files nat farms_shp farms_kml "farms" ["a.kml"] w'
      = (Ok (), w').
Proof.
  apply (@X30_process_files_again_changes_nothing nat farms_shp farms_kml
           "farms" [] ["a.kml"] ["a.kml"; "a.shp"; "readme.txt"] farms_fs).
  - discriminate.
  - reflexivity.
  - repeat (apply Forall_cons; split; [eexists; vm_compute; reflexivity|]).
    by apply Forall_nil.
Defined.
